(** * LPEL streams: a shallow embedding of [stream.c]

    The stream layer of LPEL connects one producer task and one consumer
    task through a bounded buffer, two signed counters ([n_sem], [e_sem])
    and a poll protocol over sets of read descriptors.

    The embedding follows [stream.c] function by function.  C objects live
    in typed heaps indexed by their address; a pointer is an address and
    [NULL] is address 0.  A call of the stream API is a computation in a
    monad that threads the heaps, may crash (dereference of a pointer that
    is not live, failed [assert], relocking a held lock, loop fuel
    exhausted) and records the calls it makes to the scheduler and to the
    monitoring layer.

    What runs while a task is suspended in [LpelTaskBlock] is the business
    of the other tasks: it is a parameter [resume] of the development, and
    a statement about a call that may suspend says what it needs of the
    memory the task resumes in.  Interleavings inside a call, between two
    suspension points, are not part of this model.  The loops of
    [LpelStreamPoll] run on fuel, and the statements about it give the
    fuel that suffices. *)

From Stdlib Require Import ZArith Lia List Ascii Bool ZifyBool.
From stdpp Require Import base gmap list.

Local Open Scope Z_scope.

(** ** Machine integers and pointers *)

Definition NULL : Z := 0.

(** [atomic_t] wraps an [int]; additions on it wrap around at 32 bits. *)
Definition wrap32 (z : Z) : Z := (z + 2 ^ 31) mod 2 ^ 32 - 2 ^ 31.

Definition INT_MAX : Z := 2 ^ 31 - 1.

(** [int] to [unsigned int], as in [s->uid = fetch_and_inc(..)]. *)
Definition to_unsigned (z : Z) : Z := z mod 2 ^ 32.

(** ** The buffer of [buffer.h] *)

(** Modelled from the spec: [buffer_t], whose declaration in [buffer.h] is
    not part of the sources at hand.  A ring of [capacity] slots with a
    consumer index and a producer index. *)
Record buffer_t := mk_buffer {
  capacity : nat;      (* number of slots *)
  pread : nat;         (* consumer index *)
  pwrite : nat;        (* producer index *)
  data : list Z        (* the slots; NULL marks a free slot *)
}.

(** The buffer functions of [buffer.h] are not part of the sources at hand
    either.  The spec asks for a fixed capacity ring with a producer and a
    consumer index in which a free slot holds the null sentinel: [Top] is
    the item at the head or null, [Pop] removes the head, [Put] appends at
    the tail, [IsSpace] tells whether the tail slot is free.  A slot index
    outside the ring reads as null and is not written. *)

(** Modelled from the spec: [_LpelBufferInit], a buffer of [size] free
    slots with both indices on the first one. *)
Definition buffer_init (size : nat) : buffer_t :=
  {| capacity := size; pread := 0; pwrite := 0; data := replicate size NULL |}.

(** Modelled from the spec: the successor of a slot index in the ring. *)
Definition buffer_advance (b : buffer_t) (i : nat) : nat :=
  if (S i <? capacity b)%nat then S i else 0%nat.

(** Modelled from the spec: [_LpelBufferTop], the item at the head, NULL
    when the buffer is empty. *)
Definition buffer_top (b : buffer_t) : Z := default NULL (data b !! pread b).

(** Modelled from the spec: [_LpelBufferPop], which frees the head slot
    and moves the consumer index on. *)
Definition buffer_pop (b : buffer_t) : buffer_t :=
  {| capacity := capacity b;
     pread := buffer_advance b (pread b);
     pwrite := pwrite b;
     data := <[pread b := NULL]> (data b) |}.

(** Modelled from the spec: [_LpelBufferIsSpace], whether the slot at the
    producer index is free. *)
Definition buffer_is_space (b : buffer_t) : bool :=
  default NULL (data b !! pwrite b) =? NULL.

(** Modelled from the spec: [_LpelBufferPut], which stores the item at
    the producer index and moves that index on. *)
Definition buffer_put (b : buffer_t) (item : Z) : buffer_t :=
  {| capacity := capacity b;
     pread := pread b;
     pwrite := buffer_advance b (pwrite b);
     data := <[pwrite b := item]> (data b) |}.

(** ** The objects of [stream.c] *)

(** [struct lpel_stream_t], lines 82-92.  [prod_lock] is [true] while the
    lock is held. *)
Record lpel_stream_t := mk_stream {
  buffer : buffer_t;
  uid : Z;
  prod_lock : bool;
  is_poll : Z;
  prod_sd : Z;
  cons_sd : Z;
  n_sem : Z;
  e_sem : Z
}.

(** Modelled from the spec: the stream descriptor, declared in [stream.h]
    (not part of the sources at hand), with the fields the spec lists and
    [stream.c] uses. *)
Record lpel_stream_desc_t := mk_desc {
  task : Z;
  stream : Z;
  mode : ascii;
  next : Z;
  mon : Z
}.

(** Modelled from the spec: the task, declared in [task.h] (not part of
    the sources at hand), reduced to the fields the spec lists and
    [stream.c] touches. *)
Record lpel_task_t := mk_task {
  task_mon : Z;
  poll_token : Z;
  wakeup_sd : Z
}.

(** Modelled from the spec: the reasons for which a task blocks, an
    enumeration of [task.h]. *)
Inductive lpel_taskstate_blocked_t :=
| BLOCKED_ON_INPUT
| BLOCKED_ON_OUTPUT
| BLOCKED_ON_ANYIN.

(** Calls that leave the stream layer: the scheduler and the monitoring
    callbacks. *)
Inductive event :=
| TaskBlock (self : Z) (why : lpel_taskstate_blocked_t)
| TaskUnblock (by_task target : Z)
| MonStreamClose (m : Z)
| MonStreamReplace (m new_uid : Z)
| MonStreamBlockon (m : Z)
| MonStreamWakeup (m : Z)
| MonStreamMoved (m item : Z).

(** The memory the stream layer works on. *)
Record World := mk_world {
  streams : gmap Z lpel_stream_t;
  descs : gmap Z lpel_stream_desc_t;
  tasks : gmap Z lpel_task_t;
  stream_seq : Z;        (* the static counter of line 94 *)
  heap_free : list Z;    (* addresses malloc hands out next; [] = exhausted *)
  current : Z            (* the running task, LpelTaskSelf() *)
}.

(** Field updates. *)
Definition set_buffer (v : buffer_t) (s : lpel_stream_t) : lpel_stream_t :=
  mk_stream v (uid s) (prod_lock s) (is_poll s) (prod_sd s) (cons_sd s) (n_sem s) (e_sem s).
Definition set_uid (v : Z) (s : lpel_stream_t) : lpel_stream_t :=
  mk_stream (buffer s) v (prod_lock s) (is_poll s) (prod_sd s) (cons_sd s) (n_sem s) (e_sem s).
Definition set_prod_lock (v : bool) (s : lpel_stream_t) : lpel_stream_t :=
  mk_stream (buffer s) (uid s) v (is_poll s) (prod_sd s) (cons_sd s) (n_sem s) (e_sem s).
Definition set_is_poll (v : Z) (s : lpel_stream_t) : lpel_stream_t :=
  mk_stream (buffer s) (uid s) (prod_lock s) v (prod_sd s) (cons_sd s) (n_sem s) (e_sem s).
Definition set_prod_sd (v : Z) (s : lpel_stream_t) : lpel_stream_t :=
  mk_stream (buffer s) (uid s) (prod_lock s) (is_poll s) v (cons_sd s) (n_sem s) (e_sem s).
Definition set_cons_sd (v : Z) (s : lpel_stream_t) : lpel_stream_t :=
  mk_stream (buffer s) (uid s) (prod_lock s) (is_poll s) (prod_sd s) v (n_sem s) (e_sem s).
Definition set_n_sem (v : Z) (s : lpel_stream_t) : lpel_stream_t :=
  mk_stream (buffer s) (uid s) (prod_lock s) (is_poll s) (prod_sd s) (cons_sd s) v (e_sem s).
Definition set_e_sem (v : Z) (s : lpel_stream_t) : lpel_stream_t :=
  mk_stream (buffer s) (uid s) (prod_lock s) (is_poll s) (prod_sd s) (cons_sd s) (n_sem s) v.

Definition set_task (v : Z) (d : lpel_stream_desc_t) : lpel_stream_desc_t :=
  mk_desc v (stream d) (mode d) (next d) (mon d).
Definition set_stream (v : Z) (d : lpel_stream_desc_t) : lpel_stream_desc_t :=
  mk_desc (task d) v (mode d) (next d) (mon d).
Definition set_mode (v : ascii) (d : lpel_stream_desc_t) : lpel_stream_desc_t :=
  mk_desc (task d) (stream d) v (next d) (mon d).
Definition set_next (v : Z) (d : lpel_stream_desc_t) : lpel_stream_desc_t :=
  mk_desc (task d) (stream d) (mode d) v (mon d).
Definition set_mon (v : Z) (d : lpel_stream_desc_t) : lpel_stream_desc_t :=
  mk_desc (task d) (stream d) (mode d) (next d) v.

Definition set_poll_token (v : Z) (t : lpel_task_t) : lpel_task_t :=
  mk_task (task_mon t) v (wakeup_sd t).
Definition set_wakeup_sd (v : Z) (t : lpel_task_t) : lpel_task_t :=
  mk_task (task_mon t) (poll_token t) v.

Definition with_streams (m : gmap Z lpel_stream_t) (w : World) : World :=
  mk_world m (descs w) (tasks w) (stream_seq w) (heap_free w) (current w).
Definition with_descs (m : gmap Z lpel_stream_desc_t) (w : World) : World :=
  mk_world (streams w) m (tasks w) (stream_seq w) (heap_free w) (current w).
Definition with_tasks (m : gmap Z lpel_task_t) (w : World) : World :=
  mk_world (streams w) (descs w) m (stream_seq w) (heap_free w) (current w).
Definition with_stream_seq (v : Z) (w : World) : World :=
  mk_world (streams w) (descs w) (tasks w) v (heap_free w) (current w).
Definition with_heap_free (l : list Z) (w : World) : World :=
  mk_world (streams w) (descs w) (tasks w) (stream_seq w) l (current w).

(** Contents of freshly allocated memory.  [LpelStreamCreate] and
    [LpelStreamOpen] assign every field before anything reads it. *)
Definition uninit_stream : lpel_stream_t :=
  mk_stream (mk_buffer 0 0 0 []) (-1) true (-1) (-1) (-1) (-1) (-1).
Definition uninit_desc : lpel_stream_desc_t :=
  mk_desc (-1) (-1) "000"%char (-1) (-1).

(** ** The monad of stream operations *)

Inductive fault :=
| Segfault          (* access through NULL or a dangling pointer *)
| AssertionFailed   (* assert(..) does not hold *)
| Deadlock          (* PRODLOCK_LOCK on a lock that is held *)
| OutOfFuel.        (* a loop bound of the model was reached *)

Inductive outcome (A : Type) :=
| Done (a : A) (w : World) (tr : list event)
| Crash (f : fault).
Arguments Done {A} a w tr.
Arguments Crash {A} f.

Definition M (A : Type) : Type := World -> outcome A.

Definition ret {A} (a : A) : M A := fun w => Done a w [].

Definition bind {A B} (m : M A) (k : A -> M B) : M B :=
  fun w =>
    match m w with
    | Done a w1 t1 =>
        match k a w1 with
        | Done b w2 t2 => Done b w2 (t1 ++ t2)
        | Crash f => Crash f
        end
    | Crash f => Crash f
    end.

Declare Scope lpel_scope.
Delimit Scope lpel_scope with lpel.
Notation "x <- m ;; k" := (bind m (fun x => k))
  (at level 100, m at next level, right associativity) : lpel_scope.
Notation "m ;; k" := (bind m (fun _ => k))
  (at level 100, right associativity) : lpel_scope.
Local Open Scope lpel_scope.

Definition crash {A} (f : fault) : M A := fun _ => Crash f.
Definition emit (e : event) : M unit := fun w => Done tt w [e].
Definition assert (b : bool) : M unit := if b then ret tt else crash AssertionFailed.

(** [deref m p]: the object a pointer designates, if it is live. *)
Definition deref {A} (m : gmap Z A) (p : Z) : option A :=
  if p =? NULL then None else m !! p.

Definition load_stream (p : Z) : M lpel_stream_t :=
  fun w => match deref (streams w) p with
           | Some s => Done s w []
           | None => Crash Segfault
           end.

Definition store_stream (p : Z) (f : lpel_stream_t -> lpel_stream_t) : M unit :=
  fun w => match deref (streams w) p with
           | Some s => Done tt (with_streams (<[p := f s]> (streams w)) w) []
           | None => Crash Segfault
           end.

Definition load_desc (p : Z) : M lpel_stream_desc_t :=
  fun w => match deref (descs w) p with
           | Some d => Done d w []
           | None => Crash Segfault
           end.

Definition store_desc (p : Z) (f : lpel_stream_desc_t -> lpel_stream_desc_t) : M unit :=
  fun w => match deref (descs w) p with
           | Some d => Done tt (with_descs (<[p := f d]> (descs w)) w) []
           | None => Crash Segfault
           end.

Definition load_task (p : Z) : M lpel_task_t :=
  fun w => match deref (tasks w) p with
           | Some t => Done t w []
           | None => Crash Segfault
           end.

Definition store_task (p : Z) (f : lpel_task_t -> lpel_task_t) : M unit :=
  fun w => match deref (tasks w) p with
           | Some t => Done tt (with_tasks (<[p := f t]> (tasks w)) w) []
           | None => Crash Segfault
           end.

(** [malloc(sizeof(lpel_stream_t))]: NULL when memory is exhausted. *)
Definition malloc_stream : M Z :=
  fun w => match heap_free w with
           | [] => Done NULL w []
           | p :: rest =>
               Done p (with_heap_free rest
                         (with_streams (<[p := uninit_stream]> (streams w)) w)) []
           end.

Definition malloc_desc : M Z :=
  fun w => match heap_free w with
           | [] => Done NULL w []
           | p :: rest =>
               Done p (with_heap_free rest
                         (with_descs (<[p := uninit_desc]> (descs w)) w)) []
           end.

Definition free_stream (p : Z) : M unit :=
  fun w => Done tt (with_streams (delete p (streams w)) w) [].

Definition free_desc (p : Z) : M unit :=
  fun w => Done tt (with_descs (delete p (descs w)) w) [].

(** ** Collaborators of [stream.c] *)

(** The address of an [atomic_t]: the static stream counter, one of the two
    counters of a stream, or the poll token of a task. *)
Inductive atomic_ref :=
| StreamSeq
| NSem (s : Z)
| ESem (s : Z)
| PollToken (t : Z).

Definition atomic_load (a : atomic_ref) : M Z :=
  match a with
  | StreamSeq => fun w => Done (stream_seq w) w []
  | NSem p => s <- load_stream p ;; ret (n_sem s)
  | ESem p => s <- load_stream p ;; ret (e_sem s)
  | PollToken p => t <- load_task p ;; ret (poll_token t)
  end.

Definition atomic_store (a : atomic_ref) (v : Z) : M unit :=
  match a with
  | StreamSeq => fun w => Done tt (with_stream_seq v w) []
  | NSem p => store_stream p (set_n_sem v)
  | ESem p => store_stream p (set_e_sem v)
  | PollToken p => store_task p (set_poll_token v)
  end.

(** The operations of [arch/atomic.h] are not part of the sources at hand.
    The spec describes the counters as signed atomic integers whose
    decrement and increment yield the value before the operation, and the
    token hand-off as an atomic exchange. *)

(** Modelled from the spec: [atomic_init] of [arch/atomic.h], the first
    assignment of a counter. *)
Definition atomic_init (a : atomic_ref) (v : Z) : M unit := atomic_store a v.

(** Modelled from the spec: [atomic_set] of [arch/atomic.h]. *)
Definition atomic_set (a : atomic_ref) (v : Z) : M unit := atomic_store a v.

(** Modelled from the spec: [atomic_read] of [arch/atomic.h]. *)
Definition atomic_read (a : atomic_ref) : M Z := atomic_load a.

(** Modelled from the spec: [atomic_destroy] of [arch/atomic.h], which
    changes nothing the stream layer reads afterwards. *)
Definition atomic_destroy (a : atomic_ref) : M unit := _ <- atomic_load a ;; ret tt.

(** Modelled from the spec: [fetch_and_inc] of [arch/atomic.h] yields the
    value before the increment. *)
Definition fetch_and_inc (a : atomic_ref) : M Z :=
  v <- atomic_load a ;; atomic_store a (wrap32 (v + 1)) ;; ret v.

(** Modelled from the spec: [fetch_and_dec] of [arch/atomic.h] yields the
    value before the decrement. *)
Definition fetch_and_dec (a : atomic_ref) : M Z :=
  v <- atomic_load a ;; atomic_store a (wrap32 (v - 1)) ;; ret v.

(** Modelled from the spec: [atomic_swap] of [arch/atomic.h], the atomic
    exchange. *)
Definition atomic_swap (a : atomic_ref) (v : Z) : M Z :=
  old <- atomic_load a ;; atomic_store a v ;; ret old.

(** The lock macros of lines 54-72.  Taking a lock that is held does not
    return. *)
Definition PRODLOCK_INIT (s : Z) : M unit := store_stream s (set_prod_lock false).

Definition PRODLOCK_DESTROY (s : Z) : M unit := _ <- load_stream s ;; ret tt.

Definition PRODLOCK_LOCK (s : Z) : M unit :=
  st <- load_stream s ;;
  if prod_lock st then crash Deadlock else store_stream s (set_prod_lock true).

Definition PRODLOCK_UNLOCK (s : Z) : M unit := store_stream s (set_prod_lock false).

(** The buffer functions applied to [&s->buffer], a field of the stream
    at address [s]. *)
Definition _LpelBufferInit (s : Z) (size : Z) : M unit :=
  store_stream s (set_buffer (buffer_init (Z.to_nat size))).

Definition _LpelBufferCleanup (s : Z) : M unit := _ <- load_stream s ;; ret tt.

Definition _LpelBufferTop (s : Z) : M Z :=
  st <- load_stream s ;; ret (buffer_top (buffer st)).

Definition _LpelBufferPop (s : Z) : M unit :=
  store_stream s (fun st => set_buffer (buffer_pop (buffer st)) st).

Definition _LpelBufferIsSpace (s : Z) : M bool :=
  st <- load_stream s ;; ret (buffer_is_space (buffer st)).

Definition _LpelBufferPut (s : Z) (item : Z) : M unit :=
  store_stream s (fun st => set_buffer (buffer_put (buffer st) item) st).

(** [sd->stream], [sd->task], [sd->mode], and a monitoring callback
    guarded by [if (sd->mon)]. *)
Definition sd_stream (sd : Z) : M Z := d <- load_desc sd ;; ret (stream d).
Definition sd_task (sd : Z) : M Z := d <- load_desc sd ;; ret (task d).
Definition sd_mode (sd : Z) : M ascii := d <- load_desc sd ;; ret (mode d).

Definition if_mon (sd : Z) (callback : Z -> M unit) : M unit :=
  d <- load_desc sd ;;
  if mon d =? NULL then ret tt else callback (mon d).

(** Modelled from the spec: the callbacks of [monitoring.h], which is not
    part of the sources at hand, are observation hooks; a call is
    recorded in the trace. *)
Definition LpelMonStreamClose (m : Z) : M unit := emit (MonStreamClose m).
Definition LpelMonStreamBlockon (m : Z) : M unit := emit (MonStreamBlockon m).
Definition LpelMonStreamWakeup (m : Z) : M unit := emit (MonStreamWakeup m).
Definition LpelMonStreamMoved (item : Z) (m : Z) : M unit := emit (MonStreamMoved m item).
Definition LpelMonStreamReplace (new_uid : Z) (m : Z) : M unit :=
  emit (MonStreamReplace m new_uid).

(** Modelled from the spec: [LpelTaskSelf] of [task.h] yields the task
    running on this worker. *)
Definition LpelTaskSelf : M Z := fun w => Done (current w) w [].

(** Modelled from the spec: [LpelTaskUnblock] of [task.h] marks the target
    ready without preempting the caller; the call is recorded in the
    trace. *)
Definition LpelTaskUnblock (by_task target : Z) : M unit :=
  emit (TaskUnblock by_task target).

(** Modelled from the spec: the stream set iterator of [streamset.h], a
    cursor into the set. *)
Record lpel_stream_iter_t := mk_iter {
  cur : Z;       (* last descriptor handed out, NULL before the first *)
  iter_set : Z   (* the value of [*set] *)
}.

(** The iterator functions of [streamset.h] are not part of the sources at
    hand.  A set is the pointer [*set] into a circular list of
    descriptors linked by [next]; the order is stable and the iterator
    restartable.  By the postcondition stated above [LpelStreamPoll]
    (lines 397-400) a traversal begins with the descriptor after [*set],
    so it ends with [*set] itself. *)

(** Modelled from the spec: [LpelStreamIterCreate], an iterator at the
    start of a traversal. *)
Definition LpelStreamIterCreate (set : Z) : lpel_stream_iter_t :=
  {| cur := NULL; iter_set := set |}.

(** Modelled from the spec: [LpelStreamIterReset], which restarts the
    traversal. *)
Definition LpelStreamIterReset (iter : lpel_stream_iter_t) (set : Z) : lpel_stream_iter_t :=
  {| cur := NULL; iter_set := set |}.

(** Modelled from the spec: [LpelStreamIterHasNext], false on the empty
    set and once [*set] has been handed out. *)
Definition LpelStreamIterHasNext (iter : lpel_stream_iter_t) : bool :=
  negb (iter_set iter =? NULL) && (negb (cur iter =? iter_set iter) || (cur iter =? NULL)).

(** Modelled from the spec: [LpelStreamIterNext], the descriptor after
    the cursor, or after [*set] at the start. *)
Definition LpelStreamIterNext (iter : lpel_stream_iter_t) : M (Z * lpel_stream_iter_t) :=
  assert (LpelStreamIterHasNext iter) ;;
  d <- load_desc (if cur iter =? NULL then iter_set iter else cur iter) ;;
  ret (next d, {| cur := next d; iter_set := iter_set iter |}).

Section Stream.

(** What the rest of the system has done to the memory by the time a task
    suspended by [LpelTaskBlock(self, why)] runs again. *)
Variable resume : Z -> lpel_taskstate_blocked_t -> World -> World.

(** [LpelMonStreamOpen(ct->mon, s->uid, mode)]: the monitoring handle of a
    new descriptor, NULL when the stream is not monitored. *)
Variable LpelMonStreamOpen : Z -> Z -> ascii -> Z.

(** The default capacity, a macro of [stream.h]. *)
Variable STREAM_BUFFER_SIZE : Z.

(** Modelled from the spec: [LpelTaskBlock] of [task.h] moves the calling
    task to the blocked state and returns only after some task has
    unblocked it; the memory it returns to is [resume self why w]. *)
Definition LpelTaskBlock (self : Z) (why : lpel_taskstate_blocked_t) : M unit :=
  emit (TaskBlock self why) ;;
  fun w => Done tt (resume self why w) [].

(** ** The stream API *)

(** Lines 105-124. *)
Definition LpelStreamCreate (size : Z) : M Z :=
  assert (0 <=? size) ;;
  let size := if size =? 0 then STREAM_BUFFER_SIZE else size in
  s <- malloc_stream ;;
  _LpelBufferInit s size ;;
  u <- fetch_and_inc StreamSeq ;;
  store_stream s (set_uid (to_unsigned u)) ;;
  PRODLOCK_INIT s ;;
  atomic_init (NSem s) 0 ;;
  atomic_init (ESem s) size ;;
  store_stream s (set_is_poll 0) ;;
  store_stream s (set_prod_sd NULL) ;;
  store_stream s (set_cons_sd NULL) ;;
  ret s.

(** Lines 135-142. *)
Definition LpelStreamDestroy (s : Z) : M unit :=
  PRODLOCK_DESTROY s ;;
  atomic_destroy (NSem s) ;;
  atomic_destroy (ESem s) ;;
  _LpelBufferCleanup s ;;
  free_stream s.

(** Lines 154-177. *)
Definition LpelStreamOpen (s : Z) (md : ascii) : M Z :=
  ct <- LpelTaskSelf ;;
  assert (Ascii.eqb md "r" || Ascii.eqb md "w") ;;
  sd <- malloc_desc ;;
  store_desc sd (set_task ct) ;;
  store_desc sd (set_stream s) ;;
  store_desc sd (set_mode md) ;;
  store_desc sd (set_next NULL) ;;
  t <- load_task ct ;;
  st <- load_stream s ;;
  store_desc sd (set_mon (LpelMonStreamOpen (task_mon t) (uid st) md)) ;;
  (if Ascii.eqb md "r" then store_stream s (set_cons_sd sd)
   else if Ascii.eqb md "w" then store_stream s (set_prod_sd sd)
   else ret tt) ;;
  ret sd.

(** Lines 185-194. *)
Definition LpelStreamClose (sd : Z) (destroy_s : Z) : M unit :=
  if_mon sd LpelMonStreamClose ;;
  (if destroy_s =? 0 then ret tt
   else s <- sd_stream sd ;; LpelStreamDestroy s) ;;
  free_desc sd.

(** Lines 205-217. *)
Definition LpelStreamReplace (sd : Z) (snew : Z) : M unit :=
  md <- sd_mode sd ;;
  assert (Ascii.eqb md "r") ;;
  old <- sd_stream sd ;;
  LpelStreamDestroy old ;;
  store_desc sd (set_stream snew) ;;
  s <- sd_stream sd ;;
  store_stream s (set_cons_sd sd) ;;
  if_mon sd (fun m => ns <- load_stream snew ;; LpelMonStreamReplace (uid ns) m).

(** Lines 226-229. *)
Definition LpelStreamGet (sd : Z) : M Z := sd_stream sd.

(** Lines 239-243. *)
Definition LpelStreamPeek (sd : Z) : M Z :=
  md <- sd_mode sd ;;
  assert (Ascii.eqb md "r") ;;
  s <- sd_stream sd ;;
  _LpelBufferTop s.

(** *** Read, lines 256-293 *)

(** Lines 263-269, quasi P(n_sem). *)
Definition read_P (sd self : Z) : M unit :=
  s <- sd_stream sd ;;
  n <- fetch_and_dec (NSem s) ;;
  if n =? 0 then
    if_mon sd LpelMonStreamBlockon ;;
    LpelTaskBlock self BLOCKED_ON_INPUT
  else ret tt.

(** Lines 272-276: read the top element and pop it. *)
Definition read_item (sd : Z) : M Z :=
  s <- sd_stream sd ;;
  item <- _LpelBufferTop s ;;
  assert (negb (item =? NULL)) ;;
  _LpelBufferPop s ;;
  ret item.

(** Lines 279-287, quasi V(e_sem). *)
Definition read_V (sd self : Z) : M unit :=
  s <- sd_stream sd ;;
  e <- fetch_and_inc (ESem s) ;;
  if e <? 0 then
    st <- load_stream s ;;
    prod <- sd_task (prod_sd st) ;;
    LpelTaskUnblock self prod ;;
    if_mon sd LpelMonStreamWakeup
  else ret tt.

Definition LpelStreamRead (sd : Z) : M Z :=
  self <- sd_task sd ;;
  md <- sd_mode sd ;;
  assert (Ascii.eqb md "r") ;;
  read_P sd self ;;
  item <- read_item sd ;;
  read_V sd self ;;
  if_mon sd (LpelMonStreamMoved item) ;;
  ret item.

(** *** Write, lines 308-365 *)

(** Lines 317-323, quasi P(e_sem). *)
Definition write_P (sd self : Z) : M unit :=
  s <- sd_stream sd ;;
  e <- fetch_and_dec (ESem s) ;;
  if e =? 0 then
    if_mon sd LpelMonStreamBlockon ;;
    LpelTaskBlock self BLOCKED_ON_OUTPUT
  else ret tt.

(** Lines 325-339: the section under [prod_lock]; yields [poll_wakeup]. *)
Definition write_deposit (sd item : Z) : M Z :=
  s <- sd_stream sd ;;
  PRODLOCK_LOCK s ;;
  space <- _LpelBufferIsSpace s ;;
  assert space ;;
  _LpelBufferPut s item ;;
  st <- load_stream s ;;
  poll_wakeup <-
    (if is_poll st =? 0 then ret 0
     else
       cons <- sd_task (cons_sd st) ;;
       tok <- atomic_swap (PollToken cons) 0 ;;
       store_stream s (set_is_poll 0) ;;
       ret tok) ;;
  PRODLOCK_UNLOCK s ;;
  ret poll_wakeup.

(** Lines 343-361, quasi V(n_sem). *)
Definition write_V (sd self poll_wakeup : Z) : M unit :=
  s <- sd_stream sd ;;
  n <- fetch_and_inc (NSem s) ;;
  if n <? 0 then
    st <- load_stream s ;;
    cons <- sd_task (cons_sd st) ;;
    LpelTaskUnblock self cons ;;
    if_mon sd LpelMonStreamWakeup
  else if poll_wakeup =? 0 then ret tt
  else
    st <- load_stream s ;;
    cons <- sd_task (cons_sd st) ;;
    store_task cons (set_wakeup_sd (cons_sd st)) ;;
    LpelTaskUnblock self cons ;;
    if_mon sd LpelMonStreamWakeup.

Definition LpelStreamWrite (sd item : Z) : M unit :=
  self <- sd_task sd ;;
  md <- sd_mode sd ;;
  assert (Ascii.eqb md "w") ;;
  assert (negb (item =? NULL)) ;;
  write_P sd self ;;
  poll_wakeup <- write_deposit sd item ;;
  write_V sd self poll_wakeup ;;
  if_mon sd (LpelMonStreamMoved item).

(** Lines 378-385. *)
Definition LpelStreamTryWrite (sd item : Z) : M Z :=
  s <- sd_stream sd ;;
  space <- _LpelBufferIsSpace s ;;
  if negb space then ret (-1)
  else LpelStreamWrite sd item ;; ret 0.

(** *** Poll, lines 402-489 *)

(** Lines 419-454: the scan.  Yields [do_ctx_switch] and [cnt].  The
    local [cnt] counts descriptors of one traversal and is kept as an
    unbounded integer. *)
Fixpoint poll_scan (fuel : nat) (self : Z) (iter : lpel_stream_iter_t) (cnt : Z)
  : M (Z * Z) :=
  match fuel with
  | O => crash OutOfFuel
  | S fuel' =>
      if LpelStreamIterHasNext iter then
        step <- LpelStreamIterNext iter ;;
        let '(sd, iter') := step in
        s <- sd_stream sd ;;
        PRODLOCK_LOCK s ;;
        top <- _LpelBufferTop s ;;
        if negb (top =? NULL) then
          tok <- atomic_swap (PollToken self) 0 ;;
          do_ctx_switch <-
            (if tok =? 0 then ret 1
             else store_task self (set_wakeup_sd sd) ;; ret 0) ;;
          PRODLOCK_UNLOCK s ;;
          ret (do_ctx_switch, cnt)
        else
          store_stream s (set_is_poll 1) ;;
          PRODLOCK_UNLOCK s ;;
          poll_scan fuel' self iter' (cnt + 1)
      else ret (1, cnt)
  end.

(** Lines 474-481: unregister the activators. *)
Fixpoint poll_disarm (fuel : nat) (iter : lpel_stream_iter_t) (cnt : Z) : M unit :=
  match fuel with
  | O => crash OutOfFuel
  | S fuel' =>
      if LpelStreamIterHasNext iter then
        step <- LpelStreamIterNext iter ;;
        let '(sd, iter') := step in
        s <- sd_stream sd ;;
        PRODLOCK_LOCK s ;;
        store_stream s (set_is_poll 0) ;;
        PRODLOCK_UNLOCK s ;;
        if cnt - 1 =? 0 then ret tt
        else poll_disarm fuel' iter' (cnt - 1)
      else ret tt
  end.

(** [LpelStreamPoll(set)] with [set] passed by value: the result pairs the
    returned descriptor with the new value of [*set].  [fuel] bounds the
    iterations of each of the two loops. *)
Definition LpelStreamPoll (fuel : nat) (set : Z) : M (Z * Z) :=
  assert (negb (set =? NULL)) ;;
  self <- sd_task set ;;
  atomic_set (PollToken self) 1 ;;
  let iter := LpelStreamIterCreate set in
  scanned <- poll_scan fuel self iter 0 ;;
  let '(do_ctx_switch, cnt) := scanned in
  (if do_ctx_switch =? 0 then ret tt
   else LpelTaskBlock self BLOCKED_ON_ANYIN) ;;
  tok <- atomic_read (PollToken self) ;;
  assert (tok =? 0) ;;
  let iter := LpelStreamIterReset iter set in
  poll_disarm fuel iter cnt ;;
  t <- load_task self ;;
  let set' := wakeup_sd t in
  t <- load_task self ;;
  ret (wakeup_sd t, set').

End Stream.

(** ** A concrete configuration

    One producer task (100) and one consumer task (200) share three
    streams (10, 11, 12) of capacity 2.  The producer holds the write
    descriptors 20, 21, 22; the consumer holds the read descriptors 30,
    31, 32, linked into a stream set in that order. *)

Definition no_interference : Z -> lpel_taskstate_blocked_t -> World -> World :=
  fun _ _ w => w.

Definition no_monitoring : Z -> Z -> ascii -> Z := fun _ _ _ => NULL.

Definition ex_stream (u prod cons : Z) : lpel_stream_t :=
  mk_stream (buffer_init 2) u false 0 prod cons 0 2.

Definition ex_streams : gmap Z lpel_stream_t :=
  <[10 := ex_stream 0 20 30]> (<[11 := ex_stream 1 21 31]> (<[12 := ex_stream 2 22 32]> ∅)).

Definition ex_descs : gmap Z lpel_stream_desc_t :=
  <[20 := mk_desc 100 10 "w" NULL NULL]>
  (<[21 := mk_desc 100 11 "w" NULL NULL]>
  (<[22 := mk_desc 100 12 "w" NULL NULL]>
  (<[30 := mk_desc 200 10 "r" 31 NULL]>
  (<[31 := mk_desc 200 11 "r" 32 NULL]>
  (<[32 := mk_desc 200 12 "r" 30 NULL]> ∅))))).

Definition ex_tasks : gmap Z lpel_task_t :=
  <[100 := mk_task NULL 0 NULL]> (<[200 := mk_task NULL 0 NULL]> ∅).

Definition ex_world : World :=
  mk_world ex_streams ex_descs ex_tasks 3 [40; 41; 42] 200.

(** The same configuration with the allocator exhausted. *)
Definition ex_world_oom : World := with_heap_free [] ex_world.

(** The memory a computation ends in, or the one it started from. *)
Definition world_after {A} (m : M A) (w : World) : World :=
  match m w with
  | Done _ w' _ => w'
  | Crash _ => w
  end.

(** ** Empty streams *)

(** An empty buffer: every slot is free and both indices designate the
    same slot of the ring. *)
Definition buffer_empty (b : buffer_t) : Prop :=
  data b = replicate (capacity b) NULL /\
  pread b = pwrite b /\
  (pwrite b < capacity b)%nat.

(** A stream at rest with nothing in it: [n_sem] is 0 and [e_sem] the
    capacity, which is a positive [int]. *)
Definition stream_empty (st : lpel_stream_t) : Prop :=
  buffer_empty (buffer st) /\
  n_sem st = 0 /\
  e_sem st = Z.of_nat (capacity (buffer st)) /\
  e_sem st <= INT_MAX.

(** ** Reading traces *)

Definition is_sched_call (e : event) : bool :=
  match e with
  | TaskBlock _ _ | TaskUnblock _ _ => true
  | _ => false
  end.

Definition is_unblock (e : event) : bool :=
  match e with
  | TaskUnblock _ _ => true
  | _ => false
  end.

(** The calls to [LpelTaskBlock] and [LpelTaskUnblock] in a trace. *)
Definition sched_calls (tr : list event) : list event := List.filter is_sched_call tr.

(** The calls to [LpelTaskUnblock] in a trace. *)
Definition unblock_calls (tr : list event) : list event := List.filter is_unblock tr.

(** [sd->task], or NULL when [sd] is not live. *)
Definition task_of (w : World) (sd : Z) : Z :=
  match deref (descs w) sd with
  | Some d => task d
  | None => NULL
  end.

(** ** Stream sets *)

(** [ring D set p l]: following the [next] links from descriptor [p]
    visits the descriptors [l], in this order, and reaches [set] with the
    last of them and not before. *)
Inductive ring (D : gmap Z lpel_stream_desc_t) (set : Z) : Z -> list Z -> Prop :=
| ring_last p d :
    deref D p = Some d -> next d = set -> ring D set p [set]
| ring_step p d l :
    deref D p = Some d -> next d <> set -> ring D set (next d) l ->
    ring D set p (next d :: l).

(** [*set] designates a circular list whose traversal yields [l]: it
    starts after [*set] and ends with it. *)
Definition stream_set (w : World) (set : Z) (l : list Z) : Prop :=
  ring (descs w) set set l.

(** [sd->stream], or NULL when [sd] is not live. *)
Definition stream_of (w : World) (sd : Z) : Z :=
  match deref (descs w) sd with
  | Some d => stream d
  | None => NULL
  end.

(** [LpelStreamPeek(sd) != NULL]: the buffer of the stream of [sd] has an
    item at its head. *)
Definition is_ready (w : World) (sd : Z) : bool :=
  match deref (streams w) (stream_of w sd) with
  | Some st => negb (buffer_top (buffer st) =? NULL)
  | None => false
  end.

(** The first descriptor of [l] with an item to read. *)
Fixpoint first_ready (w : World) (l : list Z) : option Z :=
  match l with
  | [] => None
  | sd :: l' => if is_ready w sd then Some sd else first_ready w l'
  end.

(** The descriptors of [l] before the first one with an item to read. *)
Fixpoint scanned_empty (w : World) (l : list Z) : list Z :=
  match l with
  | [] => []
  | sd :: l' => if is_ready w sd then [] else sd :: scanned_empty w l'
  end.

(** The descriptors the second loop of [LpelStreamPoll] visits when it
    starts with the counter at [cnt]. *)
Fixpoint disarmed (cnt : Z) (l : list Z) : list Z :=
  match l with
  | [] => []
  | sd :: l' => sd :: (if cnt - 1 =? 0 then [] else disarmed (cnt - 1) l')
  end.

(** [s->is_poll = v] for each stream [s] of a list. *)
Fixpoint set_poll_flags (v : Z) (ss : list Z) (S : gmap Z lpel_stream_t)
  : gmap Z lpel_stream_t :=
  match ss with
  | [] => S
  | s :: ss' => set_poll_flags v ss' (alter (set_is_poll v) s S)
  end.

(** The descriptor is live, and so is its stream, whose lock is free. *)
Definition desc_idle (w : World) (sd : Z) : Prop :=
  exists d st,
    deref (descs w) sd = Some d /\
    deref (streams w) (stream d) = Some st /\
    prod_lock st = false.

(** The stream of the descriptor is live and not registered as an
    activator. *)
Definition desc_unpolled (w : World) (sd : Z) : Prop :=
  exists st, deref (streams w) (stream_of w sd) = Some st /\ is_poll st = 0.

(** The memory at the point where [LpelStreamPoll] suspends the task: the
    token is placed and every stream of the set is an activator. *)
Definition poll_armed (w : World) (self : Z) (l : list Z) : World :=
  with_streams (set_poll_flags 1 (map (stream_of w) l) (streams w))
    (with_tasks (alter (set_poll_token 1) self (tasks w)) w).

(** What [LpelStreamPoll] relies on when it is resumed in [w2] after
    suspending in [w1]: the descriptors are as they were, the streams of
    the set are live with their locks free, and the producer that took the
    token has cleared it and has stored in [wakeup_sd] a descriptor of the
    set whose stream has an item. *)
Definition woken_by_producer (w1 w2 : World) (self : Z) (l : list Z) : Prop :=
  descs w2 = descs w1 /\
  (forall sd, In sd l -> desc_idle w2 sd) /\
  exists t2,
    deref (tasks w2) self = Some t2 /\
    poll_token t2 = 0 /\
    In (wakeup_sd t2) l /\
    is_ready w2 (wakeup_sd t2) = true.

(** Where the iterator stands: [c] is its cursor and [l] what it has yet
    to hand out. *)
Definition iter_at (D : gmap Z lpel_stream_desc_t) (set c : Z) (l : list Z) : Prop :=
  set <> NULL /\
  ((l = [] /\ c = set) \/
   ((c = NULL \/ c <> set) /\ ring D set (if c =? NULL then set else c) l)).

(** Two memories with the same descriptors whose streams hold the same
    buffers agree on which descriptors are ready. *)
Definition same_buffers (w w' : World) : Prop :=
  descs w' = descs w /\
  forall q, buffer <$> deref (streams w') q = buffer <$> deref (streams w) q.

(** [chain D p l]: following [next] from [p] visits [l]. *)
Fixpoint chain (D : gmap Z lpel_stream_desc_t) (p : Z) (l : list Z) : Prop :=
  match l with
  | [] => True
  | q :: l' => (exists d, deref D p = Some d /\ next d = q) /\ chain D q l'
  end.


(** ** Scenarios over the concrete configuration *)

(** What happens while the consumer is suspended: the producer writes
    [item] through its descriptor [sd]. *)
Definition producer_writes (sd item : Z) : Z -> lpel_taskstate_blocked_t -> World -> World :=
  fun _ _ w => world_after (LpelStreamWrite no_interference sd item) w.

(** Stream 11 holds the item 77. *)
Definition ex_world_item : World :=
  world_after (LpelStreamWrite no_interference 21 77) ex_world.

(** Stream 10 holds the items 5 and 6 and is full. *)
Definition ex_world_full : World :=
  world_after (LpelStreamWrite no_interference 20 5 ;; LpelStreamWrite no_interference 20 6)
    ex_world.

(** A new stream, at address 40, bound to no descriptor. *)
Definition ex_world_fresh : World :=
  world_after (LpelStreamCreate 16 2) ex_world.

(** The consumer has placed its poll token and registered the three
    streams of its set. *)
Definition ex_world_polling : World := poll_armed ex_world 200 [30; 31; 32].

(** What happens while the producer is suspended: the consumer reads an
    item through its descriptor [sd]. *)
Definition consumer_reads (sd : Z) : Z -> lpel_taskstate_blocked_t -> World -> World :=
  fun _ _ w => world_after (LpelStreamRead no_interference sd) w.

(** A stream of capacity 4 is created and opened at both ends; 10, 20
    and 30 are written, then three items are read.  The result lists the
    items read and the two counters at rest. *)
Definition simple_pipe : M (Z * Z * Z * Z * Z) :=
  s <- LpelStreamCreate 16 4 ;;
  sw <- LpelStreamOpen no_monitoring s "w" ;;
  sr <- LpelStreamOpen no_monitoring s "r" ;;
  LpelStreamWrite no_interference sw 10 ;;
  LpelStreamWrite no_interference sw 20 ;;
  LpelStreamWrite no_interference sw 30 ;;
  a <- LpelStreamRead no_interference sr ;;
  b <- LpelStreamRead no_interference sr ;;
  c <- LpelStreamRead no_interference sr ;;
  st <- load_stream s ;;
  ret (a, b, c, n_sem st, e_sem st).

(** The outcome of a computation without its final memory. *)
Definition observe {A} (o : outcome A) : option (A * list event) :=
  match o with
  | Done a _ tr => Some (a, tr)
  | Crash _ => None
  end.

(** The [is_poll] flags of the streams 10, 11 and 12. *)
Definition ex_flags (w : World) : list (option Z) :=
  map (fun s => is_poll <$> deref (streams w) s) [10; 11; 12].

(** ** What a buffer holds *)

(** The slot [k] places after the consumer index, around the ring. *)
Definition ring_slot (b : buffer_t) (k : nat) : Z :=
  default NULL (data b !! ((pread b + k) mod capacity b)%nat).

(** The buffer holds the items [q], oldest first: they fill the slots from
    the consumer index on, the other slots are free, and the producer
    index is on the first free one. *)
Definition buffer_holds (b : buffer_t) (q : list Z) : Prop :=
  length (data b) = capacity b /\
  (pread b < capacity b)%nat /\
  (length q <= capacity b)%nat /\
  pwrite b = ((pread b + length q) mod capacity b)%nat /\
  (forall k, (k < capacity b)%nat -> ring_slot b k = default NULL (q !! k)) /\
  Forall (fun x => x <> NULL) q.

(** A stream at rest that holds the items [q]: no lock held, no poll
    pending, [n_sem] counts the items and [e_sem] the free slots. *)
Definition stream_holds (st : lpel_stream_t) (q : list Z) : Prop :=
  buffer_holds (buffer st) q /\
  n_sem st = Z.of_nat (length q) /\
  e_sem st = Z.of_nat (capacity (buffer st)) - Z.of_nat (length q) /\
  Z.of_nat (capacity (buffer st)) <= INT_MAX /\
  prod_lock st = false /\
  is_poll st = 0.

(** The stream at address [s] is live and holds [q]. *)
Definition holds (w : World) (s : Z) (q : list Z) : Prop :=
  exists st, deref (streams w) s = Some st /\ stream_holds st q.

(** [LpelStreamWrite] of each item in turn. *)
Fixpoint write_all (resume : Z -> lpel_taskstate_blocked_t -> World -> World)
    (sd : Z) (items : list Z) : M unit :=
  match items with
  | [] => ret tt
  | item :: rest => LpelStreamWrite resume sd item ;; write_all resume sd rest
  end.

(** [n] calls of [LpelStreamRead], collecting what they return. *)
Fixpoint read_n (resume : Z -> lpel_taskstate_blocked_t -> World -> World)
    (sd : Z) (n : nat) : M (list Z) :=
  match n with
  | O => ret []
  | S n' =>
      item <- LpelStreamRead resume sd ;;
      rest <- read_n resume sd n' ;;
      ret (item :: rest)
  end.


(** Stream 11 of [ex_world_item], which holds the item 77. *)
Definition ex_stream_item : lpel_stream_t :=
  mk_stream (mk_buffer 2 0 1 [77; NULL]) 1 false 0 21 31 1 1.

(** Stream 10 of [ex_world_full], which holds the items 5 and 6. *)
Definition ex_stream_full : lpel_stream_t :=
  mk_stream (mk_buffer 2 0 0 [5; 6]) 0 false 0 20 30 2 0.
(** * Proofs *)

(** ** Running a computation *)

Lemma bind_Done {A B} (m : M A) (k : A -> M B) w a w1 t1 b w2 t2 :
  m w = Done a w1 t1 -> k a w1 = Done b w2 t2 ->
  bind m k w = Done b w2 (t1 ++ t2).
Proof. intros H1 H2. unfold bind. rewrite H1, H2. reflexivity. Qed.

Lemma bind_Done_Crash {A B} (m : M A) (k : A -> M B) w a w1 t1 f :
  m w = Done a w1 t1 -> k a w1 = Crash f -> bind m k w = Crash f.
Proof. intros H1 H2. unfold bind. rewrite H1, H2. reflexivity. Qed.

Lemma deref_Some {A} (m : gmap Z A) p x :
  deref m p = Some x <-> p <> NULL /\ m !! p = Some x.
Proof.
  unfold deref. destruct (Z.eqb_spec p NULL); split; intros H; try tauto; try discriminate.
Qed.

Lemma deref_insert_eq {A} (m : gmap Z A) p x :
  p <> NULL -> deref (<[p := x]> m) p = Some x.
Proof. intros. apply deref_Some. split; [done|]. apply lookup_insert_eq. Qed.

Lemma deref_insert_ne {A} (m : gmap Z A) p q x :
  p <> q -> deref (<[q := x]> m) p = deref m p.
Proof. intros. unfold deref. destruct (p =? NULL); [done|]. by apply lookup_insert_ne. Qed.

Lemma deref_delete_eq {A} (m : gmap Z A) p : deref (delete p m) p = None.
Proof. unfold deref. destruct (p =? NULL); [done|]. apply lookup_delete_eq. Qed.

Lemma deref_delete_ne {A} (m : gmap Z A) p q :
  p <> q -> deref (delete q m) p = deref m p.
Proof. intros. unfold deref. destruct (p =? NULL); [done|]. by apply lookup_delete_ne. Qed.

Lemma deref_not_NULL {A} (m : gmap Z A) p x : deref m p = Some x -> p <> NULL.
Proof. intros H. apply deref_Some in H. tauto. Qed.

Lemma load_stream_Done w p s :
  deref (streams w) p = Some s -> load_stream p w = Done s w [].
Proof. intros H. unfold load_stream. rewrite H. reflexivity. Qed.

Lemma store_stream_Done w p f s :
  deref (streams w) p = Some s ->
  store_stream p f w = Done tt (with_streams (<[p := f s]> (streams w)) w) [].
Proof. intros H. unfold store_stream. rewrite H. reflexivity. Qed.

Lemma load_desc_Done w p d :
  deref (descs w) p = Some d -> load_desc p w = Done d w [].
Proof. intros H. unfold load_desc. rewrite H. reflexivity. Qed.

Lemma store_desc_Done w p f d :
  deref (descs w) p = Some d ->
  store_desc p f w = Done tt (with_descs (<[p := f d]> (descs w)) w) [].
Proof. intros H. unfold store_desc. rewrite H. reflexivity. Qed.

Lemma load_task_Done w p t :
  deref (tasks w) p = Some t -> load_task p w = Done t w [].
Proof. intros H. unfold load_task. rewrite H. reflexivity. Qed.

Lemma store_task_Done w p f t :
  deref (tasks w) p = Some t ->
  store_task p f w = Done tt (with_tasks (<[p := f t]> (tasks w)) w) [].
Proof. intros H. unfold store_task. rewrite H. reflexivity. Qed.

Lemma malloc_stream_Done w p rest :
  heap_free w = p :: rest ->
  malloc_stream w =
  Done p (with_heap_free rest (with_streams (<[p := uninit_stream]> (streams w)) w)) [].
Proof. intros H. unfold malloc_stream. rewrite H. reflexivity. Qed.

Lemma malloc_desc_Done w p rest :
  heap_free w = p :: rest ->
  malloc_desc w =
  Done p (with_heap_free rest (with_descs (<[p := uninit_desc]> (descs w)) w)) [].
Proof. intros H. unfold malloc_desc. rewrite H. reflexivity. Qed.

Lemma bind_pure {A B} (m : M A) (k : A -> M B) w a w1 :
  m w = Done a w1 [] -> bind m k w = k a w1.
Proof. intros H. unfold bind. rewrite H. destruct (k a w1); reflexivity. Qed.

Lemma wrap32_small z : - 2 ^ 31 <= z < 2 ^ 31 -> wrap32 z = z.
Proof. intros H. unfold wrap32. rewrite Z.mod_small by lia. lia. Qed.

Lemma fmap_wakeup_sd_id (m : gmap Z lpel_task_t) k t :
  deref m k = Some t ->
  <[k := wakeup_sd t]> (wakeup_sd <$> m) = wakeup_sd <$> m.
Proof.
  intros H%deref_Some. apply insert_id.
  rewrite lookup_fmap. destruct H as [_ ->]. reflexivity.
Qed.

Lemma assert_Done b w : b = true -> assert b w = Done tt w [].
Proof. intros ->. reflexivity. Qed.

Lemma if_true_app {A B} (b : bool) (x y : A -> B) a r :
  b = true -> x a = r -> (if b then x else y) a = r.
Proof. intros -> ?. assumption. Qed.

Lemma if_false_app {A B} (b : bool) (x y : A -> B) a r :
  b = false -> y a = r -> (if b then x else y) a = r.
Proof. intros -> ?. assumption. Qed.

Create HintDb lpel discriminated.
#[local] Hint Unfold atomic_init atomic_set atomic_read atomic_destroy fetch_and_inc fetch_and_dec
  atomic_swap atomic_load atomic_store
  PRODLOCK_INIT PRODLOCK_DESTROY PRODLOCK_LOCK PRODLOCK_UNLOCK
  _LpelBufferInit _LpelBufferCleanup _LpelBufferTop _LpelBufferPop
  _LpelBufferIsSpace _LpelBufferPut
  sd_stream sd_task sd_mode if_mon
  LpelMonStreamClose LpelMonStreamBlockon LpelMonStreamWakeup LpelMonStreamMoved
  LpelMonStreamReplace LpelTaskUnblock LpelTaskBlock
  LpelStreamIterNext : lpel.

Ltac wsimpl :=
  cbv beta;
  cbn [streams descs tasks stream_seq heap_free current
       with_streams with_descs with_tasks with_stream_seq with_heap_free
       buffer uid prod_lock is_poll prod_sd cons_sd n_sem e_sem
       set_buffer set_uid set_prod_lock set_is_poll set_prod_sd set_cons_sd
       set_n_sem set_e_sem
       task stream mode next mon set_task set_stream set_mode set_next set_mon
       task_mon poll_token wakeup_sd set_poll_token set_wakeup_sd
       cur iter_set fst snd].

Ltac solve_neq := first [assumption | congruence | lia].

Ltac solve_bool :=
  wsimpl;
  first [ reflexivity | assumption | lia
        | match goal with H : _ = _ |- _ => rewrite H; reflexivity end ].

Ltac solve_deref :=
  wsimpl;
  repeat first [ rewrite deref_insert_eq by solve_neq
               | rewrite deref_insert_ne by solve_neq
               | rewrite deref_delete_ne by solve_neq ];
  first [ reflexivity | eassumption ].

Ltac run1 :=
  wsimpl;
  lazymatch goal with
  | |- _ ?w = Done _ _ _ => tryif is_evar w then fail else idtac
  | |- _ => idtac
  end;
  first [ eassumption |
  lazymatch goal with
  | |- bind _ _ _ = Done _ _ _ => eapply bind_Done
  | |- ret _ _ = Done _ _ _ => reflexivity
  | |- emit _ _ = Done _ _ _ => reflexivity
  | |- LpelTaskSelf _ = Done _ _ _ => reflexivity
  | |- malloc_stream _ = Done _ _ _ => eapply malloc_stream_Done; wsimpl; eassumption
  | |- malloc_desc _ = Done _ _ _ => eapply malloc_desc_Done; wsimpl; eassumption
  | |- free_stream _ _ = Done _ _ _ => reflexivity
  | |- free_desc _ _ = Done _ _ _ => reflexivity
  | |- load_stream _ _ = Done _ _ _ => eapply load_stream_Done; solve_deref
  | |- store_stream _ _ _ = Done _ _ _ => eapply store_stream_Done; solve_deref
  | |- load_desc _ _ = Done _ _ _ => eapply load_desc_Done; solve_deref
  | |- store_desc _ _ _ = Done _ _ _ => eapply store_desc_Done; solve_deref
  | |- load_task _ _ = Done _ _ _ => eapply load_task_Done; solve_deref
  | |- store_task _ _ _ = Done _ _ _ => eapply store_task_Done; solve_deref
  | |- assert _ _ = Done _ _ _ => eapply assert_Done; solve_bool
  | |- (fun _ => Done _ _ _) _ = Done _ _ _ => reflexivity
  | |- Done _ _ _ = Done _ _ _ => reflexivity
  | |- (if ?b then _ else _) _ = Done _ _ _ =>
      first [ eapply if_true_app; [solve [solve_bool] |]
            | eapply if_false_app; [solve [solve_bool] |] ]
  | |- (let '(_, _) := ?p in _) _ = _ => cbv iota
  | |- _ => progress autounfold with lpel
  end ].

Ltac run := repeat run1.

Lemma Done_trace {A} (o : outcome A) a w t t' :
  o = Done a w t' -> t' = t -> o = Done a w t.
Proof. intros -> ->. reflexivity. Qed.

Lemma Done_result {A} (o : outcome A) a a' w t t' :
  o = Done a' w t' -> a' = a -> t' = t -> o = Done a w t.
Proof. intros -> -> ->. reflexivity. Qed.

Ltac run_result := eapply Done_result; [run | | cbn [app]; try reflexivity].

Ltac run_trace := eapply Done_trace; [run | cbn [app]; try reflexivity].

(** * Creation, opening and replacement *)

Section Lifecycle.

Variable resume : Z -> lpel_taskstate_blocked_t -> World -> World.
Variable LpelMonStreamOpen : Z -> Z -> ascii -> Z.
Variable STREAM_BUFFER_SIZE : Z.

(** ** Creation *)

(** C7.  For every [size >= 0], [LpelStreamCreate size] (with memory
    available) returns a stream whose buffer is empty with capacity
    [size], or [STREAM_BUFFER_SIZE] when [size = 0], and whose [n_sem] is
    0, [e_sem] is the capacity, [is_poll] is clear and both descriptor
    pointers are NULL. *)
Theorem LpelStreamCreate_initial_state (size : Z) (w : World) (p : Z) (rest : list Z) :
  0 <= size ->
  0 <= STREAM_BUFFER_SIZE ->
  heap_free w = p :: rest ->
  p <> NULL ->
  let C := if size =? 0 then STREAM_BUFFER_SIZE else size in
  exists w' st,
    LpelStreamCreate STREAM_BUFFER_SIZE size w = Done p w' [] /\
    deref (streams w') p = Some st /\
    buffer st = buffer_init (Z.to_nat C) /\
    Z.of_nat (capacity (buffer st)) = C /\
    n_sem st = 0 /\
    e_sem st = C /\
    is_poll st = 0 /\
    prod_sd st = NULL /\
    cons_sd st = NULL.
Proof.
  intros Hsize Hdef Hfree Hp C.
  assert (0 <= C) as HC by (subst C; destruct (size =? 0); lia).
  eexists. eexists. split.
  - unfold LpelStreamCreate. run_trace.
  - split; [solve_deref|]. wsimpl.
    repeat split; try reflexivity.
    cbn [buffer_init capacity]. fold C. lia.
Qed.

(** C8 (amended).  [LpelStreamCreate] and [LpelStreamOpen] do not test the
    result of [malloc].  When the allocation fails, both go on to write
    through the null pointer: the call does not return a failure value, it
    crashes on the first field assignment. *)
Theorem allocation_failure_dereferences_null (size s : Z) (md : ascii) (w : World) :
  0 <= size ->
  md = "r"%char \/ md = "w"%char ->
  heap_free w = [] ->
  LpelStreamCreate STREAM_BUFFER_SIZE size w = Crash Segfault /\
  LpelStreamOpen LpelMonStreamOpen s md w = Crash Segfault.
Proof.
  intros Hsize Hmd Hfree. split.
  - unfold LpelStreamCreate.
    eapply bind_Done_Crash; [eapply assert_Done; lia|].
    eapply bind_Done_Crash.
    + unfold malloc_stream. rewrite Hfree. reflexivity.
    + reflexivity.
  - unfold LpelStreamOpen.
    eapply bind_Done_Crash; [reflexivity|].
    eapply bind_Done_Crash; [eapply assert_Done; destruct Hmd; subst md; reflexivity|].
    eapply bind_Done_Crash.
    + unfold malloc_desc. rewrite Hfree. reflexivity.
    + reflexivity.
Qed.

(** C10.  [LpelStreamOpen] does not check for a descriptor already bound:
    whatever [s->cons_sd] and [s->prod_sd] hold, the call succeeds,
    returns the newly allocated descriptor and stores it in [s->cons_sd]
    (mode 'r') or [s->prod_sd] (mode 'w'), leaving the other one alone. *)
Theorem LpelStreamOpen_overwrites_binding
    (s : Z) (md : ascii) (w : World) (st : lpel_stream_t) (ct : lpel_task_t)
    (p : Z) (rest : list Z) :
  md = "r"%char \/ md = "w"%char ->
  deref (streams w) s = Some st ->
  deref (tasks w) (current w) = Some ct ->
  heap_free w = p :: rest ->
  p <> NULL ->
  exists w',
    LpelStreamOpen LpelMonStreamOpen s md w = Done p w' [] /\
    deref (descs w') p =
      Some (mk_desc (current w) s md NULL (LpelMonStreamOpen (task_mon ct) (uid st) md)) /\
    deref (streams w') s =
      Some (if Ascii.eqb md "r" then set_cons_sd p st else set_prod_sd p st).
Proof.
  intros Hmd Hs Hct Hfree Hp.
  pose proof (deref_not_NULL _ _ _ Hs) as Hsn.
  unfold LpelStreamOpen.
  destruct Hmd; subst md; (eexists; split; [run_trace | split; solve_deref]).
Qed.

(** C9.  For a read descriptor [sd] and a live stream [snew] other than
    the one [sd] is bound to, [LpelStreamReplace sd snew] frees the old
    stream, binds [sd] to [snew] and [snew->cons_sd] to [sd]; the task,
    mode, next link and monitoring handle of [sd] keep their values, and
    so does every other descriptor. *)
Theorem LpelStreamReplace_rebinds
    (sd snew : Z) (w : World) (d : lpel_stream_desc_t) (old new : lpel_stream_t) :
  deref (descs w) sd = Some d ->
  mode d = "r"%char ->
  deref (streams w) (stream d) = Some old ->
  deref (streams w) snew = Some new ->
  snew <> stream d ->
  exists w' tr d',
    LpelStreamReplace sd snew w = Done tt w' tr /\
    deref (streams w') (stream d) = None /\
    deref (descs w') sd = Some d' /\
    stream d' = snew /\
    task d' = task d /\ mode d' = mode d /\ next d' = next d /\ mon d' = mon d /\
    deref (streams w') snew = Some (set_cons_sd sd new) /\
    (forall q, q <> sd -> descs w' !! q = descs w !! q) /\
    (forall q, q <> stream d -> q <> snew -> streams w' !! q = streams w !! q) /\
    tasks w' = tasks w.
Proof.
  intros Hd Hmode Hold Hnew Hne.
  pose proof (deref_not_NULL _ _ _ Hd) as Hsdn.
  pose proof (deref_not_NULL _ _ _ Hnew) as Hnn.
  assert (exists w' tr, LpelStreamReplace sd snew w = Done tt w' tr /\
            w' = with_descs (<[sd := set_stream snew d]> (descs w))
                   (with_streams (<[snew := set_cons_sd sd new]> (delete (stream d) (streams w))) w))
    as (w' & tr & Hrun & ->).
  { unfold LpelStreamReplace, LpelStreamDestroy.
    destruct (mon d =? NULL) eqn:Hmon.
    - eexists. eexists. split; [run|]. destruct w; reflexivity.
    - eexists. eexists. split; [run|]. destruct w; reflexivity. }
  eexists. exists tr, (set_stream snew d). split; [exact Hrun|].
  wsimpl. repeat split.
  - rewrite deref_insert_ne by congruence. apply deref_delete_eq.
  - solve_deref.
  - solve_deref.
  - intros q Hq. apply lookup_insert_ne. congruence.
  - intros q Hq1 Hq2. rewrite lookup_insert_ne, lookup_delete_ne by congruence. reflexivity.
Qed.


(** ** Non-blocking write *)

(** C6.  [LpelStreamTryWrite] on a stream whose buffer has no space
    returns -1 and changes nothing: the memory is the one it started from
    and no callback is made.  When the buffer has space it is
    [LpelStreamWrite] followed by the return of 0. *)
Theorem LpelStreamTryWrite_full_or_write
    (sd item : Z) (w : World) (d : lpel_stream_desc_t) (st : lpel_stream_t) :
  deref (descs w) sd = Some d ->
  deref (streams w) (stream d) = Some st ->
  LpelStreamTryWrite resume sd item w =
    if buffer_is_space (buffer st) then
      match LpelStreamWrite resume sd item w with
      | Done _ w' tr => Done 0 w' tr
      | Crash f => Crash f
      end
    else Done (-1) w [].
Proof.
  intros Hd Hst. unfold LpelStreamTryWrite.
  rewrite (bind_pure _ _ w (stream d) w) by run_trace.
  rewrite (bind_pure _ _ w (buffer_is_space (buffer st)) w) by run_trace.
  destruct (buffer_is_space (buffer st)); cbn [negb].
  - unfold bind. destruct (LpelStreamWrite resume sd item w); [|reflexivity].
    cbn [ret]. rewrite app_nil_r. reflexivity.
  - reflexivity.
Qed.

End Lifecycle.
(** * Reading and writing *)

Section ReadWrite.

Variable resume : Z -> lpel_taskstate_blocked_t -> World -> World.

Lemma buffer_empty_space b : buffer_empty b -> buffer_is_space b = true.
Proof.
  intros (Hd & Hp & Hlt). unfold buffer_is_space. rewrite Hd.
  rewrite lookup_replicate_2 by assumption. reflexivity.
Qed.

Lemma buffer_top_put b item : buffer_empty b -> buffer_top (buffer_put b item) = item.
Proof.
  intros (Hd & Hp & Hlt). unfold buffer_top, buffer_put. cbn [data pread].
  rewrite Hp, list_lookup_insert_eq; [reflexivity|].
  rewrite Hd, length_replicate. assumption.
Qed.

Lemma buffer_pop_put b item :
  buffer_empty b ->
  buffer_pop (buffer_put b item) =
  mk_buffer (capacity b) (buffer_advance b (pwrite b)) (buffer_advance b (pwrite b)) (data b).
Proof.
  intros (Hd & Hp & Hlt). unfold buffer_pop, buffer_put, buffer_advance.
  cbn [data pread pwrite capacity]. rewrite Hp. f_equal.
  rewrite list_insert_insert_eq. apply list_insert_id.
  rewrite Hd. apply lookup_replicate_2. assumption.
Qed.

Lemma buffer_empty_advance b :
  buffer_empty b ->
  buffer_empty (mk_buffer (capacity b) (buffer_advance b (pwrite b))
                  (buffer_advance b (pwrite b)) (data b)).
Proof.
  intros (Hd & Hp & Hlt). unfold buffer_empty, buffer_advance. cbn [data pread pwrite capacity].
  repeat split; [assumption|].
  destruct (Nat.ltb_spec (S (pwrite b)) (capacity b)); lia.
Qed.

(** C1.  On an empty stream, [LpelStreamWrite] of a non-null item
    followed by [LpelStreamRead] returns that item, and the stream is
    empty again: [n_sem] is back to 0 and [e_sem] back to the capacity.
    Neither call suspends its task. *)
Theorem write_then_read_returns_item
    (sd_w sd_r item : Z) (w : World) (dw dr : lpel_stream_desc_t) (st : lpel_stream_t) :
  deref (descs w) sd_w = Some dw ->
  mode dw = "w"%char ->
  deref (descs w) sd_r = Some dr ->
  mode dr = "r"%char ->
  stream dr = stream dw ->
  deref (streams w) (stream dw) = Some st ->
  stream_empty st ->
  prod_lock st = false ->
  (is_poll st <> 0 ->
   exists cd ct, deref (descs w) (cons_sd st) = Some cd /\ deref (tasks w) (task cd) = Some ct) ->
  item <> NULL ->
  exists w1 tr1 w2 tr2 st2,
    LpelStreamWrite resume sd_w item w = Done tt w1 tr1 /\
    LpelStreamRead resume sd_r w1 = Done item w2 tr2 /\
    deref (streams w2) (stream dw) = Some st2 /\
    stream_empty st2 /\
    n_sem st2 = 0 /\
    e_sem st2 = e_sem st /\
    capacity (buffer st2) = capacity (buffer st) /\
    (forall self why, ~ In (TaskBlock self why) (tr1 ++ tr2)).
Proof.
  intros Hdw Hmw Hdr Hmr Hsame Hst (Hbuf & Hn & He & Hmax) Hlock Hpoll Hitem.
  destruct dr as [tr sr mr nr monr]; cbn [stream mode mon] in *; subst sr mr.
  pose proof (deref_not_NULL _ _ _ Hst) as Hsn.
  pose proof (buffer_empty_space _ Hbuf) as Hspace.
  assert (0 < e_sem st) as Hpos by (destruct Hbuf as (_ & _ & ?); lia).
  unfold INT_MAX in Hmax.
  assert (wrap32 (e_sem st - 1) = e_sem st - 1) as Hw1 by (apply wrap32_small; lia).
  assert (wrap32 (e_sem st - 1 + 1) = e_sem st) as Hw2
    by (rewrite wrap32_small by lia; lia).
  assert (wrap32 (n_sem st + 1) = 1) as Hw3 by (rewrite Hn; reflexivity).
  assert (wrap32 (1 - 1) = 0) as Hw4 by reflexivity.
  pose proof (buffer_top_put _ item Hbuf) as Htop.
  pose proof (buffer_pop_put _ item Hbuf) as Hpop.
  assert (exists cd ct, is_poll st <> 0 ->
            deref (descs w) (cons_sd st) = Some cd /\ deref (tasks w) (task cd) = Some ct)
    as (cd & ct & Hcons).
  { destruct (Z.eq_dec (is_poll st) 0) as [Hz|Hz].
    - exists dw, (mk_task 0 0 0). intros; contradiction.
    - destruct (Hpoll Hz) as (cd & ct & H1 & H2). exists cd, ct. intros _. split; assumption. }
  clear Hpoll.
  assert (is_poll st = 0 \/ is_poll st <> 0 /\ task cd <> NULL) as Hip.
  { destruct (Z.eq_dec (is_poll st) 0) as [Hz|Hz]; [left; exact Hz|right].
    split; [exact Hz|]. destruct (Hcons Hz) as (_ & H2). exact (deref_not_NULL _ _ _ H2). }
  destruct (mon dw =? NULL) eqn:Hmonw; destruct (monr =? NULL) eqn:Hmonr;
    destruct (poll_token ct =? 0) eqn:Htok;
    (destruct Hip as [Hip|[Hip Htn]];
     [|destruct (Hcons Hip) as (Hcd & Hct)]);
    (do 5 eexists; split;
     [ unfold LpelStreamWrite, write_P, write_deposit, write_V; run
     | split;
       [ unfold LpelStreamRead, read_P, read_item, read_V; run_result; exact Htop
       | split; [solve_deref|] ] ]);
    unfold stream_empty; wsimpl; rewrite Hpop, Hw1, Hw2, Hw3, Hw4; cbn [capacity app In];
    (split; [split; [apply buffer_empty_advance; exact Hbuf|]|]);
    unfold INT_MAX; repeat split; try lia;
    intros self why Hin; repeat (destruct Hin as [Hin|Hin]; [discriminate Hin|]);
    exact Hin.
Qed.


(** C2.  [LpelStreamRead] calls [LpelTaskBlock(self, BLOCKED_ON_INPUT)]
    exactly when [n_sem] was 0 before the decrement, and calls
    [LpelTaskUnblock] on the producer task exactly when [e_sem] was -1
    before the increment; it makes no other call to the scheduler.  [w1]
    is the memory in which the item is taken: the one left by the
    decrement, or the one the task resumes in after blocking.  The
    counter [e_sem] never lies below -1, as only the one producer ever
    waits on it. *)
Theorem LpelStreamRead_blocks_and_unblocks
    (sd : Z) (w : World) (d : lpel_stream_desc_t) (st st1 : lpel_stream_t) :
  deref (descs w) sd = Some d ->
  mode d = "r"%char ->
  deref (streams w) (stream d) = Some st ->
  let w0 := with_streams (<[stream d := set_n_sem (wrap32 (n_sem st - 1)) st]> (streams w)) w in
  let w1 := if n_sem st =? 0 then resume (task d) BLOCKED_ON_INPUT w0 else w0 in
  deref (descs w1) sd = Some d ->
  deref (streams w1) (stream d) = Some st1 ->
  buffer_top (buffer st1) <> NULL ->
  -1 <= e_sem st1 ->
  (e_sem st1 = -1 -> exists pd, deref (descs w1) (prod_sd st1) = Some pd) ->
  exists w' tr,
    LpelStreamRead resume sd w = Done (buffer_top (buffer st1)) w' tr /\
    (In (TaskBlock (task d) BLOCKED_ON_INPUT) tr <-> n_sem st = 0) /\
    (In (TaskUnblock (task d) (task_of w1 (prod_sd st1))) tr <-> e_sem st1 = -1) /\
    sched_calls tr =
      (if n_sem st =? 0 then [TaskBlock (task d) BLOCKED_ON_INPUT] else []) ++
      (if e_sem st1 =? -1 then [TaskUnblock (task d) (task_of w1 (prod_sd st1))] else []).
Proof.
  intros Hd Hmode Hst w0 w1 Hd1 Hst1 Htop He Hprod.
  pose proof (deref_not_NULL _ _ _ Hst) as Hsn.
  assert (exists pd, e_sem st1 = -1 -> deref (descs w1) (prod_sd st1) = Some pd) as (pd & Hpd).
  { destruct (Z.eq_dec (e_sem st1) (-1)) as [Hz|Hz].
    - destruct (Hprod Hz) as (pd & H). exists pd. intros _. exact H.
    - exists d. intros; contradiction. }
  clear Hprod.
  subst w0 w1. revert Hd1 Hst1 Hpd. unfold task_of.
  destruct (Z.eqb_spec (n_sem st) 0) as [Hn|Hn]; intros Hd1 Hst1 Hpd.
  - destruct (mon d =? NULL) eqn:Hmon;
      destruct (Z.eqb_spec (e_sem st1) (-1)) as [He1|He1];
      try (specialize (Hpd He1); rewrite Hpd);
      (do 2 eexists; split;
       [ unfold LpelStreamRead, read_P, read_item, read_V; run_result; reflexivity
       | cbn [app sched_calls List.filter is_sched_call In];
         intuition (try discriminate; try lia; try congruence) ]).
  - cbn [descs streams with_streams] in *.
    rewrite deref_insert_eq in Hst1 by assumption.
    injection Hst1 as <-. cbn [e_sem prod_sd set_n_sem buffer] in *.
    destruct (mon d =? NULL) eqn:Hmon;
      destruct (Z.eqb_spec (e_sem st) (-1)) as [He1|He1];
      try (specialize (Hpd He1); rewrite Hpd);
      (do 2 eexists; split;
       [ unfold LpelStreamRead, read_P, read_item, read_V; run_result; reflexivity
       | cbn [app sched_calls List.filter is_sched_call In];
         intuition (try discriminate; try lia; try congruence) ]).
Qed.


(** C3.  After the increment of [n_sem], [LpelStreamWrite] does exactly
    one of three things.  If [n_sem] was -1 it unblocks the consumer task
    and leaves every task as it is.  Otherwise, if it took the poll token
    under the lock ([poll_wakeup] is not 0), it stores [cons_sd] in the
    [wakeup_sd] of the consumer task and unblocks that task.  Otherwise
    it unblocks nobody.  In all cases the call makes at most one call to
    [LpelTaskUnblock].  [w1] is the memory in which the item is
    deposited: the one left by the decrement of [e_sem], or the one the
    task resumes in after blocking.  The counter [n_sem] never lies below
    -1, as only the one consumer ever waits on it. *)
Theorem LpelStreamWrite_wakes_consumer_once
    (sd item : Z) (w : World) (d cd : lpel_stream_desc_t)
    (st st1 : lpel_stream_t) (ct : lpel_task_t) :
  deref (descs w) sd = Some d ->
  mode d = "w"%char ->
  item <> NULL ->
  deref (streams w) (stream d) = Some st ->
  let w0 := with_streams (<[stream d := set_e_sem (wrap32 (e_sem st - 1)) st]> (streams w)) w in
  let w1 := if e_sem st =? 0 then resume (task d) BLOCKED_ON_OUTPUT w0 else w0 in
  deref (descs w1) sd = Some d ->
  deref (streams w1) (stream d) = Some st1 ->
  prod_lock st1 = false ->
  buffer_is_space (buffer st1) = true ->
  -1 <= n_sem st1 ->
  (is_poll st1 <> 0 \/ n_sem st1 = -1 -> deref (descs w1) (cons_sd st1) = Some cd) ->
  (is_poll st1 <> 0 -> deref (tasks w1) (task cd) = Some ct) ->
  let poll_wakeup := if is_poll st1 =? 0 then 0 else poll_token ct in
  exists w' tr,
    LpelStreamWrite resume sd item w = Done tt w' tr /\
    (n_sem st1 = -1 ->
       unblock_calls tr = [TaskUnblock (task d) (task cd)] /\
       wakeup_sd <$> tasks w' = wakeup_sd <$> tasks w1) /\
    (n_sem st1 <> -1 -> poll_wakeup <> 0 ->
       unblock_calls tr = [TaskUnblock (task d) (task cd)] /\
       wakeup_sd <$> tasks w' = <[task cd := cons_sd st1]> (wakeup_sd <$> tasks w1)) /\
    (n_sem st1 <> -1 -> poll_wakeup = 0 ->
       unblock_calls tr = [] /\
       wakeup_sd <$> tasks w' = wakeup_sd <$> tasks w1) /\
    (length (unblock_calls tr) <= 1)%nat.
Proof.
  intros Hd Hmode Hitem Hst w0 w1 Hd1 Hst1 Hlock Hspace Hn Hcd Hct poll_wakeup.
  pose proof (deref_not_NULL _ _ _ Hst) as Hsn.
  assert (exists w' tr,
            (poll_wakeup <- write_deposit sd item ;;
             write_V sd (task d) poll_wakeup ;;
             if_mon sd (LpelMonStreamMoved item)) w1 = Done tt w' tr /\
            (n_sem st1 = -1 ->
               unblock_calls tr = [TaskUnblock (task d) (task cd)] /\
               wakeup_sd <$> tasks w' = wakeup_sd <$> tasks w1) /\
            (n_sem st1 <> -1 -> poll_wakeup <> 0 ->
               unblock_calls tr = [TaskUnblock (task d) (task cd)] /\
               wakeup_sd <$> tasks w' = <[task cd := cons_sd st1]> (wakeup_sd <$> tasks w1)) /\
            (n_sem st1 <> -1 -> poll_wakeup = 0 ->
               unblock_calls tr = [] /\
               wakeup_sd <$> tasks w' = wakeup_sd <$> tasks w1) /\
            (length (unblock_calls tr) <= 1)%nat) as (w' & tr & Hrest & Hposts).
  { clearbody w1. clear w0 Hst Hd st w.
    rename w1 into w.
    subst poll_wakeup.
    destruct (mon d =? NULL) eqn:Hmon;
    destruct (Z.eqb_spec (is_poll st1) 0) as [Hip|Hip];
    destruct (Z.eqb_spec (n_sem st1) (-1)) as [Hn1|Hn1];
    destruct (Z.eqb_spec (poll_token ct) 0) as [Htok|Htok];
    try (assert (deref (descs w) (cons_sd st1) = Some cd) as Hcd' by (apply Hcd; tauto));
    try (specialize (Hct Hip); pose proof (deref_not_NULL _ _ _ Hct) as Htn);
    (do 2 eexists; split;
       [ unfold write_deposit, write_V; run | ]);
    cbn [app unblock_calls List.filter is_unblock length]; wsimpl;
    (split; [|split; [|split]]);
    try (intros; exfalso; congruence);
    try (intros; exfalso; lia);
    try lia;
    intros; (split; [reflexivity|]);
    rewrite ?fmap_insert; cbn [wakeup_sd set_wakeup_sd set_poll_token];
    rewrite ?insert_insert_eq;
    try reflexivity;
    apply fmap_wakeup_sd_id; assumption. }
  subst w0 w1.
  destruct (Z.eqb_spec (e_sem st) 0) as [He|He];
    destruct (mon d =? NULL) eqn:Hmon;
    (eexists; eexists; split;
      [ unfold LpelStreamWrite, write_P; run
      | cbn [app]; unfold unblock_calls in *; cbn [List.filter is_unblock];
        exact Hposts ]).
Qed.
End ReadWrite.
(** * Polling a stream set *)

(** ** Stream sets and the iterator *)

Lemma ring_inv D set p q l :
  ring D set p (q :: l) ->
  exists d, deref D p = Some d /\ next d = q /\
            ((l = [] /\ q = set) \/ (q <> set /\ ring D set q l)).
Proof.
  intros H. inversion H; subst.
  - eexists. split; [eassumption|]. split; [reflexivity|]. left. split; reflexivity.
  - eexists. split; [eassumption|]. split; [reflexivity|]. right. split; assumption.
Qed.

Lemma ring_not_nil D set p : ~ ring D set p [].
Proof. intros H. inversion H. Qed.

Lemma ring_start_live D set p l : ring D set p l -> p <> NULL.
Proof. intros H. inversion H; subst; eapply deref_not_NULL; eassumption. Qed.

Lemma iter_at_start w set l :
  stream_set w set l -> iter_at (descs w) set NULL l.
Proof.
  intros H. split; [eapply ring_start_live; exact H|].
  right. split; [left; reflexivity|exact H].
Qed.

Lemma iter_at_done D set c :
  iter_at D set c [] ->
  LpelStreamIterHasNext {| cur := c; iter_set := set |} = false.
Proof.
  intros (Hset & [[_ ->]|[_ H]]); [|destruct (ring_not_nil _ _ _ H)].
  unfold LpelStreamIterHasNext. cbn [cur iter_set].
  rewrite Z.eqb_refl. destruct (set =? NULL); reflexivity.
Qed.

Lemma iter_at_next D set c q l w :
  descs w = D ->
  iter_at D set c (q :: l) ->
  LpelStreamIterHasNext {| cur := c; iter_set := set |} = true /\
  LpelStreamIterNext {| cur := c; iter_set := set |} w =
    Done (q, {| cur := q; iter_set := set |}) w [] /\
  iter_at D set q l.
Proof.
  intros HD (Hset & [[Hnil _]|[Hc Hring]]); [discriminate Hnil|].
  assert (LpelStreamIterHasNext {| cur := c; iter_set := set |} = true) as Hnext.
  { unfold LpelStreamIterHasNext. cbn [cur iter_set].
    destruct (Z.eqb_spec set NULL); [contradiction|].
    destruct (Z.eqb_spec c set), (Z.eqb_spec c NULL); try reflexivity.
    destruct Hc; contradiction. }
  destruct (ring_inv _ _ _ _ _ Hring) as (d & Hd & Hq & Hl).
  split; [exact Hnext|]. split.
  - unfold LpelStreamIterNext. rewrite Hnext. cbn [cur iter_set].
    subst D q. run_trace.
  - split; [exact Hset|]. destruct Hl as [[-> ->]|[Hne Hr]].
    + left. split; reflexivity.
    + right. split; [right; exact Hne|].
      pose proof (ring_start_live _ _ _ _ Hr) as Hqn.
      destruct (Z.eqb_spec q NULL); [contradiction|exact Hr].
Qed.

(** ** The flags set by the two loops *)

Lemma classic_in (q : Z) (l : list Z) : In q l \/ ~ In q l.
Proof. destruct (in_dec Z.eq_dec q l); [left|right]; assumption. Qed.

Lemma set_is_poll_unlock v st :
  prod_lock st = false ->
  set_prod_lock false (set_is_poll v (set_prod_lock true st)) = set_is_poll v st.
Proof. intros H. destruct st. cbn in *. subst. reflexivity. Qed.

Lemma insert_as_alter {A} (S : gmap Z A) s st f :
  deref S s = Some st -> <[s := f st]> S = alter f s S.
Proof.
  intros H%deref_Some. destruct H as [_ H]. apply map_eq. intros q.
  rewrite lookup_alter, lookup_insert.
  destruct (decide (s = q)) as [<-|]; [rewrite H|]; reflexivity.
Qed.

Lemma set_poll_flags_other v ss (S : gmap Z lpel_stream_t) q :
  ~ In q ss -> set_poll_flags v ss S !! q = S !! q.
Proof.
  revert S. induction ss as [|s ss IH]; intros S Hq; cbn [set_poll_flags]; [reflexivity|].
  rewrite IH by (intros H; apply Hq; right; exact H).
  apply lookup_alter_ne. intros ->. apply Hq. left. reflexivity.
Qed.

Lemma set_poll_flags_member v ss (S : gmap Z lpel_stream_t) q :
  In q ss -> set_poll_flags v ss S !! q = set_is_poll v <$> S !! q.
Proof.
  revert S. induction ss as [|s ss IH]; intros S Hq; cbn [set_poll_flags]; [destruct Hq|].
  destruct (classic_in q ss) as [Hi|Hi].
  - rewrite IH by exact Hi. rewrite lookup_alter.
    destruct (decide (s = q)) as [->|]; [|reflexivity]. destruct (S !! q); reflexivity.
  - destruct Hq as [->|Hq]; [|contradiction].
    rewrite set_poll_flags_other by exact Hi. apply lookup_alter_eq.
Qed.

Lemma deref_set_poll_flags_other v ss (S : gmap Z lpel_stream_t) q :
  ~ In q ss -> deref (set_poll_flags v ss S) q = deref S q.
Proof.
  intros H. unfold deref. destruct (q =? NULL); [reflexivity|].
  apply set_poll_flags_other, H.
Qed.

Lemma deref_set_poll_flags_member v ss (S : gmap Z lpel_stream_t) q :
  In q ss -> deref (set_poll_flags v ss S) q = set_is_poll v <$> deref S q.
Proof.
  intros H. unfold deref. destruct (q =? NULL); [reflexivity|].
  apply set_poll_flags_member, H.
Qed.

(** Whatever the flags, a stream keeps its buffer and its lock. *)
Lemma deref_set_poll_flags v ss (S : gmap Z lpel_stream_t) q st :
  deref S q = Some st ->
  exists st', deref (set_poll_flags v ss S) q = Some st' /\
              buffer st' = buffer st /\ prod_lock st' = prod_lock st /\
              (In q ss -> is_poll st' = v) /\ (~ In q ss -> st' = st).
Proof.
  intros H. destruct (classic_in q ss) as [Hi|Hi].
  - rewrite deref_set_poll_flags_member, H by exact Hi.
    eexists. split; [reflexivity|]. repeat split; try reflexivity. contradiction.
  - rewrite deref_set_poll_flags_other, H by exact Hi.
    eexists. split; [reflexivity|]. repeat split; try reflexivity. contradiction.
Qed.

(** ** The scan of [LpelStreamPoll] *)

Lemma Done_eq {A} (o : outcome A) a a' w w' t t' :
  o = Done a' w' t' -> a' = a -> w' = w -> t' = t -> o = Done a w t.
Proof. intros -> -> -> ->. reflexivity. Qed.

Lemma same_buffers_stream_of w w' sd :
  same_buffers w w' -> stream_of w' sd = stream_of w sd.
Proof. intros [HD _]. unfold stream_of. rewrite HD. reflexivity. Qed.

Lemma same_buffers_is_ready w w' sd :
  same_buffers w w' -> is_ready w' sd = is_ready w sd.
Proof.
  intros H. unfold is_ready. rewrite (same_buffers_stream_of _ _ _ H).
  destruct H as [_ H]. specialize (H (stream_of w sd)).
  destruct (deref (streams w') (stream_of w sd)), (deref (streams w) (stream_of w sd));
    cbn in H; try discriminate; [|reflexivity].
  injection H as ->. reflexivity.
Qed.

Lemma same_buffers_first_ready w w' l :
  same_buffers w w' -> first_ready w' l = first_ready w l.
Proof.
  intros H. induction l as [|sd l IH]; cbn [first_ready]; [reflexivity|].
  rewrite (same_buffers_is_ready _ _ _ H), IH. reflexivity.
Qed.

Lemma same_buffers_scanned_empty w w' l :
  same_buffers w w' -> scanned_empty w' l = scanned_empty w l.
Proof.
  intros H. induction l as [|sd l IH]; cbn [scanned_empty]; [reflexivity|].
  rewrite (same_buffers_is_ready _ _ _ H), IH. reflexivity.
Qed.

Lemma same_buffers_alter w v s :
  same_buffers w (with_streams (alter (set_is_poll v) s (streams w)) w).
Proof.
  split; [reflexivity|]. intros q. cbn [streams with_streams].
  unfold deref. destruct (q =? NULL); [reflexivity|].
  rewrite lookup_alter. destruct (decide (s = q)) as [->|]; [|reflexivity].
  destruct (streams w !! q); reflexivity.
Qed.

Lemma desc_idle_alter w v s sd :
  desc_idle w sd -> desc_idle (with_streams (alter (set_is_poll v) s (streams w)) w) sd.
Proof.
  intros (d & st & Hd & Hst & Hl). unfold desc_idle. cbn [streams descs with_streams].
  apply deref_Some in Hst. destruct Hst as [Hn Hst].
  destruct (Z.eq_dec s (stream d)) as [->|Hne].
  - exists d, (set_is_poll v st). split; [exact Hd|]. split; [|exact Hl].
    apply deref_Some. split; [exact Hn|]. rewrite lookup_alter_eq, Hst. reflexivity.
  - exists d, st. split; [exact Hd|]. split; [|exact Hl].
    apply deref_Some. split; [exact Hn|]. rewrite lookup_alter_ne by exact Hne. exact Hst.
Qed.

Ltac wnorm :=
  unfold with_streams, with_descs, with_tasks, with_stream_seq, with_heap_free in *;
  cbn [streams descs tasks stream_seq heap_free current] in *.

Lemma poll_scan_spec l :
  forall fuel self t set c cnt w,
    (length l < fuel)%nat ->
    iter_at (descs w) set c l ->
    (forall sd, In sd l -> desc_idle w sd) ->
    deref (tasks w) self = Some t ->
    poll_token t <> 0 ->
    poll_scan fuel self {| cur := c; iter_set := set |} cnt w =
    Done (match first_ready w l with Some _ => 0 | None => 1 end,
          cnt + Z.of_nat (length (scanned_empty w l)))
         (with_tasks
            (match first_ready w l with
             | Some sd => <[self := set_wakeup_sd sd (set_poll_token 0 t)]> (tasks w)
             | None => tasks w
             end)
            (with_streams
               (set_poll_flags 1 (map (stream_of w) (scanned_empty w l)) (streams w)) w))
         [].
Proof.
  induction l as [|sd l IH]; intros fuel self t set c cnt w Hfuel Hit Hidle Ht Htok.
  - destruct fuel as [|fuel]; [cbn in Hfuel; lia|].
    cbn [poll_scan]. rewrite (iter_at_done _ _ _ Hit).
    destruct w. cbn. rewrite Z.add_0_r. reflexivity.
  - destruct fuel as [|fuel]; [cbn in Hfuel; lia|].
    cbn [length] in Hfuel.
    destruct (iter_at_next _ _ _ _ _ w eq_refl Hit) as (Hnext & Hstep & Hit').
    destruct (Hidle sd (or_introl eq_refl)) as (d & st & Hd & Hst & Hlock).
    pose proof (deref_not_NULL _ _ _ Hst) as Hsn.
    pose proof (deref_not_NULL _ _ _ Ht) as Htn.
    assert (stream_of w sd = stream d) as Hof by (unfold stream_of; rewrite Hd; reflexivity).
    cbn [poll_scan first_ready scanned_empty]. rewrite Hnext.
    unfold is_ready. rewrite Hof, Hst.
    destruct (Z.eqb_spec (buffer_top (buffer st)) NULL) as [Htop|Htop]; cbn [negb].
    + (* nothing in the buffer: register the stream and go on *)
      eapply Done_eq.
      * run. wsimpl.
        rewrite !insert_insert_eq, (set_is_poll_unlock _ _ Hlock),
          (insert_as_alter _ _ _ _ Hst).
        eapply (IH fuel self t set sd (cnt + 1)).
        -- lia.
        -- exact Hit'.
        -- intros sd' Hin.
           apply (desc_idle_alter w 1 (stream d) sd'), Hidle. right. exact Hin.
        -- exact Ht.
        -- exact Htok.
      * pose proof (same_buffers_alter w 1 (stream d)) as Hsame. wnorm.
        rewrite (same_buffers_first_ready _ _ l Hsame),
          (same_buffers_scanned_empty _ _ l Hsame).
        cbn [length]. f_equal. lia.
      * pose proof (same_buffers_alter w 1 (stream d)) as Hsame. wnorm.
        rewrite (same_buffers_first_ready _ _ l Hsame),
          (same_buffers_scanned_empty _ _ l Hsame).
        cbn [map set_poll_flags]. rewrite Hof.
        rewrite (map_ext_in (stream_of _) (stream_of w))
          by (intros; apply (same_buffers_stream_of _ _ _ Hsame)).
        reflexivity.
      * reflexivity.
    + (* an item: take the token and stop *)
      eapply Done_eq.
      * run.
      * cbn [length]. rewrite Z.add_0_r. reflexivity.
      * wsimpl. cbn [map set_poll_flags].
        rewrite !insert_insert_eq.
        assert (set_prod_lock false (set_prod_lock true st) = st) as ->
          by (destruct st; cbn in *; subst; reflexivity).
        rewrite (insert_id (streams w)) by (apply deref_Some in Hst; tauto).
        reflexivity.
      * reflexivity.
Qed.

(** ** The second loop of [LpelStreamPoll] *)

Lemma poll_disarm_spec l :
  forall fuel set c cnt w,
    (length l < fuel)%nat ->
    iter_at (descs w) set c l ->
    (forall sd, In sd l -> desc_idle w sd) ->
    poll_disarm fuel {| cur := c; iter_set := set |} cnt w =
    Done tt
      (with_streams
         (set_poll_flags 0 (map (stream_of w) (disarmed cnt l)) (streams w)) w)
      [].
Proof.
  induction l as [|sd l IH]; intros fuel set c cnt w Hfuel Hit Hidle.
  - destruct fuel as [|fuel]; [cbn in Hfuel; lia|].
    cbn [poll_disarm]. rewrite (iter_at_done _ _ _ Hit).
    destruct w. reflexivity.
  - destruct fuel as [|fuel]; [cbn in Hfuel; lia|].
    cbn [length] in Hfuel.
    destruct (iter_at_next _ _ _ _ _ w eq_refl Hit) as (Hnext & Hstep & Hit').
    destruct (Hidle sd (or_introl eq_refl)) as (d & st & Hd & Hst & Hlock).
    pose proof (deref_not_NULL _ _ _ Hst) as Hsn.
    assert (stream_of w sd = stream d) as Hof by (unfold stream_of; rewrite Hd; reflexivity).
    pose proof (same_buffers_alter w 0 (stream d)) as Hsame.
    cbn [poll_disarm disarmed]. rewrite Hnext.
    destruct (Z.eqb_spec (cnt - 1) 0) as [Hcnt|Hcnt].
    + eapply Done_eq.
      * run.
      * reflexivity.
      * wnorm. cbn [map set_poll_flags]. rewrite Hof.
        rewrite !insert_insert_eq, (set_is_poll_unlock _ _ Hlock),
          (insert_as_alter _ _ _ _ Hst).
        reflexivity.
      * reflexivity.
    + eapply Done_eq.
      * run. wsimpl.
        rewrite !insert_insert_eq, (set_is_poll_unlock _ _ Hlock),
          (insert_as_alter _ _ _ _ Hst).
        eapply (IH fuel set sd (cnt - 1)).
        -- lia.
        -- exact Hit'.
        -- intros sd' Hin.
           apply (desc_idle_alter w 0 (stream d) sd'), Hidle. right. exact Hin.
      * reflexivity.
      * wnorm. cbn [map set_poll_flags]. rewrite Hof.
        rewrite (map_ext_in (stream_of _) (stream_of w))
          by (intros; apply (same_buffers_stream_of _ _ _ Hsame)).
        reflexivity.
      * reflexivity.
Qed.

(** ** What the two loops visit *)

Lemma first_ready_Some w l r :
  first_ready w l = Some r -> In r l /\ is_ready w r = true.
Proof.
  induction l as [|sd l IH]; cbn [first_ready]; [discriminate|].
  destruct (is_ready w sd) eqn:Hr.
  - intros [= ->]. split; [left; reflexivity|exact Hr].
  - intros H. destruct (IH H). split; [right|]; assumption.
Qed.

Lemma first_ready_not_scanned w l r :
  first_ready w l = Some r -> ~ In r (scanned_empty w l).
Proof.
  intros H Hin. apply first_ready_Some in H. destruct H as [_ Hr].
  induction l as [|sd l IH]; cbn [scanned_empty] in Hin; [destruct Hin|].
  destruct (is_ready w sd) eqn:Hsd; [destruct Hin|].
  destruct Hin as [->|Hin]; [congruence|auto].
Qed.

Lemma first_ready_None w l : first_ready w l = None -> scanned_empty w l = l.
Proof.
  induction l as [|sd l IH]; cbn [first_ready scanned_empty]; [reflexivity|].
  destruct (is_ready w sd); [discriminate|]. intros H. rewrite IH by exact H. reflexivity.
Qed.

Lemma scanned_empty_incl w l sd : In sd (scanned_empty w l) -> In sd l.
Proof.
  induction l as [|x l IH]; cbn [scanned_empty]; [tauto|].
  destruct (is_ready w x); [intros []|]. intros [->|H]; [left; reflexivity|right; auto].
Qed.

Lemma disarmed_nonpos cnt l : cnt <= 0 -> disarmed cnt l = l.
Proof.
  revert cnt. induction l as [|sd l IH]; intros cnt H; cbn [disarmed]; [reflexivity|].
  destruct (Z.eqb_spec (cnt - 1) 0); [lia|]. rewrite IH by lia. reflexivity.
Qed.

Lemma disarmed_all l (k : nat) :
  (length l <= k)%nat -> disarmed (Z.of_nat k) l = l.
Proof.
  revert k. induction l as [|sd l IH]; intros k H; cbn [disarmed]; [reflexivity|].
  cbn [length] in H. destruct (Z.eqb_spec (Z.of_nat k - 1) 0) as [Hk|Hk].
  - destruct l; [reflexivity|cbn [length] in H; lia].
  - replace (Z.of_nat k - 1) with (Z.of_nat (k - 1)) by lia.
    rewrite IH by lia. reflexivity.
Qed.

(** The second loop visits every descriptor the scan has registered. *)
Lemma scanned_empty_disarmed w l sd :
  In sd (scanned_empty w l) ->
  In sd (disarmed (Z.of_nat (length (scanned_empty w l))) l).
Proof.
  induction l as [|x l IH]; cbn [scanned_empty]; [tauto|].
  destruct (is_ready w x); [intros []|].
  cbn [length disarmed]. intros [->|H]; [left; reflexivity|right].
  destruct (Z.eqb_spec (Z.of_nat (S (length (scanned_empty w l))) - 1) 0) as [Hk|Hk].
  - destruct (scanned_empty w l); [destruct H|cbn [length] in Hk; lia].
  - replace (Z.of_nat (S (length (scanned_empty w l))) - 1)
      with (Z.of_nat (length (scanned_empty w l))) by lia.
    apply IH, H.
Qed.

Lemma disarmed_incl cnt l sd : In sd (disarmed cnt l) -> In sd l.
Proof.
  revert cnt. induction l as [|x l IH]; intros cnt; cbn [disarmed]; [tauto|].
  intros [->|H]; [left; reflexivity|right].
  destruct (cnt - 1 =? 0); [destruct H|eapply IH, H].
Qed.

(** ** Rotating a stream set *)

Lemma chain_app D p a x b :
  chain D p ((a ++ [x]) ++ b) <-> chain D p (a ++ [x]) /\ chain D x b.
Proof.
  revert p. induction a as [|y a IH]; intros p; cbn [chain app].
  - tauto.
  - rewrite IH. tauto.
Qed.

Lemma list_eq_nil_or_snoc (l : list Z) : l = [] \/ exists l' z, l = l' ++ [z].
Proof.
  destruct l as [|x l]; [left; reflexivity|right].
  destruct (@exists_last _ (x :: l) ltac:(discriminate)) as (l' & z & H). eauto.
Qed.

Lemma chain_det D p a b :
  chain D p a -> chain D p b -> (length a <= length b)%nat -> exists c, b = a ++ c.
Proof.
  revert p b. induction a as [|x a IH]; intros p b Ha Hb Hlen.
  - exists b. reflexivity.
  - destruct b as [|y b]; [cbn in Hlen; lia|].
    destruct Ha as [(d & Hd & Hx) Ha], Hb as [(d' & Hd' & Hy) Hb].
    assert (x = y) as <- by congruence.
    destruct (IH x b Ha Hb) as (c & ->); [cbn in Hlen; lia|].
    exists c. reflexivity.
Qed.

Lemma ring_chain D set p l :
  ring D set p l ->
  chain D p l /\ exists l', l = l' ++ [set] /\ forall x, In x l' -> x <> set.
Proof.
  induction 1 as [p d Hd Hn|p d l Hd Hn Hr (Hc & l' & -> & Hl')].
  - split; [cbn; eauto|]. exists []. split; [reflexivity|]. intros x [].
  - split; [cbn; eauto|]. exists (next d :: l'). split; [reflexivity|].
    intros x [<-|Hx]; [exact Hn|exact (Hl' x Hx)].
Qed.

Lemma chain_ring D set p l' :
  chain D p (l' ++ [set]) -> (forall x, In x l' -> x <> set) -> ring D set p (l' ++ [set]).
Proof.
  revert p. induction l' as [|x l' IH]; intros p Hc Hne.
  - destruct Hc as [(d & Hd & Hn) _]. exact (ring_last D set p d Hd Hn).
  - destruct Hc as [(d & Hd & Hn) Hc]. cbn [app]. subst x.
    apply (ring_step D set p d (l' ++ [set]) Hd).
    + apply Hne. left. reflexivity.
    + apply IH; [exact Hc|]. intros y Hy. apply Hne. right. exact Hy.
Qed.

(** The descriptors of a stream set are pairwise distinct. *)
Lemma ring_NoDup D set p l : ring D set p l -> List.NoDup l.
Proof.
  induction 1 as [p d Hd Hn|p d l Hd Hn Hr IH].
  - constructor; [intros []|constructor].
  - constructor; [|exact IH]. intros Hin.
    destruct (ring_chain _ _ _ _ Hr) as (Hc & l' & Heq & Hl').
    apply in_split in Hin. destruct Hin as (a & b & Hab).
    assert (chain D (next d) b) as Hb.
    { rewrite Hab in Hc. change (a ++ next d :: b) with (a ++ [next d] ++ b) in Hc.
      rewrite app_assoc in Hc. apply chain_app in Hc. tauto. }
    destruct (chain_det D (next d) b l Hb Hc) as (c & Hbc).
    { rewrite Hab, length_app. cbn. lia. }
    destruct (list_eq_nil_or_snoc b) as [->|(b' & z & ->)].
    + (* [next d] is the last element, which is [set] *)
      rewrite Heq in Hab. apply app_inj_tail in Hab. destruct Hab as [_ Hab]. congruence.
    + (* [set] ends [b], a proper prefix of [l] *)
      assert (z = set) as ->.
      { rewrite Heq in Hab.
        change (a ++ next d :: b' ++ [z]) with (a ++ (next d :: b') ++ [z]) in Hab.
        rewrite app_assoc in Hab. apply app_inj_tail in Hab.
        destruct Hab as [_ Hab]. congruence. }
      destruct (list_eq_nil_or_snoc c) as [->|(c' & z' & ->)].
      * rewrite app_nil_r in Hbc. rewrite Hbc in Hab.
        apply (f_equal (@length Z)) in Hab.
        repeat (rewrite ?length_app in Hab; cbn [length] in Hab). lia.
      * rewrite Heq in Hbc. rewrite app_assoc in Hbc.
        apply app_inj_tail in Hbc. destruct Hbc as [Hl'eq _].
        apply (Hl' set); [|reflexivity].
        rewrite Hl'eq. apply in_or_app. left. apply in_or_app. right. left. reflexivity.
Qed.

Lemma ring_rotate D set l1 sd l2 :
  ring D set set (l1 ++ sd :: l2) -> ring D sd sd (l2 ++ l1 ++ [sd]).
Proof.
  intros Hr. pose proof (ring_NoDup _ _ _ _ Hr) as Hnd.
  destruct (ring_chain _ _ _ _ Hr) as (Hc & l' & Heq & _).
  change (l1 ++ sd :: l2) with (l1 ++ [sd] ++ l2) in Hc, Heq.
  rewrite app_assoc in Hc, Heq.
  apply chain_app in Hc. destruct Hc as [Hc1 Hc2].
  rewrite app_assoc. apply chain_ring.
  - destruct (list_eq_nil_or_snoc l2) as [->|(l2' & z & ->)].
    + rewrite app_nil_r in Heq. apply app_inj_tail in Heq. destruct Heq as [_ <-].
      exact Hc1.
    + rewrite app_assoc in Heq. apply app_inj_tail in Heq. destruct Heq as [_ ->].
      rewrite <- app_assoc. apply chain_app. split; assumption.
  - intros x Hx Heqx. subst x. apply NoDup_remove_2 in Hnd. apply Hnd.
    apply in_app_or in Hx. apply in_or_app. tauto.
Qed.

Lemma same_buffers_flags w w' v ss :
  descs w' = descs w ->
  streams w' = set_poll_flags v ss (streams w) ->
  same_buffers w w'.
Proof.
  intros HD HS. split; [exact HD|]. intros q. rewrite HS.
  destruct (deref (streams w) q) as [st|] eqn:Hq.
  - destruct (deref_set_poll_flags v ss _ _ _ Hq) as (st' & -> & Hb & _).
    cbn. rewrite Hb. reflexivity.
  - destruct (classic_in q ss) as [Hi|Hi].
    + rewrite deref_set_poll_flags_member, Hq by exact Hi. reflexivity.
    + rewrite deref_set_poll_flags_other, Hq by exact Hi. reflexivity.
Qed.

Lemma same_buffers_trans w1 w2 w3 :
  same_buffers w1 w2 -> same_buffers w2 w3 -> same_buffers w1 w3.
Proof.
  intros [HD1 HB1] [HD2 HB2]. split; [congruence|].
  intros q. rewrite HB2. apply HB1.
Qed.

Lemma desc_idle_stream_of w sd :
  desc_idle w sd ->
  exists st, deref (streams w) (stream_of w sd) = Some st /\ prod_lock st = false.
Proof.
  intros (d & st & Hd & Hst & Hl). unfold stream_of. rewrite Hd. eauto.
Qed.


(** ** [LpelStreamPoll] *)

Lemma stream_set_live w set l :
  stream_set w set l -> exists ds, deref (descs w) set = Some ds.
Proof. intros H. inversion H; subst; eexists; eassumption. Qed.

Lemma same_buffers_with_tasks w T : same_buffers w (with_tasks T w).
Proof. split; reflexivity. Qed.

(** [is_ready] is what [LpelStreamPeek] reports on a read descriptor. *)
Lemma is_ready_Peek w sd d :
  deref (descs w) sd = Some d ->
  mode d = "r"%char ->
  is_ready w sd = true ->
  exists item, LpelStreamPeek sd w = Done item w [] /\ item <> NULL.
Proof.
  intros Hd Hmode Hready. unfold is_ready, stream_of in Hready. rewrite Hd in Hready.
  destruct (deref (streams w) (stream d)) as [st|] eqn:Hst; [|discriminate].
  exists (buffer_top (buffer st)). split.
  - unfold LpelStreamPeek. run_trace.
  - destruct (Z.eqb_spec (buffer_top (buffer st)) NULL); [discriminate|assumption].
Qed.

Section Poll.

Variable resume : Z -> lpel_taskstate_blocked_t -> World -> World.

(** The scan finds an item: no suspension. *)
Lemma LpelStreamPoll_ready fuel set w l ds t r :
  stream_set w set l ->
  (length l < fuel)%nat ->
  (forall sd, In sd l -> desc_idle w sd) ->
  deref (descs w) set = Some ds ->
  deref (tasks w) (task ds) = Some t ->
  first_ready w l = Some r ->
  exists w',
    LpelStreamPoll resume fuel set w = Done (r, r) w' [] /\
    descs w' = descs w /\
    streams w' =
      set_poll_flags 0
        (map (stream_of w) (disarmed (Z.of_nat (length (scanned_empty w l))) l))
        (set_poll_flags 1 (map (stream_of w) (scanned_empty w l)) (streams w)) /\
    deref (tasks w') (task ds) = Some (set_wakeup_sd r (set_poll_token 0 t)).
Proof.
  intros Hset Hfuel Hidle Hds Ht Hready.
  pose proof (deref_not_NULL _ _ _ Hds) as Hsetn.
  pose proof (deref_not_NULL _ _ _ Ht) as Hselfn.
  set (w0 := with_tasks (<[task ds := set_poll_token 1 t]> (tasks w)) w).
  pose proof (same_buffers_with_tasks w (<[task ds := set_poll_token 1 t]> (tasks w))) as Hsame.
  fold w0 in Hsame.
  assert (deref (tasks w0) (task ds) = Some (set_poll_token 1 t)) as Ht0
    by (apply deref_insert_eq; exact Hselfn).
  pose proof (poll_scan_spec l fuel (task ds) (set_poll_token 1 t) set NULL 0 w0
                Hfuel (iter_at_start w set l Hset) Hidle Ht0 ltac:(cbn; lia)) as Hscan.
  rewrite (same_buffers_first_ready _ _ l Hsame),
    (same_buffers_scanned_empty _ _ l Hsame), Hready in Hscan.
  rewrite (map_ext_in (stream_of w0) (stream_of w))
    in Hscan by (intros; apply (same_buffers_stream_of _ _ _ Hsame)).
  match type of Hscan with _ = Done _ ?W _ => set (w1 := W) in * end.
  assert (forall sd, In sd l -> desc_idle w1 sd) as Hidle1.
  { intros sd Hin. destruct (Hidle sd Hin) as (d & st & Hd & Hst & Hlock).
    destruct (deref_set_poll_flags 1 (map (stream_of w) (scanned_empty w l)) _ _ _ Hst)
      as (st' & Hst' & _ & Hlock' & _).
    exists d, st'. split; [exact Hd|]. split; [exact Hst'|]. congruence. }
  pose proof (poll_disarm_spec l fuel set NULL (0 + Z.of_nat (length (scanned_empty w l))) w1
                Hfuel (iter_at_start w set l Hset) Hidle1) as Hdis.
  assert (deref (tasks w1) (task ds) = Some (set_wakeup_sd r (set_poll_token 0 t))) as Ht1.
  { subst w1 w0. wsimpl. rewrite insert_insert_eq. apply deref_insert_eq. exact Hselfn. }
  eexists. split; [|split; [|split]].
  - unfold LpelStreamPoll. eapply Done_result.
    + run.
    + reflexivity.
    + reflexivity.
  - reflexivity.
  - wsimpl. rewrite Z.add_0_l. reflexivity.
  - exact Ht1.
Qed.

(** No stream of the set has an item: the task is suspended and resumes
    in [w2]. *)
Lemma LpelStreamPoll_blocked fuel set w l ds t t2 :
  stream_set w set l ->
  (length l < fuel)%nat ->
  (forall sd, In sd l -> desc_idle w sd) ->
  deref (descs w) set = Some ds ->
  deref (tasks w) (task ds) = Some t ->
  first_ready w l = None ->
  let w2 := resume (task ds) BLOCKED_ON_ANYIN (poll_armed w (task ds) l) in
  descs w2 = descs w ->
  (forall sd, In sd l -> desc_idle w2 sd) ->
  deref (tasks w2) (task ds) = Some t2 ->
  poll_token t2 = 0 ->
  exists w',
    LpelStreamPoll resume fuel set w =
      Done (wakeup_sd t2, wakeup_sd t2) w' [TaskBlock (task ds) BLOCKED_ON_ANYIN] /\
    descs w' = descs w2 /\
    streams w' = set_poll_flags 0 (map (stream_of w2) l) (streams w2) /\
    tasks w' = tasks w2.
Proof.
  intros Hset Hfuel Hidle Hds Ht Hready w2 HD2 Hidle2 Ht2 Htok2.
  pose proof (deref_not_NULL _ _ _ Hds) as Hsetn.
  pose proof (deref_not_NULL _ _ _ Ht) as Hselfn.
  set (w0 := with_tasks (<[task ds := set_poll_token 1 t]> (tasks w)) w).
  pose proof (same_buffers_with_tasks w (<[task ds := set_poll_token 1 t]> (tasks w))) as Hsame.
  fold w0 in Hsame.
  assert (deref (tasks w0) (task ds) = Some (set_poll_token 1 t)) as Ht0
    by (apply deref_insert_eq; exact Hselfn).
  pose proof (poll_scan_spec l fuel (task ds) (set_poll_token 1 t) set NULL 0 w0
                Hfuel (iter_at_start w set l Hset) Hidle Ht0 ltac:(cbn; lia)) as Hscan.
  rewrite (same_buffers_first_ready _ _ l Hsame),
    (same_buffers_scanned_empty _ _ l Hsame), Hready,
    (first_ready_None _ _ Hready) in Hscan.
  rewrite (map_ext_in (stream_of w0) (stream_of w))
    in Hscan by (intros; apply (same_buffers_stream_of _ _ _ Hsame)).
  assert (with_tasks (tasks w0)
            (with_streams (set_poll_flags 1 (map (stream_of w) l) (streams w0)) w0) =
          poll_armed w (task ds) l) as Harmed.
  { unfold poll_armed, w0. wnorm. rewrite (insert_as_alter _ _ _ _ Ht). reflexivity. }
  rewrite Harmed in Hscan.
  assert (iter_at (descs w2) set NULL l) as Hit2
    by (rewrite HD2; exact (iter_at_start w set l Hset)).
  pose proof (poll_disarm_spec l fuel set NULL (0 + Z.of_nat (length l)) w2
                Hfuel Hit2 Hidle2) as Hdis.
  rewrite Z.add_0_l, disarmed_all in Hdis by lia.
  eexists. split; [|split; [|split]].
  - unfold LpelStreamPoll. eapply Done_result.
    + run.
    + reflexivity.
    + reflexivity.
  - reflexivity.
  - reflexivity.
  - reflexivity.
Qed.



(** C4.  When [LpelStreamPoll] returns, the stream of the descriptor it
    returns has an item at the head of its buffer, and no stream of the
    set is registered as an activator any more: what the scan has
    registered, the second loop has cleared, also when the scan stopped
    early.  The set is a circular list of descriptors of idle streams,
    none of them an activator before the call; if the task is suspended,
    it is resumed by a producer as [woken_by_producer] states. *)
Theorem LpelStreamPoll_ready_and_disarmed
    (fuel : nat) (set : Z) (w : World) (l : list Z) (t : lpel_task_t) :
  stream_set w set l ->
  (length l < fuel)%nat ->
  (forall sd, In sd l -> desc_idle w sd) ->
  (forall sd, In sd l -> desc_unpolled w sd) ->
  deref (tasks w) (task_of w set) = Some t ->
  (first_ready w l = None ->
   woken_by_producer
     (poll_armed w (task_of w set) l)
     (resume (task_of w set) BLOCKED_ON_ANYIN (poll_armed w (task_of w set) l))
     (task_of w set) l) ->
  exists sd set' w' tr,
    LpelStreamPoll resume fuel set w = Done (sd, set') w' tr /\
    In sd l /\
    is_ready w' sd = true /\
    forall sd', In sd' l -> desc_unpolled w' sd'.
Proof.
  intros Hset Hfuel Hidle Hunp Ht Hwoken.
  destruct (stream_set_live _ _ _ Hset) as (ds & Hds).
  unfold task_of in *. rewrite Hds in *.
  destruct (first_ready w l) as [r|] eqn:Hready.
  - (* short cut *)
    destruct (LpelStreamPoll_ready fuel set w l ds t r Hset Hfuel Hidle Hds Ht Hready)
      as (w' & Hrun & HD & HS & _).
    destruct (first_ready_Some _ _ _ Hready) as [Hin Hr].
    set (E := map (stream_of w) (scanned_empty w l)) in *.
    set (Dm := map (stream_of w)
                 (disarmed (Z.of_nat (length (scanned_empty w l))) l)) in *.
    assert (same_buffers w w') as Hsame.
    { apply (same_buffers_trans _ (with_streams (set_poll_flags 1 E (streams w)) w)).
      - apply (same_buffers_flags _ _ 1 E); reflexivity.
      - apply (same_buffers_flags _ _ 0 Dm); [exact HD|exact HS]. }
    exists r, r, w', []. split; [exact Hrun|]. split; [exact Hin|].
    split; [rewrite (same_buffers_is_ready _ _ _ Hsame); exact Hr|].
    intros sd' Hin'. unfold desc_unpolled.
    rewrite (same_buffers_stream_of _ _ _ Hsame), HS.
    destruct (Hunp sd' Hin') as (st & Hst & Hpoll).
    destruct (classic_in (stream_of w sd') Dm) as [Hd|Hd].
    + destruct (deref_set_poll_flags 1 E _ _ _ Hst) as (st1 & Hst1 & _).
      destruct (deref_set_poll_flags 0 Dm _ _ _ Hst1) as (st2 & Hst2 & _ & _ & Hp & _).
      exists st2. split; [exact Hst2|exact (Hp Hd)].
    + assert (~ In (stream_of w sd') E) as HE.
      { intros HinE. apply Hd. unfold E, Dm in *.
        apply in_map_iff in HinE. destruct HinE as (x & Hx & Hxin).
        apply in_map_iff. exists x. split; [exact Hx|].
        apply scanned_empty_disarmed, Hxin. }
      rewrite deref_set_poll_flags_other by exact Hd.
      rewrite deref_set_poll_flags_other by exact HE.
      exists st. split; [exact Hst|exact Hpoll].
  - (* suspended and woken *)
    destruct (Hwoken eq_refl) as (HD2 & Hidle2 & t2 & Ht2 & Htok2 & Hin2 & Hr2).
    destruct (LpelStreamPoll_blocked fuel set w l ds t t2
                Hset Hfuel Hidle Hds Ht Hready HD2 Hidle2 Ht2 Htok2)
      as (w' & Hrun & HD & HS & _).
    set (w2 := resume (task ds) BLOCKED_ON_ANYIN (poll_armed w (task ds) l)) in *.
    assert (same_buffers w2 w') as Hsame
      by (apply (same_buffers_flags _ _ 0 (map (stream_of w2) l)); assumption).
    exists (wakeup_sd t2), (wakeup_sd t2), w', [TaskBlock (task ds) BLOCKED_ON_ANYIN].
    split; [exact Hrun|]. split; [exact Hin2|].
    split; [rewrite (same_buffers_is_ready _ _ _ Hsame); exact Hr2|].
    intros sd' Hin'. unfold desc_unpolled.
    rewrite (same_buffers_stream_of _ _ _ Hsame), HS.
    destruct (desc_idle_stream_of _ _ (Hidle2 sd' Hin')) as (st & Hst & _).
    destruct (deref_set_poll_flags 0 (map (stream_of w2) l) _ _ _ Hst)
      as (st2 & Hst2 & _ & _ & Hp & _).
    exists st2. split; [exact Hst2|]. apply Hp, in_map, Hin'.
Qed.



(** C5 (amended).  [LpelStreamPoll] returns [self->wakeup_sd] and stores
    the same pointer in [*set].  That descriptor is the one recorded as
    the cause of the wakeup, not its successor: when the scan finds an
    item, it is the first descriptor of the traversal whose stream has
    one, and the task is not suspended.  With [*set] on that descriptor,
    the next traversal of the set starts with the descriptor after it and
    ends with it. *)
Theorem LpelStreamPoll_returns_wakeup_sd
    (fuel : nat) (set : Z) (w : World) (l : list Z) (t : lpel_task_t) :
  stream_set w set l ->
  (length l < fuel)%nat ->
  (forall sd, In sd l -> desc_idle w sd) ->
  deref (tasks w) (task_of w set) = Some t ->
  (first_ready w l = None ->
   woken_by_producer
     (poll_armed w (task_of w set) l)
     (resume (task_of w set) BLOCKED_ON_ANYIN (poll_armed w (task_of w set) l))
     (task_of w set) l) ->
  exists sd w' tr t' l1 l2,
    LpelStreamPoll resume fuel set w = Done (sd, sd) w' tr /\
    deref (tasks w') (task_of w set) = Some t' /\
    wakeup_sd t' = sd /\
    (forall r, first_ready w l = Some r -> sd = r /\ tr = []) /\
    l = l1 ++ sd :: l2 /\
    stream_set w' sd (l2 ++ l1 ++ [sd]).
Proof.
  intros Hset Hfuel Hidle Ht Hwoken.
  destruct (stream_set_live _ _ _ Hset) as (ds & Hds).
  unfold task_of in *. rewrite Hds in *.
  destruct (first_ready w l) as [r|] eqn:Hready.
  - destruct (LpelStreamPoll_ready fuel set w l ds t r Hset Hfuel Hidle Hds Ht Hready)
      as (w' & Hrun & HD & _ & Ht').
    destruct (first_ready_Some _ _ _ Hready) as [Hin _].
    apply in_split in Hin. destruct Hin as (l1 & l2 & Hl).
    exists r, w', [], (set_wakeup_sd r (set_poll_token 0 t)), l1, l2.
    split; [exact Hrun|]. split; [exact Ht'|]. split; [reflexivity|].
    split; [intros r' [= <-]; split; reflexivity|]. split; [exact Hl|].
    unfold stream_set in *. rewrite HD. apply (ring_rotate _ set). rewrite <- Hl. exact Hset.
  - destruct (Hwoken eq_refl) as (HD2 & Hidle2 & t2 & Ht2 & Htok2 & Hin2 & _).
    destruct (LpelStreamPoll_blocked fuel set w l ds t t2
                Hset Hfuel Hidle Hds Ht Hready HD2 Hidle2 Ht2 Htok2)
      as (w' & Hrun & HD & _ & HT).
    apply in_split in Hin2. destruct Hin2 as (l1 & l2 & Hl).
    exists (wakeup_sd t2), w', [TaskBlock (task ds) BLOCKED_ON_ANYIN], t2, l1, l2.
    split; [exact Hrun|]. split; [rewrite HT; exact Ht2|]. split; [reflexivity|].
    split; [intros r' [=]|]. split; [exact Hl|].
    unfold stream_set in *. rewrite HD, HD2. apply (ring_rotate _ set).
    rewrite <- Hl. exact Hset.
Qed.

End Poll.
Lemma deref_alter_eq {A} (m : gmap Z A) f p x :
  deref m p = Some x -> deref (alter f p m) p = Some (f x).
Proof.
  intros H%deref_Some. destruct H as [Hn H]. apply deref_Some. split; [exact Hn|].
  rewrite lookup_alter_eq, H. reflexivity.
Qed.

(** ** A write during a poll

    The producer's side of the poll protocol: a write to an empty stream
    of the set, made while the consumer is suspended in
    [LpelStreamPoll], leaves the memory as [woken_by_producer] asks. *)
Lemma LpelStreamWrite_wakes_poller
    (resume : Z -> lpel_taskstate_blocked_t -> World -> World)
    (w : World) (self : Z) (l : list Z) (sdw sdr item : Z)
    (dw dr : lpel_stream_desc_t) (st : lpel_stream_t) (t : lpel_task_t) :
  (forall sd, In sd l -> desc_idle w sd) ->
  In sdr l ->
  deref (descs w) sdr = Some dr ->
  task dr = self ->
  deref (descs w) sdw = Some dw ->
  mode dw = "w"%char ->
  stream dw = stream dr ->
  deref (streams w) (stream dr) = Some st ->
  cons_sd st = sdr ->
  buffer_empty (buffer st) ->
  e_sem st <> 0 ->
  0 <= n_sem st ->
  deref (tasks w) self = Some t ->
  item <> NULL ->
  woken_by_producer (poll_armed w self l)
    (world_after (LpelStreamWrite resume sdw item) (poll_armed w self l)) self l.
Proof.
  intros Hidle Hin Hdr Hself Hdw Hmode Hsame Hst Hcons Hempty He Hn Ht Hitem.
  destruct (Hidle sdr Hin) as (dr' & st' & Hdr' & Hst' & Hlock).
  rewrite Hdr in Hdr'. injection Hdr' as <-. rewrite Hst in Hst'. injection Hst' as <-.
  pose proof (deref_not_NULL _ _ _ Hst) as Hsn.
  pose proof (deref_not_NULL _ _ _ Ht) as Htn.
  pose proof (buffer_empty_space _ Hempty) as Hspace.
  pose proof (buffer_top_put _ item Hempty) as Htop.
  destruct dw as [tw sw mw nw monw]. cbn [stream mode] in Hmode, Hsame. subst sw mw.
  assert (In (stream dr) (map (stream_of w) l)) as Hins.
  { apply in_map_iff. exists sdr. split; [|exact Hin]. unfold stream_of. rewrite Hdr. reflexivity. }
  assert (forall sd, In sd l -> desc_idle (poll_armed w self l) sd) as Hidle1.
  { intros sd Hsd. destruct (Hidle sd Hsd) as (d & s0 & Hd & Hs0 & Hl0).
    destruct (deref_set_poll_flags 1 (map (stream_of w) l) _ _ _ Hs0)
      as (s1 & Hs1 & _ & Hl1 & _).
    exists d, s1. split; [exact Hd|]. split; [exact Hs1|]. congruence. }
  assert (deref (streams (poll_armed w self l)) (stream dr) = Some (set_is_poll 1 st)) as Hst1.
  { unfold poll_armed. cbn [streams with_streams].
    rewrite deref_set_poll_flags_member, Hst by exact Hins. reflexivity. }
  assert (deref (tasks (poll_armed w self l)) self = Some (set_poll_token 1 t)) as Ht1
    by (apply deref_alter_eq; exact Ht).
  assert (descs (poll_armed w self l) = descs w) as HD1 by reflexivity.
  revert Hidle1 Hst1 Ht1 HD1. generalize (poll_armed w self l). intros w1 Hidle1 Hst1 Ht1 HD1.
  rewrite <- HD1 in Hdr, Hdw.
  assert (exists w2 tr,
            LpelStreamWrite resume sdw item w1 = Done tt w2 tr /\
            descs w2 = descs w1 /\
            (exists st2, deref (streams w2) (stream dr) = Some st2 /\
                         prod_lock st2 = false /\
                         buffer st2 = buffer_put (buffer st) item) /\
            (forall q, q <> stream dr -> streams w2 !! q = streams w1 !! q) /\
            deref (tasks w2) self =
              Some (set_wakeup_sd sdr (set_poll_token 0 (set_poll_token 1 t))))
    as (w2 & tr & Hrun & HD2 & (st2 & Hst2 & Hlock2 & Hbuf2) & Hframe & Ht2).
  { subst self sdr.
    assert ((e_sem st =? 0) = false) as He0 by lia.
    destruct (monw =? NULL) eqn:Hmon;
      (do 2 eexists; split;
       [ unfold LpelStreamWrite, write_P, write_deposit, write_V; run
       | split; [reflexivity|]; split;
         [ eexists; split; [solve_deref|]; split; reflexivity
         | split;
           [ intros q Hq; wsimpl; rewrite !lookup_insert_ne by congruence; reflexivity
           | solve_deref ] ] ]). }
  unfold world_after. rewrite Hrun.
  split; [exact HD2|]. split.
  - intros sd Hsd. destruct (Hidle1 sd Hsd) as (d & s0 & Hd & Hs0 & Hl0).
    unfold desc_idle. rewrite HD2.
    destruct (Z.eq_dec (stream d) (stream dr)) as [Heq|Hne].
    + exists d, st2. rewrite Heq. split; [exact Hd|]. split; [exact Hst2|exact Hlock2].
    + exists d, s0. split; [exact Hd|]. split; [|exact Hl0].
      apply deref_Some in Hs0. apply deref_Some. split; [tauto|].
      rewrite Hframe by exact Hne. tauto.
  - eexists. split; [exact Ht2|]. split; [reflexivity|]. split; [exact Hin|].
    cbn [wakeup_sd set_wakeup_sd]. unfold is_ready, stream_of. rewrite HD2, Hdr, Hst2, Hbuf2, Htop.
    destruct (Z.eqb_spec item NULL); [contradiction|reflexivity].
Qed.

(** * The theorems at work on the concrete configuration *)

Lemma LpelStreamCreate_initial_state_witness :
  heap_free ex_world = [40; 41; 42] /\
  exists w' st,
    LpelStreamCreate 16 4 ex_world = Done 40 w' [] /\
    deref (streams w') 40 = Some st /\
    buffer st = buffer_init 4 /\
    Z.of_nat (capacity (buffer st)) = 4 /\
    n_sem st = 0 /\ e_sem st = 4 /\ is_poll st = 0 /\
    prod_sd st = NULL /\ cons_sd st = NULL.
Proof.
  split; [reflexivity|].
  apply (LpelStreamCreate_initial_state 16 4 ex_world 40 [41; 42]).
  - lia.
  - lia.
  - reflexivity.
  - discriminate.
Defined.

Lemma allocation_failure_dereferences_null_witness :
  heap_free ex_world_oom = [] /\
  LpelStreamCreate 16 4 ex_world_oom = Crash Segfault /\
  LpelStreamOpen no_monitoring 10 "r" ex_world_oom = Crash Segfault.
Proof.
  split; [reflexivity|].
  apply (allocation_failure_dereferences_null no_monitoring 16 4 10 "r" ex_world_oom).
  - lia.
  - left. reflexivity.
  - reflexivity.
Defined.

(** Stream 10 is already open for reading through descriptor 30. *)
Lemma LpelStreamOpen_overwrites_binding_witness :
  (cons_sd <$> deref (streams ex_world) 10) = Some 30 /\
  exists w',
    LpelStreamOpen no_monitoring 10 "r" ex_world = Done 40 w' [] /\
    deref (descs w') 40 = Some (mk_desc 200 10 "r" NULL NULL) /\
    deref (streams w') 10 = Some (set_cons_sd 40 (ex_stream 0 20 30)).
Proof.
  split; [reflexivity|].
  apply (LpelStreamOpen_overwrites_binding no_monitoring 10 "r" ex_world
           (ex_stream 0 20 30) (mk_task NULL 0 NULL) 40 [41; 42]).
  - left. reflexivity.
  - reflexivity.
  - reflexivity.
  - reflexivity.
  - discriminate.
Defined.

Lemma LpelStreamReplace_rebinds_witness :
  exists w' tr d',
    LpelStreamReplace 30 40 ex_world_fresh = Done tt w' tr /\
    deref (streams w') 10 = None /\
    deref (descs w') 30 = Some d' /\
    stream d' = 40 /\
    task d' = 200 /\ mode d' = "r"%char /\ next d' = 31 /\ mon d' = NULL /\
    deref (streams w') 40 = Some (set_cons_sd 30 (mk_stream (buffer_init 2) 3 false 0 NULL NULL 0 2)) /\
    (forall q, q <> 30 -> descs w' !! q = descs ex_world_fresh !! q) /\
    (forall q, q <> 10 -> q <> 40 -> streams w' !! q = streams ex_world_fresh !! q) /\
    tasks w' = tasks ex_world_fresh.
Proof.
  apply (LpelStreamReplace_rebinds 30 40 ex_world_fresh (mk_desc 200 10 "r" 31 NULL)
           (ex_stream 0 20 30) (mk_stream (buffer_init 2) 3 false 0 NULL NULL 0 2)).
  - reflexivity.
  - reflexivity.
  - reflexivity.
  - reflexivity.
  - discriminate.
Defined.

Lemma LpelStreamTryWrite_full_or_write_witness :
  (buffer_is_space <$> (buffer <$> deref (streams ex_world_full) 10)) = Some false /\
  LpelStreamTryWrite no_interference 20 7 ex_world_full = Done (-1) ex_world_full [].
Proof.
  split; [reflexivity|].
  apply (LpelStreamTryWrite_full_or_write no_interference 20 7 ex_world_full
           (mk_desc 100 10 "w" NULL NULL)
           (mk_stream (mk_buffer 2 0 0 [5; 6]) 0 false 0 20 30 2 0)).
  - reflexivity.
  - reflexivity.
Defined.

Lemma write_then_read_returns_item_witness :
  exists w1 tr1 w2 tr2 st2,
    LpelStreamWrite no_interference 20 77 ex_world = Done tt w1 tr1 /\
    LpelStreamRead no_interference 30 w1 = Done 77 w2 tr2 /\
    deref (streams w2) 10 = Some st2 /\
    stream_empty st2 /\
    n_sem st2 = 0 /\
    e_sem st2 = 2 /\
    capacity (buffer st2) = 2%nat /\
    (forall self why, ~ In (TaskBlock self why) (tr1 ++ tr2)).
Proof.
  apply (write_then_read_returns_item no_interference 20 30 77 ex_world
           (mk_desc 100 10 "w" NULL NULL) (mk_desc 200 10 "r" 31 NULL)
           (ex_stream 0 20 30)).
  - reflexivity.
  - reflexivity.
  - reflexivity.
  - reflexivity.
  - reflexivity.
  - reflexivity.
  - unfold stream_empty, buffer_empty, INT_MAX. cbn. repeat split; lia.
  - reflexivity.
  - intros H. exfalso. apply H. reflexivity.
  - discriminate.
Defined.

(** The consumer reads from the empty stream 10 and is suspended; the
    producer writes 77 meanwhile. *)
Lemma LpelStreamRead_blocks_and_unblocks_witness :
  exists w' tr,
    LpelStreamRead (producer_writes 20 77) 30 ex_world = Done 77 w' tr /\
    (In (TaskBlock 200 BLOCKED_ON_INPUT) tr <-> 0 = 0) /\
    (In (TaskUnblock 200 100) tr <-> 1 = -1) /\
    sched_calls tr = [TaskBlock 200 BLOCKED_ON_INPUT].
Proof.
  apply (LpelStreamRead_blocks_and_unblocks (producer_writes 20 77) 30 ex_world
           (mk_desc 200 10 "r" 31 NULL) (ex_stream 0 20 30)
           (mk_stream (mk_buffer 2 0 1 [77; 0]) 0 false 0 20 30 0 1)).
  - reflexivity.
  - reflexivity.
  - reflexivity.
  - reflexivity.
  - reflexivity.
  - discriminate.
  - cbn. lia.
  - cbn. intros H. discriminate H.
Defined.

(** The consumer is suspended in a poll of its three streams; the
    producer writes 77 to stream 12, takes the token and wakes it. *)
Lemma LpelStreamWrite_wakes_consumer_once_witness :
  exists w' tr,
    LpelStreamWrite no_interference 22 77 ex_world_polling = Done tt w' tr /\
    (0 = -1 ->
       unblock_calls tr = [TaskUnblock 100 200] /\
       wakeup_sd <$> tasks w' = wakeup_sd <$> tasks ex_world_polling) /\
    (0 <> -1 -> 1 <> 0 ->
       unblock_calls tr = [TaskUnblock 100 200] /\
       wakeup_sd <$> tasks w' = <[200 := 32]> (wakeup_sd <$> tasks ex_world_polling)) /\
    (0 <> -1 -> 1 = 0 ->
       unblock_calls tr = [] /\
       wakeup_sd <$> tasks w' = wakeup_sd <$> tasks ex_world_polling) /\
    (length (unblock_calls tr) <= 1)%nat.
Proof.
  apply (LpelStreamWrite_wakes_consumer_once no_interference 22 77 ex_world_polling
           (mk_desc 100 12 "w" NULL NULL) (mk_desc 200 12 "r" 30 NULL)
           (mk_stream (buffer_init 2) 2 false 1 22 32 0 2)
           (mk_stream (buffer_init 2) 2 false 1 22 32 0 1)
           (mk_task NULL 1 NULL)).
  - reflexivity.
  - reflexivity.
  - discriminate.
  - reflexivity.
  - reflexivity.
  - reflexivity.
  - reflexivity.
  - reflexivity.
  - cbn. lia.
  - intros _. reflexivity.
  - intros _. reflexivity.
Defined.

Lemma ex_descs_ring : ring ex_descs 32 32 [30; 31; 32].
Proof.
  apply (ring_step ex_descs 32 32 (mk_desc 200 12 "r" 30 NULL) [31; 32]);
    [reflexivity|discriminate|].
  apply (ring_step ex_descs 32 30 (mk_desc 200 10 "r" 31 NULL) [32]);
    [reflexivity|discriminate|].
  apply (ring_last ex_descs 32 31 (mk_desc 200 11 "r" 32 NULL)); reflexivity.
Qed.

Lemma ex_world_idle sd : In sd [30; 31; 32] -> desc_idle ex_world sd.
Proof.
  intros [<-|[<-|[<-|[]]]]; unfold desc_idle; do 2 eexists;
    (split; [reflexivity|]; split; reflexivity).
Qed.

Lemma ex_world_unpolled sd : In sd [30; 31; 32] -> desc_unpolled ex_world sd.
Proof.
  intros [<-|[<-|[<-|[]]]]; unfold desc_unpolled; eexists; split; reflexivity.
Qed.

Lemma ex_world_woken :
  woken_by_producer ex_world_polling
    (producer_writes 22 77 200 BLOCKED_ON_ANYIN ex_world_polling) 200 [30; 31; 32].
Proof.
  split; [reflexivity|]. split.
  - intros sd [<-|[<-|[<-|[]]]]; unfold desc_idle; do 2 eexists;
      (split; [reflexivity|]; split; reflexivity).
  - exists (mk_task NULL 0 32). split; [reflexivity|]. split; [reflexivity|].
    split; [cbn; tauto|reflexivity].
Qed.

(** All three streams are empty: the consumer is suspended and the
    producer writes 77 to stream 12 meanwhile. *)
Lemma LpelStreamPoll_ready_and_disarmed_witness :
  first_ready ex_world [30; 31; 32] = None /\
  exists sd set' w' tr,
    LpelStreamPoll (producer_writes 22 77) 4 32 ex_world = Done (sd, set') w' tr /\
    In sd [30; 31; 32] /\
    is_ready w' sd = true /\
    forall sd', In sd' [30; 31; 32] -> desc_unpolled w' sd'.
Proof.
  split; [reflexivity|].
  apply (LpelStreamPoll_ready_and_disarmed (producer_writes 22 77) 4 32 ex_world
           [30; 31; 32] (mk_task NULL 0 NULL)).
  - exact ex_descs_ring.
  - cbn. lia.
  - exact ex_world_idle.
  - exact ex_world_unpolled.
  - reflexivity.
  - intros _. exact ex_world_woken.
Defined.

Lemma ex_world_item_idle sd : In sd [30; 31; 32] -> desc_idle ex_world_item sd.
Proof.
  intros [<-|[<-|[<-|[]]]]; unfold desc_idle; do 2 eexists;
    (split; [reflexivity|]; split; reflexivity).
Qed.

(** Stream 11 holds an item: the scan stops at descriptor 31. *)
Lemma LpelStreamPoll_returns_wakeup_sd_witness :
  first_ready ex_world_item [30; 31; 32] = Some 31 /\
  exists sd w' tr t' l1 l2,
    LpelStreamPoll no_interference 4 32 ex_world_item = Done (sd, sd) w' tr /\
    deref (tasks w') 200 = Some t' /\
    wakeup_sd t' = sd /\
    (forall r, first_ready ex_world_item [30; 31; 32] = Some r -> sd = r /\ tr = []) /\
    [30; 31; 32] = l1 ++ sd :: l2 /\
    stream_set w' sd (l2 ++ l1 ++ [sd]).
Proof.
  split; [reflexivity|].
  apply (LpelStreamPoll_returns_wakeup_sd no_interference 4 32 ex_world_item
           [30; 31; 32] (mk_task NULL 0 NULL)).
  - exact ex_descs_ring.
  - cbn. lia.
  - exact ex_world_item_idle.
  - reflexivity.
  - intros H. discriminate H.
Defined.

(** * Where the code departs from the specification *)

(** C5, as stated, fails.  In [ex_world_item] the traversal of the set
    is 30, 31, 32 and stream 11, read through descriptor 31, is the one
    with an item.  The descriptor just past 31 is 32, yet
    [LpelStreamPoll] returns 31. *)
Lemma LpelStreamPoll_returns_ready_not_successor :
  stream_set ex_world_item 32 [30; 31; 32] /\
  first_ready ex_world_item [30; 31; 32] = Some 31 /\
  (next <$> deref (descs ex_world_item) 31) = Some 32 /\
  (exists w', LpelStreamPoll no_interference 4 32 ex_world_item = Done (31, 31) w' []) /\
  ~ (exists w' tr, LpelStreamPoll no_interference 4 32 ex_world_item = Done (32, 32) w' tr).
Proof.
  split; [exact ex_descs_ring|]. split; [reflexivity|]. split; [reflexivity|]. split.
  - eexists. vm_compute. reflexivity.
  - intros (w' & tr & H). vm_compute in H. discriminate H.
Qed.

(** C8, as stated, fails.  With the allocator exhausted neither
    [LpelStreamCreate] nor [LpelStreamOpen] returns anything to its
    caller, let alone a failure value: both crash on the null pointer. *)
Lemma allocation_failure_not_reported :
  heap_free ex_world_oom = [] /\
  (forall r w' tr, LpelStreamCreate 16 4 ex_world_oom <> Done r w' tr) /\
  (forall r w' tr, LpelStreamOpen no_monitoring 10 "r" ex_world_oom <> Done r w' tr).
Proof.
  split; [reflexivity|]. split; intros r w' tr H; vm_compute in H; discriminate H.
Qed.

(** * Scenarios *)

(** Items come out in the order they went in; at rest [n_sem] is 0 and
    [e_sem] the capacity. *)
Example scenario_simple_pipe :
  observe (simple_pipe ex_world) = Some ((10, 20, 30, 0, 4), []).
Proof. vm_compute. reflexivity. Qed.

(** A third write to the full stream 10 suspends the producer; once the
    consumer has read, the item lands in the buffer. *)
Example scenario_producer_blocks :
  observe (LpelStreamWrite (consumer_reads 30) 20 7 ex_world_full) =
    Some (tt, [TaskBlock 100 BLOCKED_ON_OUTPUT]) /\
  (buffer <$> deref (streams (world_after (LpelStreamWrite (consumer_reads 30) 20 7)
                                ex_world_full)) 10) =
    Some (mk_buffer 2 1 1 [7; 6]).
Proof. split; vm_compute; reflexivity. Qed.

(** With the producer suspended on the full stream ([e_sem] is -1), a
    read returns the oldest item and wakes the producer. *)
Example scenario_read_wakes_producer :
  observe (LpelStreamRead no_interference 30
             (world_after (fetch_and_dec (ESem 10)) ex_world_full)) =
    Some (5, [TaskUnblock 200 100]).
Proof. vm_compute. reflexivity. Qed.

(** A poll that finds an item on stream 11 does not suspend, and leaves
    no stream registered. *)
Example scenario_poll_short_circuit :
  observe (LpelStreamPoll no_interference 4 32 ex_world_item) = Some ((31, 31), []) /\
  ex_flags (world_after (LpelStreamPoll no_interference 4 32) ex_world_item) =
    [Some 0; Some 0; Some 0].
Proof. split; vm_compute; reflexivity. Qed.

(** A poll of three empty streams suspends; the producer writes to stream
    12, and the poll returns descriptor 32 with every flag cleared. *)
Example scenario_poll_suspend_and_wake :
  ex_flags ex_world_polling = [Some 1; Some 1; Some 1] /\
  observe (LpelStreamPoll (producer_writes 22 77) 4 32 ex_world) =
    Some ((32, 32), [TaskBlock 200 BLOCKED_ON_ANYIN]) /\
  ex_flags (world_after (LpelStreamPoll (producer_writes 22 77) 4 32) ex_world) =
    [Some 0; Some 0; Some 0].
Proof. repeat split; vm_compute; reflexivity. Qed.

(** * Further properties *)

(** ** The ring buffer as a queue *)

Lemma ring_index_cases (p k c : nat) :
  (p < c)%nat -> (k <= c)%nat ->
  ((p + k) mod c = if (p + k <? c)%nat then p + k else p + k - c)%nat.
Proof.
  intros Hp Hk. destruct (Nat.ltb_spec (p + k) c) as [H|H].
  - apply Nat.mod_small. exact H.
  - replace (p + k)%nat with ((p + k - c) + 1 * c)%nat at 1 by lia.
    rewrite Nat.Div0.mod_add. apply Nat.mod_small. lia.
Qed.

Lemma ring_index_inj (p k1 k2 c : nat) :
  (p < c)%nat -> (k1 < c)%nat -> (k2 < c)%nat ->
  ((p + k1) mod c = (p + k2) mod c)%nat -> k1 = k2.
Proof.
  intros Hp H1 H2. rewrite !ring_index_cases by lia.
  destruct (Nat.ltb_spec (p + k1) c), (Nat.ltb_spec (p + k2) c); lia.
Qed.

Lemma ring_index_lt (p k c : nat) : (p < c)%nat -> ((p + k) mod c < c)%nat.
Proof. intros H. apply Nat.mod_upper_bound. lia. Qed.

Lemma buffer_advance_mod b i :
  (i < capacity b)%nat -> buffer_advance b i = ((i + 1) mod capacity b)%nat.
Proof.
  intros H. unfold buffer_advance. rewrite ring_index_cases by lia.
  replace (i + 1)%nat with (S i) by lia.
  destruct (Nat.ltb_spec (S i) (capacity b)); lia.
Qed.

Lemma buffer_holds_init n : (0 < n)%nat -> buffer_holds (buffer_init n) [].
Proof.
  intros Hn. unfold buffer_holds, buffer_init, ring_slot. cbn [data capacity pread pwrite length].
  repeat split.
  - apply length_replicate.
  - exact Hn.
  - lia.
  - rewrite Nat.add_0_r, Nat.mod_small by lia. reflexivity.
  - intros k Hk. rewrite lookup_replicate_2 by (apply Nat.mod_upper_bound; lia). reflexivity.
  - constructor.
Qed.

Lemma buffer_holds_top b q :
  buffer_holds b q -> buffer_top b = default NULL (q !! 0%nat).
Proof.
  intros (Hlen & Hp & Hq & Hw & Hslots & Hnn).
  rewrite <- (Hslots 0%nat) by lia. unfold ring_slot, buffer_top.
  rewrite Nat.add_0_r, Nat.mod_small by lia. reflexivity.
Qed.

Lemma buffer_holds_space b q :
  buffer_holds b q -> buffer_is_space b = (length q <? capacity b)%nat.
Proof.
  intros (Hlen & Hp & Hq & Hw & Hslots & Hnn). unfold buffer_is_space. rewrite Hw.
  destruct (Nat.ltb_spec (length q) (capacity b)) as [Hlt|Hge].
  - pose proof (Hslots (length q) Hlt) as Hs. unfold ring_slot in Hs. rewrite Hs.
    rewrite lookup_ge_None_2 by lia. reflexivity.
  - assert (length q = capacity b) as Heq by lia.
    pose proof (Hslots 0%nat ltac:(lia)) as Hs. unfold ring_slot in Hs.
    rewrite Heq, ring_index_cases by lia.
    rewrite Nat.add_0_r, Nat.mod_small in Hs by lia.
    destruct (Nat.ltb_spec (pread b + capacity b) (capacity b)); [lia|].
    replace (pread b + capacity b - capacity b)%nat with (pread b) by lia.
    rewrite Hs. destruct q as [|x q]; [cbn in Heq; lia|].
    cbn. apply Forall_cons in Hnn. destruct Hnn as [Hx _].
    destruct (Z.eqb_spec x NULL); [contradiction|reflexivity].
Qed.

Lemma buffer_holds_put b q item :
  buffer_holds b q ->
  (length q < capacity b)%nat ->
  item <> NULL ->
  buffer_holds (buffer_put b item) (q ++ [item]).
Proof.
  intros (Hlen & Hp & Hq & Hw & Hslots & Hnn) Hlt Hitem.
  assert (pwrite b < capacity b)%nat as Hpw by (rewrite Hw; apply ring_index_lt, Hp).
  unfold buffer_holds, buffer_put, ring_slot in *.
  cbn [data capacity pread pwrite]. rewrite length_app. cbn [length].
  split; [rewrite length_insert; exact Hlen|]. split; [exact Hp|]. split; [lia|].
  split; [|split].
  - rewrite buffer_advance_mod by exact Hpw. rewrite Hw.
    rewrite Nat.Div0.add_mod_idemp_l. f_equal. lia.
  - intros k Hk. destruct (Nat.eq_dec k (length q)) as [->|Hne].
    + rewrite <- Hw, list_lookup_insert_eq by lia.
      rewrite lookup_app_r by lia. rewrite Nat.sub_diag. reflexivity.
    + rewrite list_lookup_insert_ne.
      * rewrite (Hslots k Hk). destruct (Nat.lt_ge_cases k (length q)).
        -- rewrite lookup_app_l by lia. reflexivity.
        -- rewrite !lookup_ge_None_2; [reflexivity| |lia].
           rewrite length_app. cbn [length]. lia.
      * rewrite Hw. intros Heq. apply Hne. symmetry.
        eapply ring_index_inj; [exact Hp| | |exact Heq]; lia.
  - apply Forall_app. split; [exact Hnn|]. constructor; [exact Hitem|constructor].
Qed.

Lemma buffer_holds_pop b x q :
  buffer_holds b (x :: q) -> buffer_holds (buffer_pop b) q.
Proof.
  intros (Hlen & Hp & Hq & Hw & Hslots & Hnn). cbn [length] in *.
  unfold buffer_holds, buffer_pop, ring_slot in *.
  cbn [data capacity pread pwrite].
  split; [rewrite length_insert; exact Hlen|].
  rewrite buffer_advance_mod by exact Hp.
  split; [apply Nat.mod_upper_bound; lia|]. split; [lia|]. split; [|split].
  - rewrite Hw, Nat.Div0.add_mod_idemp_l. f_equal. lia.
  - intros k Hk. rewrite Nat.Div0.add_mod_idemp_l.
    replace (pread b + 1 + k)%nat with (pread b + S k)%nat by lia.
    destruct (Nat.eq_dec (S k) (capacity b)) as [Heq|Hne].
    + rewrite Heq, ring_index_cases by lia.
      destruct (Nat.ltb_spec (pread b + capacity b) (capacity b)); [lia|].
      replace (pread b + capacity b - capacity b)%nat with (pread b) by lia.
      rewrite list_lookup_insert_eq by lia.
      rewrite lookup_ge_None_2 by lia. reflexivity.
    + rewrite list_lookup_insert_ne.
      * rewrite (Hslots (S k)) by lia. reflexivity.
      * intros Heq. assert (0 = S k)%nat; [|lia].
        eapply (ring_index_inj (pread b) 0 (S k) (capacity b)); try lia.
        rewrite Nat.add_0_r, Nat.mod_small by lia. exact Heq.
  - apply Forall_cons in Hnn. tauto.
Qed.

(** ** Streams as queues *)

Lemma sched_calls_app t1 t2 : sched_calls (t1 ++ t2) = sched_calls t1 ++ sched_calls t2.
Proof. unfold sched_calls. apply List.filter_app. Qed.

Section Queue.

Variable resume : Z -> lpel_taskstate_blocked_t -> World -> World.

(** A write to a stream at rest with a free slot. *)
Lemma write_run sd item w d st q :
  deref (descs w) sd = Some d ->
  mode d = "w"%char ->
  deref (streams w) (stream d) = Some st ->
  stream_holds st q ->
  (length q < capacity (buffer st))%nat ->
  item <> NULL ->
  exists w' tr st',
    LpelStreamWrite resume sd item w = Done tt w' tr /\
    deref (streams w') (stream d) = Some st' /\
    stream_holds st' (q ++ [item]) /\
    capacity (buffer st') = capacity (buffer st) /\
    sched_calls tr = [] /\
    descs w' = descs w /\
    tasks w' = tasks w /\
    (forall p, p <> stream d -> streams w' !! p = streams w !! p).
Proof.
  intros Hd Hmode Hst (Hbuf & Hn & He & Hmax & Hlock & Hpoll) Hlt Hitem.
  pose proof (deref_not_NULL _ _ _ Hst) as Hsn.
  assert (buffer_is_space (buffer st) = true) as Hspace.
  { rewrite (buffer_holds_space _ _ Hbuf). apply Nat.ltb_lt. exact Hlt. }
  pose proof (buffer_holds_put _ _ item Hbuf Hlt Hitem) as Hput.
  unfold INT_MAX in Hmax.
  assert (wrap32 (e_sem st - 1) = e_sem st - 1) as Hw1 by (apply wrap32_small; lia).
  assert (wrap32 (n_sem st + 1) = n_sem st + 1) as Hw2 by (apply wrap32_small; lia).
  destruct (mon d =? NULL) eqn:Hmon;
    (do 3 eexists; split;
     [ unfold LpelStreamWrite, write_P, write_deposit, write_V; run
     | split; [solve_deref|] ]);
    wsimpl; rewrite Hw1, Hw2;
    (split;
     [ unfold stream_holds, INT_MAX; wsimpl; split; [exact Hput|];
       cbn [buffer_put capacity]; rewrite length_app; cbn [length];
       split; [lia|]; split; [lia|]; split; [lia|]; split; [reflexivity|exact Hpoll]
     | split; [reflexivity|]; split; [reflexivity|]; split; [reflexivity|];
       split; [reflexivity|];
       intros p Hp; rewrite !lookup_insert_ne by congruence; reflexivity ]).
Qed.

(** A read from a stream at rest that holds an item. *)
Lemma read_run sd w d st x q :
  deref (descs w) sd = Some d ->
  mode d = "r"%char ->
  deref (streams w) (stream d) = Some st ->
  stream_holds st (x :: q) ->
  exists w' tr st',
    LpelStreamRead resume sd w = Done x w' tr /\
    deref (streams w') (stream d) = Some st' /\
    stream_holds st' q /\
    capacity (buffer st') = capacity (buffer st) /\
    sched_calls tr = [] /\
    descs w' = descs w /\
    tasks w' = tasks w /\
    (forall p, p <> stream d -> streams w' !! p = streams w !! p).
Proof.
  intros Hd Hmode Hst (Hbuf & Hn & He & Hmax & Hlock & Hpoll).
  pose proof (deref_not_NULL _ _ _ Hst) as Hsn.
  pose proof (buffer_holds_top _ _ Hbuf) as Htop. cbn in Htop.
  pose proof (buffer_holds_pop _ _ _ Hbuf) as Hpop.
  assert (x <> NULL) as Hx.
  { destruct Hbuf as (_ & _ & _ & _ & _ & Hnn). apply Forall_cons in Hnn. tauto. }
  assert (length (x :: q) <= capacity (buffer st))%nat as Hle by (destruct Hbuf; tauto).
  cbn [length] in *. unfold INT_MAX in Hmax.
  assert (wrap32 (n_sem st - 1) = n_sem st - 1) as Hw1 by (apply wrap32_small; lia).
  assert (wrap32 (e_sem st + 1) = e_sem st + 1) as Hw2 by (apply wrap32_small; lia).
  assert ((buffer_top (buffer st) =? NULL) = false) as Htop0 by (rewrite Htop; lia).
  destruct (mon d =? NULL) eqn:Hmon;
    (do 3 eexists; split;
     [ unfold LpelStreamRead, read_P, read_item, read_V; run_result; exact Htop
     | split; [solve_deref|] ]);
    wsimpl; rewrite Hw1, Hw2;
    (split;
     [ unfold stream_holds, INT_MAX; wsimpl; split; [exact Hpop|];
       cbn [buffer_pop capacity];
       split; [lia|]; split; [lia|]; split; [lia|]; split; [exact Hlock|exact Hpoll]
     | split; [reflexivity|]; split; [reflexivity|]; split; [reflexivity|];
       split; [reflexivity|];
       intros p Hp; rewrite !lookup_insert_ne by congruence; reflexivity ]).
Qed.

(** X1.  [LpelStreamWrite] to a stream at rest with a free slot appends
    the item: afterwards the stream holds the old items followed by the
    new one, with [n_sem] the number of items and [e_sem] the number of
    free slots.  The call makes no call to the scheduler and touches no
    other stream, no descriptor and no task.  It never looks at
    [cons_sd]: a producer may write before any consumer has opened the
    stream. *)
Theorem LpelStreamWrite_enqueues
    (sd item : Z) (w : World) (d : lpel_stream_desc_t) (st : lpel_stream_t) (q : list Z) :
  deref (descs w) sd = Some d ->
  mode d = "w"%char ->
  deref (streams w) (stream d) = Some st ->
  stream_holds st q ->
  (length q < capacity (buffer st))%nat ->
  item <> NULL ->
  exists w' tr,
    LpelStreamWrite resume sd item w = Done tt w' tr /\
    holds w' (stream d) (q ++ [item]) /\
    sched_calls tr = [] /\
    descs w' = descs w /\
    tasks w' = tasks w /\
    (forall p, p <> stream d -> streams w' !! p = streams w !! p).
Proof.
  intros Hd Hmode Hst Hholds Hlt Hitem.
  destruct (write_run sd item w d st q Hd Hmode Hst Hholds Hlt Hitem)
    as (w' & tr & st' & Hrun & Hst' & Hh & _ & Hs & HD & HT & HF).
  exists w', tr. split; [exact Hrun|]. split; [exists st'; tauto|]. tauto.
Qed.

(** X2.  [LpelStreamRead] from a stream at rest that holds items returns
    the oldest one and leaves the others in order, with the two counters
    again the numbers of items and of free slots.  The call makes no call
    to the scheduler and touches nothing else. *)
Theorem LpelStreamRead_dequeues
    (sd : Z) (w : World) (d : lpel_stream_desc_t) (st : lpel_stream_t) (x : Z) (q : list Z) :
  deref (descs w) sd = Some d ->
  mode d = "r"%char ->
  deref (streams w) (stream d) = Some st ->
  stream_holds st (x :: q) ->
  exists w' tr,
    LpelStreamRead resume sd w = Done x w' tr /\
    holds w' (stream d) q /\
    sched_calls tr = [] /\
    descs w' = descs w /\
    tasks w' = tasks w /\
    (forall p, p <> stream d -> streams w' !! p = streams w !! p).
Proof.
  intros Hd Hmode Hst Hholds.
  destruct (read_run sd w d st x q Hd Hmode Hst Hholds)
    as (w' & tr & st' & Hrun & Hst' & Hh & _ & Hs & HD & HT & HF).
  exists w', tr. split; [exact Hrun|]. split; [exists st'; tauto|]. tauto.
Qed.

(** X3.  [LpelStreamPeek] on a read descriptor returns the oldest item of
    the stream, NULL when the stream is empty, and changes nothing; the
    item it shows is the one the next [LpelStreamRead] returns. *)
Theorem LpelStreamPeek_shows_next_read
    (sd : Z) (w : World) (d : lpel_stream_desc_t) (st : lpel_stream_t) (q : list Z) :
  deref (descs w) sd = Some d ->
  mode d = "r"%char ->
  deref (streams w) (stream d) = Some st ->
  stream_holds st q ->
  LpelStreamPeek sd w = Done (default NULL (q !! 0%nat)) w [] /\
  (forall x q', q = x :: q' ->
     exists w' tr, (LpelStreamPeek sd ;; LpelStreamRead resume sd) w = Done x w' tr).
Proof.
  intros Hd Hmode Hst Hholds.
  assert (LpelStreamPeek sd w = Done (default NULL (q !! 0%nat)) w []) as Hpeek.
  { unfold LpelStreamPeek. eapply Done_result; [run| |reflexivity].
    destruct Hholds as (Hbuf & _). apply (buffer_holds_top _ _ Hbuf). }
  split; [exact Hpeek|]. intros x q' ->.
  destruct (read_run sd w d st x q' Hd Hmode Hst Hholds) as (w' & tr & _ & Hrun & _).
  exists w', tr. rewrite (bind_pure _ _ _ _ _ Hpeek). exact Hrun.
Qed.

(** X4.  On a stream at rest [LpelStreamTryWrite] never suspends the
    producer: with a free slot it appends the item and returns 0, on a
    full stream it returns -1 and changes nothing. *)
Theorem LpelStreamTryWrite_never_suspends
    (sd item : Z) (w : World) (d : lpel_stream_desc_t) (st : lpel_stream_t) (q : list Z) :
  deref (descs w) sd = Some d ->
  mode d = "w"%char ->
  deref (streams w) (stream d) = Some st ->
  stream_holds st q ->
  item <> NULL ->
  exists r w' tr,
    LpelStreamTryWrite resume sd item w = Done r w' tr /\
    sched_calls tr = [] /\
    ((length q < capacity (buffer st))%nat ->
       r = 0 /\ holds w' (stream d) (q ++ [item])) /\
    (length q = capacity (buffer st) -> r = -1 /\ w' = w /\ tr = []).
Proof.
  intros Hd Hmode Hst Hholds Hitem.
  pose proof (buffer_holds_space _ _ (proj1 Hholds)) as Hspace.
  assert (length q <= capacity (buffer st))%nat as Hle by (destruct Hholds as [(?&?&?&?) _]; tauto).
  unfold LpelStreamTryWrite.
  rewrite (bind_pure _ _ w (stream d) w) by run_trace.
  rewrite (bind_pure _ _ w (buffer_is_space (buffer st)) w) by run_trace.
  rewrite Hspace. destruct (Nat.ltb_spec (length q) (capacity (buffer st))) as [Hlt|Hge];
    cbn [negb].
  - destruct (write_run sd item w d st q Hd Hmode Hst Hholds Hlt Hitem)
      as (w' & tr & st' & Hrun & Hst' & Hh & _ & Hs & _).
    exists 0, w', tr. split.
    + unfold bind. rewrite Hrun. cbn [ret]. rewrite app_nil_r. reflexivity.
    + split; [exact Hs|]. split; [intros _; split; [reflexivity|exists st'; tauto]|lia].
  - exists (-1), w, []. split; [reflexivity|]. split; [reflexivity|].
    split; [lia|]. intros _. repeat split.
Qed.

Lemma write_all_run sd d items :
  mode d = "w"%char ->
  Forall (fun x => x <> NULL) items ->
  forall w st q,
    deref (descs w) sd = Some d ->
    deref (streams w) (stream d) = Some st ->
    stream_holds st q ->
    (length q + length items <= capacity (buffer st))%nat ->
    exists w' tr st',
      write_all resume sd items w = Done tt w' tr /\
      deref (streams w') (stream d) = Some st' /\
      stream_holds st' (q ++ items) /\
      capacity (buffer st') = capacity (buffer st) /\
      sched_calls tr = [] /\
      descs w' = descs w.
Proof.
  intros Hmode Hnn. induction Hnn as [|item items Hitem Hnn IH]; intros w st q Hd Hst Hholds Hlen.
  - exists w, [], st. rewrite app_nil_r.
    split; [reflexivity|]. split; [exact Hst|]. split; [exact Hholds|].
    split; [reflexivity|]. split; reflexivity.
  - cbn [length] in Hlen.
    destruct (write_run sd item w d st q Hd Hmode Hst Hholds ltac:(lia) Hitem)
      as (w1 & tr1 & st1 & Hrun1 & Hst1 & Hh1 & Hc1 & Hs1 & HD1 & _).
    destruct (IH w1 st1 (q ++ [item])) as (w2 & tr2 & st2 & Hrun2 & Hst2 & Hh2 & Hc2 & Hs2 & HD2).
    + rewrite HD1. exact Hd.
    + exact Hst1.
    + exact Hh1.
    + rewrite length_app, Hc1. cbn [length]. lia.
    + exists w2, (tr1 ++ tr2), st2. split; [|split; [exact Hst2|split; [|split; [|split]]]].
      * cbn [write_all]. apply (bind_Done _ _ _ _ _ _ _ _ _ Hrun1 Hrun2).
      * rewrite <- app_assoc in Hh2. exact Hh2.
      * congruence.
      * rewrite sched_calls_app, Hs1, Hs2. reflexivity.
      * congruence.
Qed.

Lemma read_n_run sd d q1 :
  mode d = "r"%char ->
  forall w st q2,
    deref (descs w) sd = Some d ->
    deref (streams w) (stream d) = Some st ->
    stream_holds st (q1 ++ q2) ->
    exists w' tr st',
      read_n resume sd (length q1) w = Done q1 w' tr /\
      deref (streams w') (stream d) = Some st' /\
      stream_holds st' q2 /\
      capacity (buffer st') = capacity (buffer st) /\
      sched_calls tr = [] /\
      descs w' = descs w.
Proof.
  intros Hmode. induction q1 as [|x q1 IH]; intros w st q2 Hd Hst Hholds.
  - exists w, [], st.
    split; [reflexivity|]. split; [exact Hst|]. split; [exact Hholds|].
    split; [reflexivity|]. split; reflexivity.
  - destruct (read_run sd w d st x (q1 ++ q2) Hd Hmode Hst Hholds)
      as (w1 & tr1 & st1 & Hrun1 & Hst1 & Hh1 & Hc1 & Hs1 & HD1 & _).
    destruct (IH w1 st1 q2) as (w2 & tr2 & st2 & Hrun2 & Hst2 & Hh2 & Hc2 & Hs2 & HD2).
    + rewrite HD1. exact Hd.
    + exact Hst1.
    + exact Hh1.
    + exists w2, (tr1 ++ tr2 ++ []), st2.
      split; [|split; [exact Hst2|split; [exact Hh2|split; [|split]]]].
      * cbn [read_n length]. eapply bind_Done; [exact Hrun1|].
        eapply bind_Done; [exact Hrun2|]. reflexivity.
      * congruence.
      * rewrite app_nil_r, sched_calls_app, Hs1, Hs2. reflexivity.
      * congruence.
Qed.

(** X5.  Items are delivered in the order written.  On a stream at rest
    that holds [q], writing the items [items] (as many as there are free
    slots, or fewer) and then reading as many items as the stream then
    holds returns [q] followed by [items] and leaves the stream empty;
    no call suspends. *)
Theorem writes_then_reads_are_fifo
    (sd_w sd_r : Z) (w : World) (dw dr : lpel_stream_desc_t) (st : lpel_stream_t)
    (q items : list Z) :
  deref (descs w) sd_w = Some dw ->
  mode dw = "w"%char ->
  deref (descs w) sd_r = Some dr ->
  mode dr = "r"%char ->
  stream dr = stream dw ->
  deref (streams w) (stream dw) = Some st ->
  stream_holds st q ->
  (length q + length items <= capacity (buffer st))%nat ->
  Forall (fun x => x <> NULL) items ->
  exists w' tr,
    (write_all resume sd_w items ;; read_n resume sd_r (length q + length items)) w =
      Done (q ++ items) w' tr /\
    holds w' (stream dw) [] /\
    sched_calls tr = [].
Proof.
  intros Hdw Hmw Hdr Hmr Hsame Hst Hholds Hlen Hnn.
  destruct (write_all_run sd_w dw items Hmw Hnn w st q Hdw Hst Hholds Hlen)
    as (w1 & tr1 & st1 & Hrun1 & Hst1 & Hh1 & _ & Hs1 & HD1).
  rewrite <- (app_nil_r (q ++ items)) in Hh1.
  rewrite <- Hsame in Hst1.
  destruct (read_n_run sd_r dr (q ++ items) Hmr w1 st1 [])
    as (w2 & tr2 & st2 & Hrun2 & Hst2 & Hh2 & _ & Hs2 & _).
  - rewrite HD1. exact Hdr.
  - exact Hst1.
  - exact Hh1.
  - rewrite length_app in Hrun2. rewrite Hsame in Hst2.
    exists w2, (tr1 ++ tr2). split; [|split].
    + apply (bind_Done _ _ _ _ _ _ _ _ _ Hrun1 Hrun2).
    + exists st2. split; assumption.
    + rewrite sched_calls_app, Hs1, Hs2. reflexivity.
Qed.

End Queue.

(** ** Suspension and wakeup across the two ends *)

(** X6.  A read from an empty stream suspends the consumer.  If the
    producer writes an item while the consumer is suspended, the write
    finds [n_sem] at -1 and wakes the consumer, and the read returns that
    item; afterwards the stream is empty and at rest again. *)
Theorem read_suspends_until_write
    (sd_w sd_r item : Z) (w : World) (dw dr : lpel_stream_desc_t) (st : lpel_stream_t) :
  deref (descs w) sd_w = Some dw ->
  mode dw = "w"%char ->
  deref (descs w) sd_r = Some dr ->
  mode dr = "r"%char ->
  stream dr = stream dw ->
  deref (streams w) (stream dw) = Some st ->
  stream_holds st [] ->
  cons_sd st = sd_r ->
  item <> NULL ->
  exists w' tr,
    LpelStreamRead (producer_writes sd_w item) sd_r w = Done item w' tr /\
    sched_calls tr = [TaskBlock (task dr) BLOCKED_ON_INPUT] /\
    holds w' (stream dw) [] /\
    unblock_calls
      (match LpelStreamWrite no_interference sd_w item
               (world_after (fetch_and_dec (NSem (stream dw))) w) with
       | Done _ _ trw => trw
       | Crash _ => []
       end) = [TaskUnblock (task dw) (task dr)].
Proof.
  intros Hdw Hmw Hdr Hmr Hsame Hst (Hbuf & Hn & He & Hmax & Hlock & Hpoll) Hcons Hitem.
  pose proof (deref_not_NULL _ _ _ Hst) as Hsn.
  subst sd_r.
  destruct dr as [tr sr mr nr monr]. cbn [stream mode task] in *. subst sr mr.
  destruct dw as [tw sw mw nw monw]. cbn [stream mode task] in *. subst mw.
  assert (length ([] : list Z) < capacity (buffer st))%nat as Hcap
    by (destruct Hbuf as (_ & ? & _); cbn; lia).
  pose proof (buffer_holds_put _ _ item Hbuf Hcap Hitem) as Hput.
  assert (buffer_is_space (buffer st) = true) as Hspace
    by (rewrite (buffer_holds_space _ _ Hbuf); apply Nat.ltb_lt; exact Hcap).
  pose proof (buffer_holds_top _ _ Hput) as Htop. cbn in Htop.
  pose proof (buffer_holds_pop _ _ _ Hput) as Hpop.
  cbn [length] in *. unfold INT_MAX in Hmax.
  assert (wrap32 (n_sem st - 1) = -1) as Hw1 by (rewrite Hn; reflexivity).
  assert (wrap32 (-1 + 1) = 0) as Hw2 by reflexivity.
  assert (wrap32 (e_sem st - 1) = e_sem st - 1) as Hw3 by (apply wrap32_small; lia).
  assert (wrap32 (e_sem st - 1 + 1) = e_sem st) as Hw4 by (rewrite wrap32_small by lia; lia).
  set (w0 := with_streams (<[sw := set_n_sem (wrap32 (n_sem st - 1)) st]> (streams w)) w).
  assert (world_after (fetch_and_dec (NSem sw)) w = w0) as Hdec.
  { unfold world_after.
    assert (fetch_and_dec (NSem sw) w = Done (n_sem st) w0 []) as ->; [|reflexivity].
    unfold w0. run_trace. }
  (* the producer's write, in the memory the consumer left *)
  assert (exists w1 trw st1,
            LpelStreamWrite no_interference sd_w item w0 = Done tt w1 trw /\
            unblock_calls trw = [TaskUnblock tw tr] /\
            descs w1 = descs w /\
            deref (streams w1) sw = Some st1 /\
            buffer st1 = buffer_put (buffer st) item /\
            n_sem st1 = 0 /\ e_sem st1 = e_sem st - 1 /\
            prod_lock st1 = false /\ is_poll st1 = 0)
    as (w1 & trw & st1 & Hwrite & Hunb & HD1 & Hst1 & Hb1 & Hn1 & He1 & Hl1 & Hp1).
  { unfold w0.
    destruct (monw =? NULL) eqn:Hmonw;
      (do 3 eexists; split;
       [ unfold LpelStreamWrite, write_P, write_deposit, write_V; run
       | split; [reflexivity|]; split; [reflexivity|]; split; [solve_deref|];
         wsimpl; rewrite ?Hw1, ?Hw2, ?Hw3; repeat split; assumption ]). }
  rewrite Hdec, Hwrite.
  assert (producer_writes sd_w item tr BLOCKED_ON_INPUT w0 = w1) as Hres
    by (unfold producer_writes, world_after; rewrite Hwrite; reflexivity).
  rewrite <- Hres in HD1, Hst1. unfold w0 in HD1, Hst1.
  pose proof Hdr as Hdr2. rewrite <- HD1 in Hdr2.
  assert ((buffer_top (buffer st1) =? NULL) = false) as Htop0 by (rewrite Hb1, Htop; lia).
  destruct (monr =? NULL) eqn:Hmonr;
    (do 2 eexists; split;
     [ unfold LpelStreamRead, read_P, read_item, read_V; run_result;
       rewrite Hb1; exact Htop
     | split; [reflexivity|]; split; [|exact Hunb];
       eexists; split; [solve_deref|];
       unfold stream_holds, INT_MAX; wsimpl; rewrite Hb1, He1, Hw4;
       split; [exact Hpop|]; cbn [buffer_pop buffer_put capacity length];
       repeat split; try lia; assumption ]).
Qed.

(** X7.  A write to a full stream suspends the producer.  If the
    consumer reads an item while the producer is suspended, the read
    finds [e_sem] at -1 and wakes the producer, and the write completes:
    afterwards the stream is at rest, full again, with the new item
    behind the items that were left. *)
Theorem write_suspends_until_read
    (sd_w sd_r item x : Z) (w : World) (dw dr : lpel_stream_desc_t)
    (st : lpel_stream_t) (q : list Z) :
  deref (descs w) sd_w = Some dw ->
  mode dw = "w"%char ->
  deref (descs w) sd_r = Some dr ->
  mode dr = "r"%char ->
  stream dr = stream dw ->
  deref (streams w) (stream dw) = Some st ->
  stream_holds st (x :: q) ->
  length (x :: q) = capacity (buffer st) ->
  prod_sd st = sd_w ->
  item <> NULL ->
  exists w' tr,
    LpelStreamWrite (consumer_reads sd_r) sd_w item w = Done tt w' tr /\
    sched_calls tr = [TaskBlock (task dw) BLOCKED_ON_OUTPUT] /\
    holds w' (stream dw) (q ++ [item]) /\
    exists w1 trr,
      LpelStreamRead no_interference sd_r
        (world_after (fetch_and_dec (ESem (stream dw))) w) = Done x w1 trr /\
      unblock_calls trr = [TaskUnblock (task dr) (task dw)].
Proof.
  intros Hdw Hmw Hdr Hmr Hsame Hst (Hbuf & Hn & He & Hmax & Hlock & Hpoll) Hfull Hprod Hitem.
  pose proof (deref_not_NULL _ _ _ Hst) as Hsn.
  subst sd_w.
  destruct dr as [tr sr mr nr monr]. cbn [stream mode task mon] in *. subst sr mr.
  destruct dw as [tw sw mw nw monw]. cbn [stream mode task mon] in *. subst mw.
  pose proof (buffer_holds_top _ _ Hbuf) as Htop. cbn in Htop.
  pose proof (buffer_holds_pop _ _ _ Hbuf) as Hpop.
  assert (x <> NULL) as Hx.
  { destruct Hbuf as (_ & _ & _ & _ & _ & Hnn). apply Forall_cons in Hnn. tauto. }
  assert (length q < capacity (buffer_pop (buffer st)))%nat as Hlt
    by (cbn [buffer_pop capacity]; cbn [length] in Hfull; lia).
  pose proof (buffer_holds_put _ _ item Hpop Hlt Hitem) as Hput.
  assert (buffer_is_space (buffer_pop (buffer st)) = true) as Hspace
    by (rewrite (buffer_holds_space _ _ Hpop); apply Nat.ltb_lt; exact Hlt).
  cbn [length] in *. unfold INT_MAX in Hmax.
  assert (e_sem st = 0) as He0 by lia.
  assert (wrap32 (e_sem st - 1) = -1) as Hw1 by (rewrite He0; reflexivity).
  assert (wrap32 (-1 + 1) = 0) as Hw2 by reflexivity.
  assert (wrap32 (n_sem st - 1) = n_sem st - 1) as Hw3 by (apply wrap32_small; lia).
  assert (wrap32 (n_sem st - 1 + 1) = n_sem st) as Hw4 by (rewrite wrap32_small by lia; lia).
  assert ((buffer_top (buffer st) =? NULL) = false) as Htop0 by (rewrite Htop; lia).
  set (w0 := with_streams (<[sw := set_e_sem (wrap32 (e_sem st - 1)) st]> (streams w)) w).
  assert (world_after (fetch_and_dec (ESem sw)) w = w0) as Hdec.
  { unfold world_after.
    assert (fetch_and_dec (ESem sw) w = Done (e_sem st) w0 []) as ->; [|reflexivity].
    unfold w0. run_trace. }
  (* the consumer's read, in the memory the producer left *)
  assert (exists w1 trr st1,
            LpelStreamRead no_interference sd_r w0 = Done x w1 trr /\
            unblock_calls trr = [TaskUnblock tr tw] /\
            descs w1 = descs w /\
            deref (streams w1) sw = Some st1 /\
            buffer st1 = buffer_pop (buffer st) /\
            n_sem st1 = n_sem st - 1 /\ e_sem st1 = 0 /\
            prod_lock st1 = false /\ is_poll st1 = 0)
    as (w1 & trr & st1 & Hread & Hunb & HD1 & Hst1 & Hb1 & Hn1 & He1 & Hl1 & Hp1).
  { unfold w0.
    destruct (monr =? NULL) eqn:Hmonr;
      (do 3 eexists; split;
       [ unfold LpelStreamRead, read_P, read_item, read_V; run_result; exact Htop
       | split; [reflexivity|]; split; [reflexivity|]; split; [solve_deref|];
         wsimpl; rewrite ?Hw1, ?Hw2, ?Hw3; repeat split; assumption ]). }
  rewrite Hdec.
  assert (consumer_reads sd_r tw BLOCKED_ON_OUTPUT w0 = w1) as Hres
    by (unfold consumer_reads, world_after; rewrite Hread; reflexivity).
  pose proof HD1 as HD2. pose proof Hst1 as Hst2.
  rewrite <- Hres in HD2, Hst2. unfold w0 in HD2, Hst2.
  pose proof Hdw as Hdw2. rewrite <- HD2 in Hdw2.
  assert (buffer_is_space (buffer st1) = true) as Hspace1 by (rewrite Hb1; exact Hspace).
  assert ((n_sem st1 <? 0) = false) as Hnneg by lia.
  assert (wrap32 (n_sem st1 + 1) = n_sem st) as Hw5 by (rewrite Hn1; exact Hw4).
  destruct (monw =? NULL) eqn:Hmonw;
    (do 2 eexists; split;
     [ unfold LpelStreamWrite, write_P, write_deposit, write_V; run
     | split; [reflexivity|]; split; [|exists w1, trr; split; [exact Hread|exact Hunb]];
       eexists; split; [solve_deref|];
       unfold stream_holds, INT_MAX; wsimpl; rewrite Hb1, He1, Hw5, length_app;
       split; [exact Hput|]; cbn [buffer_pop buffer_put capacity length];
       repeat split; try lia; assumption ]).
Qed.

(** ** Faults *)

Lemma bind_Crash {A B} (m : M A) (k : A -> M B) w f :
  m w = Crash f -> bind m k w = Crash f.
Proof. intros H. unfold bind. rewrite H. reflexivity. Qed.

Lemma load_stream_Crash w p :
  deref (streams w) p = None -> load_stream p w = Crash Segfault.
Proof. intros H. unfold load_stream. rewrite H. reflexivity. Qed.

Lemma store_stream_Crash w p f :
  deref (streams w) p = None -> store_stream p f w = Crash Segfault.
Proof. intros H. unfold store_stream. rewrite H. reflexivity. Qed.

Lemma load_desc_Crash w p :
  deref (descs w) p = None -> load_desc p w = Crash Segfault.
Proof. intros H. unfold load_desc. rewrite H. reflexivity. Qed.

Lemma store_desc_Crash w p f :
  deref (descs w) p = None -> store_desc p f w = Crash Segfault.
Proof. intros H. unfold store_desc. rewrite H. reflexivity. Qed.

Lemma load_task_Crash w p :
  deref (tasks w) p = None -> load_task p w = Crash Segfault.
Proof. intros H. unfold load_task. rewrite H. reflexivity. Qed.

Lemma assert_Crash b w : b = false -> assert b w = Crash AssertionFailed.
Proof. intros ->. reflexivity. Qed.

Lemma deref_NULL {A} (m : gmap Z A) : deref m NULL = None.
Proof. reflexivity. Qed.

Ltac solve_none :=
  wsimpl;
  repeat first [ rewrite deref_insert_ne by solve_neq
               | rewrite deref_delete_ne by solve_neq ];
  first [ apply deref_delete_eq | apply deref_NULL | eassumption ].

Ltac crash1 :=
  wsimpl;
  first
    [ eassumption
    | eapply bind_Done_Crash; [solve [run] |]
    | lazymatch goal with
      | |- bind _ _ _ = Crash _ => eapply bind_Crash
      | |- load_stream _ _ = Crash _ => eapply load_stream_Crash; solve_none
      | |- store_stream _ _ _ = Crash _ => eapply store_stream_Crash; solve_none
      | |- load_desc _ _ = Crash _ => eapply load_desc_Crash; solve_none
      | |- store_desc _ _ _ = Crash _ => eapply store_desc_Crash; solve_none
      | |- load_task _ _ = Crash _ => eapply load_task_Crash; solve_none
      | |- assert _ _ = Crash _ => eapply assert_Crash; solve_bool
      | |- crash _ _ = Crash _ => reflexivity
      | |- (if ?b then _ else _) _ = Crash _ =>
          first [ eapply if_true_app; [solve [solve_bool] |]
                | eapply if_false_app; [solve [solve_bool] |] ]
      | |- _ => progress autounfold with lpel
      end ].

Ltac run_crash := repeat crash1.

(** ** Closing and destroying *)

(** X8.  [LpelStreamClose] frees the descriptor, and the stream too when
    [destroy_s] is not 0; the monitoring callback is made exactly when the
    descriptor is monitored.  Nothing else changes: in particular the
    stream, when it is kept, still names the freed descriptor in
    [cons_sd] or [prod_sd]. *)
Theorem LpelStreamClose_frees
    (sd destroy_s : Z) (w : World) (d : lpel_stream_desc_t) :
  deref (descs w) sd = Some d ->
  (destroy_s <> 0 -> deref (streams w) (stream d) <> None) ->
  exists w',
    LpelStreamClose sd destroy_s w =
      Done tt w' (if mon d =? NULL then [] else [MonStreamClose (mon d)]) /\
    deref (descs w') sd = None /\
    (forall p, p <> sd -> deref (descs w') p = deref (descs w) p) /\
    (destroy_s = 0 -> streams w' = streams w) /\
    (destroy_s <> 0 -> deref (streams w') (stream d) = None) /\
    (forall s, s <> stream d -> deref (streams w') s = deref (streams w) s) /\
    tasks w' = tasks w.
Proof.
  intros Hd Hlive.
  destruct (destroy_s =? 0) eqn:Hdes.
  - destruct (mon d =? NULL) eqn:Hmon;
      (eexists; split;
       [ unfold LpelStreamClose; run_trace
       | wsimpl; split; [apply deref_delete_eq|];
         split; [intros p Hp; apply deref_delete_ne; exact Hp|];
         split; [reflexivity|]; split; [lia|]; split; reflexivity ]).
  - destruct (deref (streams w) (stream d)) as [st|] eqn:Hst; [|exfalso; apply Hlive; [lia|reflexivity]].
    destruct (mon d =? NULL) eqn:Hmon;
      (eexists; split;
       [ unfold LpelStreamClose, LpelStreamDestroy; run_trace
       | wsimpl; split; [apply deref_delete_eq|];
         split; [intros p Hp; apply deref_delete_ne; exact Hp|];
         split; [lia|]; split; [intros _; apply deref_delete_eq|];
         split; [intros s Hs; apply deref_delete_ne; exact Hs|reflexivity] ]).
Qed.



(** ** Replacing *)


Section ReplaceRead.

Variable resume : Z -> lpel_taskstate_blocked_t -> World -> World.

(** X12.  After [LpelStreamReplace(sd, snew)] the descriptor reads from
    the new stream: the next read through [sd] returns the item at the
    head of [snew] without suspending and takes it off that stream; the
    old stream is gone. *)
Theorem LpelStreamReplace_then_read
    (sd snew x : Z) (w : World) (d : lpel_stream_desc_t) (old : lpel_stream_t)
    (q : list Z) :
  deref (descs w) sd = Some d ->
  mode d = "r"%char ->
  deref (streams w) (stream d) = Some old ->
  snew <> stream d ->
  holds w snew (x :: q) ->
  exists w' tr,
    (LpelStreamReplace sd snew ;; LpelStreamRead resume sd) w = Done x w' tr /\
    sched_calls tr = [] /\
    holds w' snew q /\
    deref (streams w') (stream d) = None /\
    LpelStreamGet sd w' = Done snew w' [].
Proof.
  intros Hd Hmode Hold Hne (st & Hst & Hholds).
  pose proof (deref_not_NULL _ _ _ Hd) as Hsdn.
  pose proof (deref_not_NULL _ _ _ Hst) as Hsn.
  destruct d as [t s m n mo] eqn:Ed. cbn [stream mode] in *. subst m.
  assert (exists w1 tr1,
             LpelStreamReplace sd snew w = Done tt w1 tr1 /\
             sched_calls tr1 = [] /\
             deref (descs w1) sd = Some (mk_desc t snew "r" n mo) /\
             deref (streams w1) snew = Some (set_cons_sd sd st) /\
             deref (streams w1) s = None)
    as (w1 & tr1 & Hrep & Hs1 & Hd1 & Hst1 & Hgone).
  { destruct (mo =? NULL) eqn:Hmo;
      (do 2 eexists; split;
       [ unfold LpelStreamReplace, LpelStreamDestroy; run
       | split; [reflexivity|]; split; [solve_deref|]; split; [solve_deref|];
         wsimpl; rewrite deref_insert_ne by congruence; apply deref_delete_eq ]). }
  assert (stream_holds (set_cons_sd sd st) (x :: q)) as Hholds1 by exact Hholds.
  destruct (read_run resume sd w1 _ _ x q Hd1 eq_refl Hst1 Hholds1)
    as (w2 & tr2 & st2 & Hread & Hst2 & Hh2 & _ & Hs2 & HD2 & _ & Hframe).
  cbn [stream] in *.
  exists w2, (tr1 ++ tr2).
  split; [eapply bind_Done; eassumption|].
  split; [rewrite sched_calls_app, Hs1, Hs2; reflexivity|].
  split; [exists st2; split; assumption|].
  split.
  - unfold deref in *. destruct (s =? NULL); [reflexivity|].
    rewrite Hframe by congruence. exact Hgone.
  - pose proof Hd1 as Hd2. rewrite <- HD2 in Hd2.
    unfold LpelStreamGet. run_trace.
Qed.

End ReplaceRead.

(** ** Argument checks *)

(** X13.  The mode of a descriptor is checked before anything else is
    done with it: reading, peeking or replacing through a descriptor
    opened for writing, and writing through one opened for reading or
    writing a null item, fail the assertion. *)
Theorem wrong_mode_fails_assertion
    (resume : Z -> lpel_taskstate_blocked_t -> World -> World)
    (sd_r sd_w item snew : Z) (w : World) (dr dw : lpel_stream_desc_t) :
  deref (descs w) sd_r = Some dr ->
  mode dr = "r"%char ->
  deref (descs w) sd_w = Some dw ->
  mode dw = "w"%char ->
  LpelStreamRead resume sd_w w = Crash AssertionFailed /\
  LpelStreamPeek sd_w w = Crash AssertionFailed /\
  LpelStreamReplace sd_w snew w = Crash AssertionFailed /\
  LpelStreamWrite resume sd_r item w = Crash AssertionFailed /\
  LpelStreamWrite resume sd_w NULL w = Crash AssertionFailed.
Proof.
  intros Hdr Hmr Hdw Hmw.
  destruct dr as [tr sr mr nr monr]. cbn [stream mode] in *. subst mr.
  destruct dw as [tw sw mw nw monw]. cbn [stream mode] in *. subst mw.
  split; [unfold LpelStreamRead; run_crash|].
  split; [unfold LpelStreamPeek; run_crash|].
  split; [unfold LpelStreamReplace; run_crash|].
  split; [unfold LpelStreamWrite; run_crash|].
  unfold LpelStreamWrite; run_crash.
Qed.

(** ** Creating *)

(** X14.  Streams created one after the other get consecutive
    identifiers, modulo [2 ^ 32], hence different ones.  The second
    creation does not touch the first stream, and neither touches a
    stream that was there before, a descriptor or a task. *)
Theorem LpelStreamCreate_twice
    (DEFAULT size1 size2 p1 p2 : Z) (rest : list Z) (w : World) :
  0 <= size1 -> 0 <= size2 ->
  heap_free w = p1 :: p2 :: rest ->
  p1 <> NULL -> p2 <> NULL -> p1 <> p2 ->
  exists w' st1 st2,
    (s1 <- LpelStreamCreate DEFAULT size1 ;;
     s2 <- LpelStreamCreate DEFAULT size2 ;;
     ret (s1, s2)) w = Done (p1, p2) w' [] /\
    deref (streams w') p1 = Some st1 /\
    deref (streams w') p2 = Some st2 /\
    deref (streams (world_after (LpelStreamCreate DEFAULT size1) w)) p1 = Some st1 /\
    uid st1 = to_unsigned (stream_seq w) /\
    uid st2 = (uid st1 + 1) mod 2 ^ 32 /\
    uid st1 <> uid st2 /\
    (forall s, s <> p1 -> s <> p2 -> deref (streams w') s = deref (streams w) s) /\
    descs w' = descs w /\ tasks w' = tasks w.
Proof.
  intros Hs1 Hs2 Hfree Hp1 Hp2 Hne.
  assert (to_unsigned (wrap32 (stream_seq w + 1)) =
          (to_unsigned (stream_seq w) + 1) mod 2 ^ 32) as Huid.
  { unfold to_unsigned, wrap32.
    rewrite Zminus_mod_idemp_l, Zplus_mod_idemp_l.
    rewrite Z.add_simpl_r. reflexivity. }
  assert (exists w1 st1,
             LpelStreamCreate DEFAULT size1 w = Done p1 w1 [] /\
             deref (streams w1) p1 = Some st1 /\
             uid st1 = to_unsigned (stream_seq w) /\
             stream_seq w1 = wrap32 (stream_seq w + 1) /\
             heap_free w1 = p2 :: rest /\
             (forall s, s <> p1 -> deref (streams w1) s = deref (streams w) s) /\
             descs w1 = descs w /\ tasks w1 = tasks w)
    as (w1 & st1 & Hrun1 & Hst1 & Hu1 & Hseq1 & Hfree1 & Hframe1 & HD1 & HT1).
  { do 2 eexists. split; [unfold LpelStreamCreate; run_trace|].
    split; [solve_deref|]. wsimpl. split; [reflexivity|]. split; [reflexivity|].
    split; [reflexivity|]. split; [|split; reflexivity].
    intros s Hs. repeat rewrite deref_insert_ne by exact Hs. reflexivity. }
  assert (exists w2 st2,
             LpelStreamCreate DEFAULT size2 w1 = Done p2 w2 [] /\
             deref (streams w2) p2 = Some st2 /\
             uid st2 = to_unsigned (stream_seq w1) /\
             (forall s, s <> p2 -> deref (streams w2) s = deref (streams w1) s) /\
             descs w2 = descs w1 /\ tasks w2 = tasks w1)
    as (w2 & st2 & Hrun2 & Hst2 & Hu2 & Hframe2 & HD2 & HT2).
  { do 2 eexists. split; [unfold LpelStreamCreate; run_trace|].
    split; [solve_deref|]. wsimpl. split; [reflexivity|].
    split; [|split; reflexivity].
    intros s Hs. repeat rewrite deref_insert_ne by exact Hs. reflexivity. }
  exists w2, st1, st2.
  split; [run_trace|].
  split; [rewrite Hframe2 by exact Hne; exact Hst1|].
  split; [exact Hst2|].
  split; [unfold world_after; rewrite Hrun1; exact Hst1|].
  split; [exact Hu1|].
  split; [rewrite Hu2, Hseq1, Huid, Hu1; reflexivity|].
  split.
  - rewrite Hu2, Hseq1, Huid, Hu1. unfold to_unsigned.
    change (2 ^ 32) with 4294967296.
    pose proof (Z.mod_pos_bound (stream_seq w) 4294967296 ltac:(lia)) as Hb.
    destruct (Z.eq_dec (stream_seq w mod 4294967296 + 1) 4294967296) as [He|He].
    + rewrite He, Z.mod_same by lia. lia.
    + rewrite (Z.mod_small (_ + 1)) by lia. lia.
  - split; [|split; congruence].
    intros s Hn1 Hn2. rewrite Hframe2, Hframe1 by assumption. reflexivity.
Qed.

(** ** From creation to delivery *)

Ltac run_alloc :=
  repeat first
    [ run1
    | eapply malloc_desc_Done; wsimpl; reflexivity
    | eapply malloc_stream_Done; wsimpl; reflexivity ].

Section Pipeline.

Variable resume : Z -> lpel_taskstate_blocked_t -> World -> World.
Variable LpelMonStreamOpen : Z -> Z -> ascii -> Z.
Variable STREAM_BUFFER_SIZE : Z.

(** X15.  A stream that has just been created with [size] slots and
    opened at both ends takes up to [size] items without suspending the
    producer, and hands them to the consumer in the order written,
    without suspending it either; the stream is empty again afterwards. *)
Theorem fresh_stream_is_fifo
    (size s pw pr : Z) (rest items : list Z) (w : World) (ct : lpel_task_t) :
  0 < size <= INT_MAX ->
  (length items <= Z.to_nat size)%nat ->
  Forall (fun x => x <> NULL) items ->
  heap_free w = s :: pw :: pr :: rest ->
  s <> NULL -> pw <> NULL -> pr <> NULL -> pw <> pr ->
  deref (tasks w) (current w) = Some ct ->
  exists w' tr,
    (s <- LpelStreamCreate STREAM_BUFFER_SIZE size ;;
     sd_w <- LpelStreamOpen LpelMonStreamOpen s "w" ;;
     sd_r <- LpelStreamOpen LpelMonStreamOpen s "r" ;;
     write_all resume sd_w items ;;
     read_n resume sd_r (length items)) w = Done items w' tr /\
    sched_calls tr = [] /\
    holds w' s [].
Proof.
  intros Hsize Hlen Hnn Hfree Hs Hpw Hpr Hne Hct.
  pose proof (deref_not_NULL _ _ _ Hct) as Hctn.
  assert ((size =? 0) = false) as Hnz by lia.
  assert (exists w1 st dw dr,
             (s <- LpelStreamCreate STREAM_BUFFER_SIZE size ;;
              sd_w <- LpelStreamOpen LpelMonStreamOpen s "w" ;;
              sd_r <- LpelStreamOpen LpelMonStreamOpen s "r" ;;
              ret (s, sd_w, sd_r)) w = Done (s, pw, pr) w1 [] /\
             deref (streams w1) s = Some st /\
             stream_holds st [] /\
             capacity (buffer st) = Z.to_nat size /\
             deref (descs w1) pw = Some dw /\ mode dw = "w"%char /\ stream dw = s /\
             deref (descs w1) pr = Some dr /\ mode dr = "r"%char /\ stream dr = s)
    as (w1 & st & dw & dr & Hsetup & Hst & Hholds & Hcap & Hdw & Hmw & Hsw & Hdr & Hmr & Hsr).
  { do 4 eexists. split; [unfold LpelStreamCreate, LpelStreamOpen; eapply Done_trace; [run_alloc|reflexivity]|].
    split; [solve_deref|]. wsimpl.
    split.
    - unfold stream_holds. wsimpl. rewrite Hnz.
      split; [apply buffer_holds_init; lia|].
      cbn [length buffer_init capacity]. repeat split; lia.
    - rewrite Hnz. split; [reflexivity|].
      split; [solve_deref|]. split; [reflexivity|]. split; [reflexivity|].
      split; [solve_deref|]. split; reflexivity. }
  destruct (write_all_run resume pw dw items Hmw Hnn w1 st [] Hdw
              ltac:(rewrite Hsw; exact Hst) Hholds ltac:(cbn [length]; lia))
    as (w2 & tr2 & st2 & Hrun2 & Hst2 & Hh2 & _ & Hs2 & HD2).
  cbn [app] in Hh2. rewrite <- (app_nil_r items) in Hh2.
  rewrite Hsw, <- Hsr in Hst2. rewrite <- HD2 in Hdr.
  destruct (read_n_run resume pr dr items Hmr w2 st2 [] Hdr Hst2 Hh2)
    as (w3 & tr3 & st3 & Hrun3 & Hst3 & Hh3 & _ & Hs3 & _).
  rewrite Hsr in Hst3.
  exists w3, (tr2 ++ tr3).
  split.
  - change (tr2 ++ tr3) with ([] ++ tr2 ++ tr3).
    unfold bind in *.
    destruct (LpelStreamCreate STREAM_BUFFER_SIZE size w) as [a wa ta|]; [|discriminate].
    destruct (LpelStreamOpen LpelMonStreamOpen a "w" wa) as [b wb tb|]; [|discriminate].
    destruct (LpelStreamOpen LpelMonStreamOpen a "r" wb) as [c wc tc|]; [|discriminate].
    cbn in Hsetup. injection Hsetup as -> -> -> -> Htr.
    rewrite Hrun2, Hrun3.
    assert (ta = [] /\ tb = [] /\ tc = []) as (-> & -> & ->).
    { destruct ta; [|discriminate]. destruct tb; [|discriminate].
      destruct tc; [|discriminate]. tauto. }
    reflexivity.
  - split; [rewrite sched_calls_app, Hs2, Hs3; reflexivity|].
    exists st3. split; assumption.
Qed.

End Pipeline.

(** ** Polling *)

Lemma set_is_poll_id st : is_poll st = 0 -> set_is_poll 0 st = st.
Proof. intros H. destruct st. cbn in *. subst. reflexivity. Qed.

Lemma set_is_poll_twice v st : is_poll st = 0 -> set_is_poll 0 (set_is_poll v st) = st.
Proof. intros H. destruct st. cbn in *. subst. reflexivity. Qed.

(** Flags that are set on streams that were not activators and cleared
    again on at least those streams leave the streams as they were. *)
Lemma set_poll_flags_restore (S : gmap Z lpel_stream_t) (E Dm : list Z) :
  (forall q, In q E -> In q Dm) ->
  (forall q st, In q Dm -> S !! q = Some st -> is_poll st = 0) ->
  set_poll_flags 0 Dm (set_poll_flags 1 E S) = S.
Proof.
  intros Hincl Hunp. apply map_eq. intros q.
  destruct (classic_in q Dm) as [Hd|Hd].
  - rewrite set_poll_flags_member by exact Hd.
    destruct (classic_in q E) as [He|He].
    + rewrite set_poll_flags_member by exact He.
      destruct (S !! q) as [st|] eqn:Hq; [|reflexivity].
      cbn. rewrite set_is_poll_twice by (eapply Hunp; eassumption). reflexivity.
    + rewrite set_poll_flags_other by exact He.
      destruct (S !! q) as [st|] eqn:Hq; [|reflexivity].
      cbn. rewrite set_is_poll_id by (eapply Hunp; eassumption). reflexivity.
  - rewrite !set_poll_flags_other; [reflexivity| |exact Hd].
    intros He. apply Hd, Hincl, He.
Qed.

Section PollReady.

Variable resume : Z -> lpel_taskstate_blocked_t -> World -> World.

Lemma LpelStreamPoll_ready_run fuel set w l ds t r :
  stream_set w set l ->
  (length l < fuel)%nat ->
  (forall sd, In sd l -> desc_idle w sd) ->
  (forall sd, In sd l -> desc_unpolled w sd) ->
  deref (descs w) set = Some ds ->
  deref (tasks w) (task ds) = Some t ->
  first_ready w l = Some r ->
  exists w',
    LpelStreamPoll resume fuel set w = Done (r, r) w' [] /\
    descs w' = descs w /\
    streams w' = streams w /\
    deref (tasks w') (task ds) = Some (set_wakeup_sd r (set_poll_token 0 t)).
Proof.
  intros Hset Hfuel Hidle Hunp Hds Ht Hready.
  destruct (LpelStreamPoll_ready resume fuel set w l ds t r Hset Hfuel Hidle Hds Ht Hready)
    as (w' & Hrun & HD & HS & HT).
  exists w'. split; [exact Hrun|]. split; [exact HD|]. split; [|exact HT].
  rewrite HS. apply set_poll_flags_restore.
  - intros q Hq. apply in_map_iff in Hq. destruct Hq as (sd & <- & Hsd).
    apply in_map, scanned_empty_disarmed, Hsd.
  - intros q st Hq Hlook. apply in_map_iff in Hq. destruct Hq as (sd & <- & Hsd).
    apply disarmed_incl in Hsd.
    destruct (Hunp sd Hsd) as (st' & Hst' & Hp).
    apply deref_Some in Hst'. destruct Hst' as [_ Hst']. congruence.
Qed.

(** X16.  When a stream of the set has an item, [LpelStreamPoll] returns
    the first descriptor of the traversal whose stream has one, without
    a call to the scheduler, and what it has registered during the scan
    it has cleared: every stream and every descriptor is exactly as
    before the call.  What has changed is the calling task: its token is
    taken and [wakeup_sd] is the descriptor returned. *)
Theorem LpelStreamPoll_finding_item_restores_streams
    (fuel : nat) (set : Z) (w : World) (l : list Z) (t : lpel_task_t) (r : Z) :
  stream_set w set l ->
  (length l < fuel)%nat ->
  (forall sd, In sd l -> desc_idle w sd) ->
  (forall sd, In sd l -> desc_unpolled w sd) ->
  deref (tasks w) (task_of w set) = Some t ->
  first_ready w l = Some r ->
  exists w',
    LpelStreamPoll resume fuel set w = Done (r, r) w' [] /\
    streams w' = streams w /\
    descs w' = descs w /\
    deref (tasks w') (task_of w set) = Some (set_wakeup_sd r (set_poll_token 0 t)).
Proof.
  intros Hset Hfuel Hidle Hunp Ht Hready.
  destruct (stream_set_live _ _ _ Hset) as (ds & Hds).
  unfold task_of in *. rewrite Hds in *.
  destruct (LpelStreamPoll_ready_run fuel set w l ds t r
              Hset Hfuel Hidle Hunp Hds Ht Hready) as (w' & Hrun & HD & HS & HT).
  exists w'. tauto.
Qed.

(** X17.  Polling and then reading from the descriptor returned does not
    suspend when a stream of the set has an item: the read returns the
    item at the head of the first stream of the traversal that has one
    and takes it off that stream. *)
Theorem LpelStreamPoll_then_read
    (fuel : nat) (set : Z) (w : World) (l : list Z) (t : lpel_task_t)
    (r x : Z) (d : lpel_stream_desc_t) (q : list Z) :
  stream_set w set l ->
  (length l < fuel)%nat ->
  (forall sd, In sd l -> desc_idle w sd) ->
  (forall sd, In sd l -> desc_unpolled w sd) ->
  deref (tasks w) (task_of w set) = Some t ->
  first_ready w l = Some r ->
  deref (descs w) r = Some d ->
  mode d = "r"%char ->
  holds w (stream d) (x :: q) ->
  exists w' tr,
    (p <- LpelStreamPoll resume fuel set ;; LpelStreamRead resume (fst p)) w =
      Done x w' tr /\
    sched_calls tr = [] /\
    holds w' (stream d) q.
Proof.
  intros Hset Hfuel Hidle Hunp Ht Hready Hd Hmode (st & Hst & Hholds).
  destruct (stream_set_live _ _ _ Hset) as (ds & Hds).
  unfold task_of in *. rewrite Hds in *.
  destruct (LpelStreamPoll_ready_run fuel set w l ds t r
              Hset Hfuel Hidle Hunp Hds Ht Hready) as (w1 & Hrun & HD & HS & _).
  rewrite <- HD in Hd. rewrite <- HS in Hst.
  destruct (read_run resume r w1 d st x q Hd Hmode Hst Hholds)
    as (w2 & tr2 & st2 & Hread & Hst2 & Hh2 & _ & Hs2 & _).
  exists w2, ([] ++ tr2).
  split; [eapply bind_Done; [exact Hrun|exact Hread]|].
  split; [exact Hs2|]. exists st2. split; assumption.
Qed.

End PollReady.

(** The write of [LpelStreamWrite_wakes_poller], step by step: the
    producer finds the stream registered, takes the token, records the
    consumer's descriptor as the cause of the wakeup and unblocks the
    consumer. *)
Lemma LpelStreamWrite_during_poll
    (resume : Z -> lpel_taskstate_blocked_t -> World -> World)
    (w : World) (self : Z) (l : list Z) (sdw sdr item : Z)
    (dw dr : lpel_stream_desc_t) (st : lpel_stream_t) (t : lpel_task_t) :
  (forall sd, In sd l -> desc_idle w sd) ->
  In sdr l ->
  deref (descs w) sdr = Some dr ->
  task dr = self ->
  deref (descs w) sdw = Some dw ->
  mode dw = "w"%char ->
  stream dw = stream dr ->
  deref (streams w) (stream dr) = Some st ->
  cons_sd st = sdr ->
  buffer_empty (buffer st) ->
  e_sem st <> 0 ->
  0 <= n_sem st ->
  deref (tasks w) self = Some t ->
  item <> NULL ->
  exists w2 tr st2,
    LpelStreamWrite resume sdw item (poll_armed w self l) = Done tt w2 tr /\
    unblock_calls tr = [TaskUnblock (task dw) self] /\
    deref (streams w2) (stream dr) = Some st2 /\
    buffer st2 = buffer_put (buffer st) item /\
    deref (tasks w2) self = Some (set_wakeup_sd sdr (set_poll_token 0 t)).
Proof.
  intros Hidle Hin Hdr Hself Hdw Hmode Hsame Hst Hcons Hempty He Hn Ht Hitem.
  destruct (Hidle sdr Hin) as (dr' & st' & Hdr' & Hst' & Hlock).
  rewrite Hdr in Hdr'. injection Hdr' as <-. rewrite Hst in Hst'. injection Hst' as <-.
  pose proof (deref_not_NULL _ _ _ Hst) as Hsn.
  pose proof (deref_not_NULL _ _ _ Ht) as Htn.
  pose proof (buffer_empty_space _ Hempty) as Hspace.
  destruct dw as [tw sw mw nw monw]. cbn [stream mode task] in *. subst sw mw.
  assert (In (stream dr) (map (stream_of w) l)) as Hins.
  { apply in_map_iff. exists sdr. split; [|exact Hin]. unfold stream_of. rewrite Hdr. reflexivity. }
  assert (deref (streams (poll_armed w self l)) (stream dr) = Some (set_is_poll 1 st)) as Hst1.
  { unfold poll_armed. cbn [streams with_streams].
    rewrite deref_set_poll_flags_member, Hst by exact Hins. reflexivity. }
  assert (deref (tasks (poll_armed w self l)) self = Some (set_poll_token 1 t)) as Ht1
    by (apply deref_alter_eq; exact Ht).
  assert (descs (poll_armed w self l) = descs w) as HD1 by reflexivity.
  revert Hst1 Ht1 HD1. generalize (poll_armed w self l). intros w1 Hst1 Ht1 HD1.
  rewrite <- HD1 in Hdr, Hdw.
  subst self sdr.
  assert ((e_sem st =? 0) = false) as He0 by lia.
  destruct (monw =? NULL) eqn:Hmon;
    (do 3 eexists; split;
     [ unfold LpelStreamWrite, write_P, write_deposit, write_V; run
     | split; [reflexivity|]; split; [solve_deref|]; split; [reflexivity|];
       solve_deref ]).
Qed.

(** X18.  When no stream of the set has an item, [LpelStreamPoll]
    suspends the task with every stream of the set registered.  If a
    producer then writes to one of these streams, it wakes the task, and
    the poll returns the consumer's descriptor of that very stream, with
    the item written at its head; no stream of the set is left
    registered. *)
Theorem poll_suspends_until_write
    (fuel : nat) (set : Z) (w : World) (l : list Z) (t : lpel_task_t)
    (sdw sdr item : Z) (dw dr : lpel_stream_desc_t) (st : lpel_stream_t) :
  stream_set w set l ->
  (length l < fuel)%nat ->
  (forall sd, In sd l -> desc_idle w sd) ->
  deref (tasks w) (task_of w set) = Some t ->
  first_ready w l = None ->
  In sdr l ->
  deref (descs w) sdr = Some dr ->
  task dr = task_of w set ->
  mode dr = "r"%char ->
  deref (descs w) sdw = Some dw ->
  mode dw = "w"%char ->
  stream dw = stream dr ->
  deref (streams w) (stream dr) = Some st ->
  cons_sd st = sdr ->
  buffer_empty (buffer st) ->
  e_sem st <> 0 ->
  0 <= n_sem st ->
  item <> NULL ->
  exists w',
    LpelStreamPoll (producer_writes sdw item) fuel set w =
      Done (sdr, sdr) w' [TaskBlock (task_of w set) BLOCKED_ON_ANYIN] /\
    LpelStreamPeek sdr w' = Done item w' [] /\
    (forall sd, In sd l -> desc_unpolled w' sd) /\
    unblock_calls
      (match LpelStreamWrite no_interference sdw item
               (poll_armed w (task_of w set) l) with
       | Done _ _ trw => trw
       | Crash _ => []
       end) = [TaskUnblock (task dw) (task_of w set)].
Proof.
  intros Hset Hfuel Hidle Ht Hready Hin Hdr Hself Hmr Hdw Hmw Hsame Hst Hcons Hempty
    He Hn Hitem.
  destruct (LpelStreamWrite_wakes_poller no_interference w (task_of w set) l sdw sdr item
              dw dr st t Hidle Hin Hdr Hself Hdw Hmw Hsame Hst Hcons Hempty He Hn Ht Hitem)
    as (HD2 & Hidle2 & _).
  destruct (LpelStreamWrite_during_poll no_interference w (task_of w set) l sdw sdr item
              dw dr st t Hidle Hin Hdr Hself Hdw Hmw Hsame Hst Hcons Hempty He Hn Ht Hitem)
    as (w2 & trw & st2 & Hwrite & Hunb & Hst2 & Hbuf2 & Ht2).
  rewrite Hwrite.
  unfold world_after in HD2, Hidle2. rewrite Hwrite in HD2, Hidle2.
  destruct (stream_set_live _ _ _ Hset) as (ds & Hds).
  assert (task_of w set = task ds) as Hself' by (unfold task_of; rewrite Hds; reflexivity).
  rewrite Hself' in *.
  assert (producer_writes sdw item (task ds) BLOCKED_ON_ANYIN (poll_armed w (task ds) l) = w2)
    as Hres by (unfold producer_writes, world_after; rewrite Hwrite; reflexivity).
  destruct (LpelStreamPoll_blocked (producer_writes sdw item) fuel set w l ds t
              (set_wakeup_sd sdr (set_poll_token 0 t)) Hset Hfuel Hidle Hds Ht Hready)
    as (w' & Hrun & HD & HS & _).
  - rewrite Hres. exact HD2.
  - rewrite Hres. exact Hidle2.
  - rewrite Hres. exact Ht2.
  - reflexivity.
  - rewrite Hres in HD, HS. cbn [wakeup_sd set_wakeup_sd] in Hrun.
    assert (descs w' = descs w) as HDw by (rewrite HD, HD2; reflexivity).
    assert (In (stream dr) (map (stream_of w2) l)) as Hins.
    { apply in_map_iff. exists sdr. split; [|exact Hin].
      unfold stream_of. rewrite HD2. cbn [descs poll_armed with_streams with_tasks].
      rewrite Hdr. reflexivity. }
    exists w'. split; [exact Hrun|]. split; [|split; [|exact Hunb]].
    + pose proof Hdr as Hdr'. rewrite <- HDw in Hdr'.
      assert (deref (streams w') (stream dr) = Some (set_is_poll 0 st2)) as Hst'.
      { rewrite HS, deref_set_poll_flags_member, Hst2 by exact Hins. reflexivity. }
      unfold LpelStreamPeek. run_result.
      rewrite Hbuf2. apply buffer_top_put. exact Hempty.
    + intros sd Hsd. unfold desc_unpolled.
      assert (stream_of w' sd = stream_of w2 sd) as ->
        by (unfold stream_of; rewrite HD; reflexivity).
      destruct (desc_idle_stream_of _ _ (Hidle2 sd Hsd)) as (s0 & Hs0 & _).
      destruct (deref_set_poll_flags 0 (map (stream_of w2) l) _ _ _ Hs0)
        as (s1 & Hs1 & _ & _ & Hp & _).
      exists s1. rewrite HS. split; [exact Hs1|]. apply Hp, in_map, Hsd.
Qed.

(** ** Wakeups that deliver nothing *)

Section Spurious.

Variable resume : Z -> lpel_taskstate_blocked_t -> World -> World.

(** X19.  A task that is resumed from the suspension of
    [LpelStreamRead] relies on an item being there.  If the consumer
    runs again while the buffer is still empty, the read fails its
    assertion on the item. *)
Theorem LpelStreamRead_resumed_without_item_fails_assertion
    (sd : Z) (w : World) (d : lpel_stream_desc_t) (st st2 : lpel_stream_t) :
  deref (descs w) sd = Some d ->
  mode d = "r"%char ->
  deref (streams w) (stream d) = Some st ->
  n_sem st = 0 ->
  (let w2 := resume (task d) BLOCKED_ON_INPUT
               (world_after (fetch_and_dec (NSem (stream d))) w) in
   deref (descs w2) sd = Some d /\
   deref (streams w2) (stream d) = Some st2 /\
   buffer_top (buffer st2) = NULL) ->
  LpelStreamRead resume sd w = Crash AssertionFailed.
Proof.
  intros Hd Hm Hst Hn Hw2.
  pose proof (deref_not_NULL _ _ _ Hst) as Hsn.
  destruct d as [tk s m nx mo]. cbn [stream mode task mon] in *. subst m.
  assert (world_after (fetch_and_dec (NSem s)) w =
          with_streams (<[s := set_n_sem (wrap32 (n_sem st - 1)) st]> (streams w)) w) as Hdec.
  { unfold world_after.
    assert (fetch_and_dec (NSem s) w =
            Done (n_sem st)
              (with_streams (<[s := set_n_sem (wrap32 (n_sem st - 1)) st]> (streams w)) w) [])
      as ->; [run_trace|reflexivity]. }
  cbv zeta in Hw2. rewrite Hdec in Hw2.
  destruct Hw2 as (Hd2 & Hst2 & Htop).
  destruct (mo =? NULL) eqn:Hmon;
    unfold LpelStreamRead, read_P, read_item; run_crash.
Qed.

(** X20.  A task that is resumed from the suspension of
    [LpelStreamWrite] relies on a slot being free.  If the producer runs
    again while the buffer is still full, the write fails its assertion
    on the space. *)
Theorem LpelStreamWrite_resumed_without_space_fails_assertion
    (sd item : Z) (w : World) (d : lpel_stream_desc_t) (st st2 : lpel_stream_t) :
  deref (descs w) sd = Some d ->
  mode d = "w"%char ->
  deref (streams w) (stream d) = Some st ->
  e_sem st = 0 ->
  item <> NULL ->
  (let w2 := resume (task d) BLOCKED_ON_OUTPUT
               (world_after (fetch_and_dec (ESem (stream d))) w) in
   deref (descs w2) sd = Some d /\
   deref (streams w2) (stream d) = Some st2 /\
   prod_lock st2 = false /\
   buffer_is_space (buffer st2) = false) ->
  LpelStreamWrite resume sd item w = Crash AssertionFailed.
Proof.
  intros Hd Hm Hst He Hitem Hw2.
  pose proof (deref_not_NULL _ _ _ Hst) as Hsn.
  destruct d as [tk s m nx mo]. cbn [stream mode task mon] in *. subst m.
  assert (world_after (fetch_and_dec (ESem s)) w =
          with_streams (<[s := set_e_sem (wrap32 (e_sem st - 1)) st]> (streams w)) w) as Hdec.
  { unfold world_after.
    assert (fetch_and_dec (ESem s) w =
            Done (e_sem st)
              (with_streams (<[s := set_e_sem (wrap32 (e_sem st - 1)) st]> (streams w)) w) [])
      as ->; [run_trace|reflexivity]. }
  cbv zeta in Hw2. rewrite Hdec in Hw2.
  destruct Hw2 as (Hd2 & Hst2 & Hlock2 & Hspace).
  destruct (mo =? NULL) eqn:Hmon;
    unfold LpelStreamWrite, write_P, write_deposit; run_crash.
Qed.

(** X21.  [LpelStreamPoll] relies on being resumed by a producer that
    has taken the poll token.  When no stream of the set has an item the
    task is suspended, and if it runs again with the token still in
    place, the call fails its assertion on the token. *)
Theorem LpelStreamPoll_resumed_with_token_fails_assertion
    (fuel : nat) (set : Z) (w : World) (l : list Z) (t t2 : lpel_task_t) :
  stream_set w set l ->
  (length l < fuel)%nat ->
  (forall sd, In sd l -> desc_idle w sd) ->
  deref (tasks w) (task_of w set) = Some t ->
  first_ready w l = None ->
  deref (tasks (resume (task_of w set) BLOCKED_ON_ANYIN
                  (poll_armed w (task_of w set) l))) (task_of w set) = Some t2 ->
  poll_token t2 <> 0 ->
  LpelStreamPoll resume fuel set w = Crash AssertionFailed.
Proof.
  intros Hset Hfuel Hidle Ht Hready Ht2 Htok2.
  destruct (stream_set_live _ _ _ Hset) as (ds & Hds).
  unfold task_of in *. rewrite Hds in *.
  pose proof (deref_not_NULL _ _ _ Hds) as Hsetn.
  pose proof (deref_not_NULL _ _ _ Ht) as Hselfn.
  set (w0 := with_tasks (<[task ds := set_poll_token 1 t]> (tasks w)) w).
  pose proof (same_buffers_with_tasks w (<[task ds := set_poll_token 1 t]> (tasks w))) as Hsame.
  fold w0 in Hsame.
  assert (deref (tasks w0) (task ds) = Some (set_poll_token 1 t)) as Ht0
    by (apply deref_insert_eq; exact Hselfn).
  pose proof (poll_scan_spec l fuel (task ds) (set_poll_token 1 t) set NULL 0 w0
                Hfuel (iter_at_start w set l Hset) Hidle Ht0 ltac:(cbn; lia)) as Hscan.
  rewrite (same_buffers_first_ready _ _ l Hsame),
    (same_buffers_scanned_empty _ _ l Hsame), Hready,
    (first_ready_None _ _ Hready) in Hscan.
  rewrite (map_ext_in (stream_of w0) (stream_of w))
    in Hscan by (intros; apply (same_buffers_stream_of _ _ _ Hsame)).
  assert (with_tasks (tasks w0)
            (with_streams (set_poll_flags 1 (map (stream_of w) l) (streams w0)) w0) =
          poll_armed w (task ds) l) as Harmed.
  { unfold poll_armed, w0. wnorm. rewrite (insert_as_alter _ _ _ _ Ht). reflexivity. }
  rewrite Harmed in Hscan.
  assert ((poll_token t2 =? 0) = false) as Htokb by lia.
  unfold LpelStreamPoll. run_crash.
Qed.

End Spurious.

(** ** The producer and the poll flag *)

Section PollFlag.

Variable resume : Z -> lpel_taskstate_blocked_t -> World -> World.


(** X23.  The poll token grants one wakeup.  When two streams are
    registered for the same polling task and a producer writes to each,
    the first write takes the token, records the consumer's descriptor
    of its stream in [wakeup_sd] and unblocks the task; the second finds
    the token gone and unblocks nobody.  Both clear the flag of their
    stream. *)
Theorem poll_token_grants_one_wakeup
    (sd1 sd2 item1 item2 self : Z) (w : World)
    (d1 d2 c1 c2 : lpel_stream_desc_t) (st1 st2 : lpel_stream_t) (t : lpel_task_t) :
  deref (descs w) sd1 = Some d1 -> mode d1 = "w"%char ->
  deref (descs w) sd2 = Some d2 -> mode d2 = "w"%char ->
  stream d1 <> stream d2 ->
  deref (streams w) (stream d1) = Some st1 ->
  deref (streams w) (stream d2) = Some st2 ->
  prod_lock st1 = false -> prod_lock st2 = false ->
  buffer_is_space (buffer st1) = true -> buffer_is_space (buffer st2) = true ->
  e_sem st1 <> 0 -> e_sem st2 <> 0 ->
  0 <= n_sem st1 -> 0 <= n_sem st2 ->
  is_poll st1 <> 0 -> is_poll st2 <> 0 ->
  deref (descs w) (cons_sd st1) = Some c1 -> task c1 = self ->
  deref (descs w) (cons_sd st2) = Some c2 -> task c2 = self ->
  deref (tasks w) self = Some t ->
  poll_token t <> 0 ->
  item1 <> NULL -> item2 <> NULL ->
  exists w' tr st1' st2',
    (LpelStreamWrite resume sd1 item1 ;; LpelStreamWrite resume sd2 item2) w =
      Done tt w' tr /\
    sched_calls tr = [TaskUnblock (task d1) self] /\
    deref (tasks w') self = Some (set_wakeup_sd (cons_sd st1) (set_poll_token 0 t)) /\
    deref (streams w') (stream d1) = Some st1' /\ is_poll st1' = 0 /\
    deref (streams w') (stream d2) = Some st2' /\ is_poll st2' = 0.
Proof.
  intros Hd1 Hm1 Hd2 Hm2 Hne Hst1 Hst2 Hl1 Hl2 Hsp1 Hsp2 He1 He2 Hn1 Hn2 Hp1 Hp2
    Hc1 Ht1 Hc2 Ht2 Ht Htok Hi1 Hi2.
  pose proof (deref_not_NULL _ _ _ Hst1) as Hs1n.
  pose proof (deref_not_NULL _ _ _ Hst2) as Hs2n.
  pose proof (deref_not_NULL _ _ _ Ht) as Htn.
  destruct d1 as [tw1 s1 mw1 nw1 mon1]. cbn [stream mode task mon] in *. subst mw1.
  destruct d2 as [tw2 s2 mw2 nw2 mon2]. cbn [stream mode task mon] in *. subst mw2.
  destruct c1 as [tc1 sc1 mc1 nc1 monc1]. cbn [task] in *. subst tc1.
  destruct c2 as [tc2 sc2 mc2 nc2 monc2]. cbn [task] in *. subst tc2.
  assert ((e_sem st1 =? 0) = false) as He10 by lia.
  assert ((e_sem st2 =? 0) = false) as He20 by lia.
  assert ((n_sem st1 <? 0) = false) as Hn10 by lia.
  assert ((n_sem st2 <? 0) = false) as Hn20 by lia.
  assert ((is_poll st1 =? 0) = false) as Hp10 by lia.
  assert ((is_poll st2 =? 0) = false) as Hp20 by lia.
  assert ((poll_token t =? 0) = false) as Htok0 by lia.
  destruct (mon1 =? NULL) eqn:Hmon1; destruct (mon2 =? NULL) eqn:Hmon2;
    (do 4 eexists; split;
     [ unfold LpelStreamWrite, write_P, write_deposit, write_V; run
     | split; [reflexivity|]; split; [solve_deref|];
       split; [solve_deref|]; split; [reflexivity|];
       split; [solve_deref|]; reflexivity ]).
Qed.

End PollFlag.

(** * The further properties at work on the concrete configuration *)

(** The streams of the concrete configuration, as queues. *)
Lemma ex_stream_holds u prod cons : stream_holds (ex_stream u prod cons) [].
Proof.
  unfold stream_holds, ex_stream. cbn [buffer n_sem e_sem prod_lock is_poll].
  split; [apply buffer_holds_init; lia|].
  cbn. unfold INT_MAX. repeat split; lia.
Qed.

Lemma ex_stream_item_holds : stream_holds ex_stream_item [77].
Proof.
  unfold stream_holds, buffer_holds, ring_slot, INT_MAX. cbn.
  repeat split; try lia.
  - intros k Hk. destruct k as [|[|k]]; [reflexivity|reflexivity|lia].
  - repeat constructor. discriminate.
Qed.

Lemma ex_stream_full_holds : stream_holds ex_stream_full [5; 6].
Proof.
  unfold stream_holds, buffer_holds, ring_slot, INT_MAX. cbn.
  repeat split; try lia.
  - intros k Hk. destruct k as [|[|k]]; [reflexivity|reflexivity|lia].
  - repeat constructor; discriminate.
Qed.

Lemma ex_world_item_unpolled sd : In sd [30; 31; 32] -> desc_unpolled ex_world_item sd.
Proof.
  intros [<-|[<-|[<-|[]]]]; unfold desc_unpolled; eexists; split; reflexivity.
Qed.

Lemma ex_buffer_empty : buffer_empty (buffer_init 2).
Proof. unfold buffer_empty. cbn. repeat split; lia. Qed.

(** Stream 11 holds 77; 88 is written behind it. *)
Lemma LpelStreamWrite_enqueues_witness :
  exists w' tr,
    LpelStreamWrite no_interference 21 88 ex_world_item = Done tt w' tr /\
    holds w' 11 [77; 88] /\
    sched_calls tr = [] /\
    descs w' = descs ex_world_item /\
    tasks w' = tasks ex_world_item /\
    (forall p, p <> 11 -> streams w' !! p = streams ex_world_item !! p).
Proof.
  apply (LpelStreamWrite_enqueues no_interference 21 88 ex_world_item
           (mk_desc 100 11 "w" NULL NULL) ex_stream_item [77]).
  - reflexivity.
  - reflexivity.
  - reflexivity.
  - exact ex_stream_item_holds.
  - cbn. lia.
  - discriminate.
Defined.

Lemma LpelStreamRead_dequeues_witness :
  exists w' tr,
    LpelStreamRead no_interference 31 ex_world_item = Done 77 w' tr /\
    holds w' 11 [] /\
    sched_calls tr = [] /\
    descs w' = descs ex_world_item /\
    tasks w' = tasks ex_world_item /\
    (forall p, p <> 11 -> streams w' !! p = streams ex_world_item !! p).
Proof.
  apply (LpelStreamRead_dequeues no_interference 31 ex_world_item
           (mk_desc 200 11 "r" 32 NULL) ex_stream_item 77 []).
  - reflexivity.
  - reflexivity.
  - reflexivity.
  - exact ex_stream_item_holds.
Defined.

Lemma LpelStreamPeek_shows_next_read_witness :
  LpelStreamPeek 31 ex_world_item = Done 77 ex_world_item [] /\
  (forall x q', [77] = x :: q' ->
     exists w' tr,
       (LpelStreamPeek 31 ;; LpelStreamRead no_interference 31) ex_world_item = Done x w' tr).
Proof.
  apply (LpelStreamPeek_shows_next_read no_interference 31 ex_world_item
           (mk_desc 200 11 "r" 32 NULL) ex_stream_item [77]).
  - reflexivity.
  - reflexivity.
  - reflexivity.
  - exact ex_stream_item_holds.
Defined.

(** Stream 10 is full. *)
Lemma LpelStreamTryWrite_never_suspends_witness :
  exists r w' tr,
    LpelStreamTryWrite no_interference 20 7 ex_world_full = Done r w' tr /\
    sched_calls tr = [] /\
    ((2 < 2)%nat -> r = 0 /\ holds w' 10 [5; 6; 7]) /\
    (2%nat = 2%nat -> r = -1 /\ w' = ex_world_full /\ tr = []).
Proof.
  apply (LpelStreamTryWrite_never_suspends no_interference 20 7 ex_world_full
           (mk_desc 100 10 "w" NULL NULL) ex_stream_full [5; 6]).
  - reflexivity.
  - reflexivity.
  - reflexivity.
  - exact ex_stream_full_holds.
  - discriminate.
Defined.

Lemma writes_then_reads_are_fifo_witness :
  exists w' tr,
    (write_all no_interference 21 [88] ;; read_n no_interference 31 2) ex_world_item =
      Done [77; 88] w' tr /\
    holds w' 11 [] /\
    sched_calls tr = [].
Proof.
  apply (writes_then_reads_are_fifo no_interference 21 31 ex_world_item
           (mk_desc 100 11 "w" NULL NULL) (mk_desc 200 11 "r" 32 NULL)
           ex_stream_item [77] [88]).
  - reflexivity.
  - reflexivity.
  - reflexivity.
  - reflexivity.
  - reflexivity.
  - reflexivity.
  - exact ex_stream_item_holds.
  - cbn. lia.
  - repeat constructor. discriminate.
Defined.

(** Stream 10 is empty: the consumer suspends and the producer writes 5. *)
Lemma read_suspends_until_write_witness :
  exists w' tr,
    LpelStreamRead (producer_writes 20 5) 30 ex_world = Done 5 w' tr /\
    sched_calls tr = [TaskBlock 200 BLOCKED_ON_INPUT] /\
    holds w' 10 [] /\
    unblock_calls
      (match LpelStreamWrite no_interference 20 5
               (world_after (fetch_and_dec (NSem 10)) ex_world) with
       | Done _ _ trw => trw
       | Crash _ => []
       end) = [TaskUnblock 100 200].
Proof.
  apply (read_suspends_until_write 20 30 5 ex_world
           (mk_desc 100 10 "w" NULL NULL) (mk_desc 200 10 "r" 31 NULL) (ex_stream 0 20 30)).
  - reflexivity.
  - reflexivity.
  - reflexivity.
  - reflexivity.
  - reflexivity.
  - reflexivity.
  - apply ex_stream_holds.
  - reflexivity.
  - discriminate.
Defined.

(** Stream 10 is full: the producer suspends and the consumer reads 5. *)
Lemma write_suspends_until_read_witness :
  exists w' tr,
    LpelStreamWrite (consumer_reads 30) 20 7 ex_world_full = Done tt w' tr /\
    sched_calls tr = [TaskBlock 100 BLOCKED_ON_OUTPUT] /\
    holds w' 10 [6; 7] /\
    exists w1 trr,
      LpelStreamRead no_interference 30
        (world_after (fetch_and_dec (ESem 10)) ex_world_full) = Done 5 w1 trr /\
      unblock_calls trr = [TaskUnblock 200 100].
Proof.
  apply (write_suspends_until_read 20 30 7 5 ex_world_full
           (mk_desc 100 10 "w" NULL NULL) (mk_desc 200 10 "r" 31 NULL) ex_stream_full [6]).
  - reflexivity.
  - reflexivity.
  - reflexivity.
  - reflexivity.
  - reflexivity.
  - reflexivity.
  - exact ex_stream_full_holds.
  - reflexivity.
  - reflexivity.
  - discriminate.
Defined.

(** The consumer closes descriptor 30 and destroys stream 10 with it. *)
Lemma LpelStreamClose_frees_witness :
  exists w',
    LpelStreamClose 30 1 ex_world = Done tt w' [] /\
    deref (descs w') 30 = None /\
    (forall p, p <> 30 -> deref (descs w') p = deref (descs ex_world) p) /\
    (1 = 0 -> streams w' = streams ex_world) /\
    (1 <> 0 -> deref (streams w') 10 = None) /\
    (forall s, s <> 10 -> deref (streams w') s = deref (streams ex_world) s) /\
    tasks w' = tasks ex_world.
Proof.
  apply (LpelStreamClose_frees 30 1 ex_world (mk_desc 200 10 "r" 31 NULL)).
  - reflexivity.
  - intros _. discriminate.
Defined.




(** Descriptor 30 is moved from stream 10 to stream 11, which holds 77. *)
Lemma LpelStreamReplace_then_read_witness :
  exists w' tr,
    (LpelStreamReplace 30 11 ;; LpelStreamRead no_interference 30) ex_world_item =
      Done 77 w' tr /\
    sched_calls tr = [] /\
    holds w' 11 [] /\
    deref (streams w') 10 = None /\
    LpelStreamGet 30 w' = Done 11 w' [].
Proof.
  apply (LpelStreamReplace_then_read no_interference 30 11 77 ex_world_item
           (mk_desc 200 10 "r" 31 NULL) (ex_stream 0 20 30) []).
  - reflexivity.
  - reflexivity.
  - reflexivity.
  - discriminate.
  - exists ex_stream_item. split; [reflexivity|exact ex_stream_item_holds].
Defined.

Lemma wrong_mode_fails_assertion_witness :
  LpelStreamRead no_interference 20 ex_world = Crash AssertionFailed /\
  LpelStreamPeek 20 ex_world = Crash AssertionFailed /\
  LpelStreamReplace 20 11 ex_world = Crash AssertionFailed /\
  LpelStreamWrite no_interference 30 5 ex_world = Crash AssertionFailed /\
  LpelStreamWrite no_interference 20 NULL ex_world = Crash AssertionFailed.
Proof.
  apply (wrong_mode_fails_assertion no_interference 30 20 5 11 ex_world
           (mk_desc 200 10 "r" 31 NULL) (mk_desc 100 10 "w" NULL NULL)).
  - reflexivity.
  - reflexivity.
  - reflexivity.
  - reflexivity.
Defined.

(** The static counter stands at 3: the two streams get 3 and 4. *)
Lemma LpelStreamCreate_twice_witness :
  exists w' st1 st2,
    (s1 <- LpelStreamCreate 16 2 ;;
     s2 <- LpelStreamCreate 16 0 ;;
     ret (s1, s2)) ex_world = Done (40, 41) w' [] /\
    deref (streams w') 40 = Some st1 /\
    deref (streams w') 41 = Some st2 /\
    deref (streams (world_after (LpelStreamCreate 16 2) ex_world)) 40 = Some st1 /\
    uid st1 = to_unsigned 3 /\
    uid st2 = (uid st1 + 1) mod 2 ^ 32 /\
    uid st1 <> uid st2 /\
    (forall s, s <> 40 -> s <> 41 -> deref (streams w') s = deref (streams ex_world) s) /\
    descs w' = descs ex_world /\ tasks w' = tasks ex_world.
Proof.
  apply (LpelStreamCreate_twice 16 2 0 40 41 [42] ex_world).
  - lia.
  - lia.
  - reflexivity.
  - discriminate.
  - discriminate.
  - discriminate.
Defined.

Lemma fresh_stream_is_fifo_witness :
  exists w' tr,
    (s <- LpelStreamCreate 16 2 ;;
     sd_w <- LpelStreamOpen no_monitoring s "w" ;;
     sd_r <- LpelStreamOpen no_monitoring s "r" ;;
     write_all no_interference sd_w [5; 6] ;;
     read_n no_interference sd_r 2) ex_world = Done [5; 6] w' tr /\
    sched_calls tr = [] /\
    holds w' 40 [].
Proof.
  apply (fresh_stream_is_fifo no_interference no_monitoring 16 2 40 41 42 [] [5; 6]
           ex_world (mk_task NULL 0 NULL)).
  - unfold INT_MAX. lia.
  - cbn. lia.
  - repeat constructor; discriminate.
  - reflexivity.
  - discriminate.
  - discriminate.
  - discriminate.
  - discriminate.
  - reflexivity.
Defined.

(** Stream 11 holds 77: the scan registers stream 10 and stops at 31. *)
Lemma LpelStreamPoll_finding_item_restores_streams_witness :
  exists w',
    LpelStreamPoll no_interference 4 32 ex_world_item = Done (31, 31) w' [] /\
    streams w' = streams ex_world_item /\
    descs w' = descs ex_world_item /\
    deref (tasks w') (task_of ex_world_item 32) =
      Some (set_wakeup_sd 31 (set_poll_token 0 (mk_task NULL 0 NULL))).
Proof.
  apply (LpelStreamPoll_finding_item_restores_streams no_interference 4 32 ex_world_item
           [30; 31; 32] (mk_task NULL 0 NULL) 31).
  - exact ex_descs_ring.
  - cbn. lia.
  - exact ex_world_item_idle.
  - exact ex_world_item_unpolled.
  - reflexivity.
  - reflexivity.
Defined.

Lemma LpelStreamPoll_then_read_witness :
  exists w' tr,
    (p <- LpelStreamPoll no_interference 4 32 ;; LpelStreamRead no_interference (fst p))
      ex_world_item = Done 77 w' tr /\
    sched_calls tr = [] /\
    holds w' 11 [].
Proof.
  apply (LpelStreamPoll_then_read no_interference 4 32 ex_world_item
           [30; 31; 32] (mk_task NULL 0 NULL) 31 77 (mk_desc 200 11 "r" 32 NULL) []).
  - exact ex_descs_ring.
  - cbn. lia.
  - exact ex_world_item_idle.
  - exact ex_world_item_unpolled.
  - reflexivity.
  - reflexivity.
  - reflexivity.
  - reflexivity.
  - exists ex_stream_item. split; [reflexivity|exact ex_stream_item_holds].
Defined.

(** All three streams are empty; the producer writes 77 to stream 12
    while the consumer is suspended. *)
Lemma poll_suspends_until_write_witness :
  exists w',
    LpelStreamPoll (producer_writes 22 77) 4 32 ex_world =
      Done (32, 32) w' [TaskBlock (task_of ex_world 32) BLOCKED_ON_ANYIN] /\
    LpelStreamPeek 32 w' = Done 77 w' [] /\
    (forall sd, In sd [30; 31; 32] -> desc_unpolled w' sd) /\
    unblock_calls
      (match LpelStreamWrite no_interference 22 77
               (poll_armed ex_world (task_of ex_world 32) [30; 31; 32]) with
       | Done _ _ trw => trw
       | Crash _ => []
       end) = [TaskUnblock 100 (task_of ex_world 32)].
Proof.
  apply (poll_suspends_until_write 4 32 ex_world [30; 31; 32] (mk_task NULL 0 NULL)
           22 32 77 (mk_desc 100 12 "w" NULL NULL) (mk_desc 200 12 "r" 30 NULL)
           (ex_stream 2 22 32)).
  - exact ex_descs_ring.
  - cbn. lia.
  - exact ex_world_idle.
  - reflexivity.
  - reflexivity.
  - cbn. tauto.
  - reflexivity.
  - reflexivity.
  - reflexivity.
  - reflexivity.
  - reflexivity.
  - reflexivity.
  - reflexivity.
  - reflexivity.
  - exact ex_buffer_empty.
  - discriminate.
  - cbn. lia.
  - discriminate.
Defined.

(** Nobody writes to stream 10 while the consumer is suspended. *)
Lemma LpelStreamRead_resumed_without_item_fails_assertion_witness :
  LpelStreamRead no_interference 30 ex_world = Crash AssertionFailed.
Proof.
  apply (LpelStreamRead_resumed_without_item_fails_assertion no_interference 30 ex_world
           (mk_desc 200 10 "r" 31 NULL) (ex_stream 0 20 30) (set_n_sem (-1) (ex_stream 0 20 30))).
  - reflexivity.
  - reflexivity.
  - reflexivity.
  - reflexivity.
  - cbv zeta. split; [reflexivity|]. split; reflexivity.
Defined.

(** Nobody reads from stream 10 while the producer is suspended. *)
Lemma LpelStreamWrite_resumed_without_space_fails_assertion_witness :
  LpelStreamWrite no_interference 20 7 ex_world_full = Crash AssertionFailed.
Proof.
  apply (LpelStreamWrite_resumed_without_space_fails_assertion no_interference 20 7
           ex_world_full (mk_desc 100 10 "w" NULL NULL) ex_stream_full
           (set_e_sem (-1) ex_stream_full)).
  - reflexivity.
  - reflexivity.
  - reflexivity.
  - reflexivity.
  - discriminate.
  - cbv zeta. split; [reflexivity|]. split; [reflexivity|]. split; reflexivity.
Defined.

Lemma LpelStreamPoll_resumed_with_token_fails_assertion_witness :
  LpelStreamPoll no_interference 4 32 ex_world = Crash AssertionFailed.
Proof.
  apply (LpelStreamPoll_resumed_with_token_fails_assertion no_interference 4 32 ex_world
           [30; 31; 32] (mk_task NULL 0 NULL) (mk_task NULL 1 NULL)).
  - exact ex_descs_ring.
  - cbn. lia.
  - exact ex_world_idle.
  - reflexivity.
  - reflexivity.
  - reflexivity.
  - discriminate.
Defined.


(** The consumer polls; the producer writes 5 to stream 10, then 6 to
    stream 11. *)
Lemma poll_token_grants_one_wakeup_witness :
  exists w' tr st1' st2',
    (LpelStreamWrite no_interference 20 5 ;; LpelStreamWrite no_interference 21 6)
      ex_world_polling = Done tt w' tr /\
    sched_calls tr = [TaskUnblock 100 200] /\
    deref (tasks w') 200 = Some (set_wakeup_sd 30 (set_poll_token 0 (mk_task NULL 1 NULL))) /\
    deref (streams w') 10 = Some st1' /\ is_poll st1' = 0 /\
    deref (streams w') 11 = Some st2' /\ is_poll st2' = 0.
Proof.
  apply (poll_token_grants_one_wakeup no_interference 20 21 5 6 200 ex_world_polling
           (mk_desc 100 10 "w" NULL NULL) (mk_desc 100 11 "w" NULL NULL)
           (mk_desc 200 10 "r" 31 NULL) (mk_desc 200 11 "r" 32 NULL)
           (set_is_poll 1 (ex_stream 0 20 30)) (set_is_poll 1 (ex_stream 1 21 31))
           (mk_task NULL 1 NULL));
    try reflexivity; try discriminate; cbn; lia.
Defined.
